(** * Tile scraper: tile addressing, tile planning and the per-tile fetch worker

    A shallow embedding of [tile-scrapper.py] and of the helpers of
    [s3-viewer.py], then the properties of it.

    Numbers.  Python [float]s are idealised as real numbers ([R]): rounding,
    overflow and NaN are not modelled.  Python [int]s are [Z].
    [int(f)] on a float truncates toward zero; [math.radians], [math.tan],
    [math.asinh] and [math.pi] are the corresponding real functions.  At a
    pole of the tangent ([cos] of the latitude is [0]) the real quotient is
    only a convention, and the float computation never reaches it exactly;
    no statement below depends on the value there.  Where rounding or
    overflow changes what the code returns (next to longitude 180, from zoom
    1024 on) the statements keep away from it by a hypothesis.

    Effects.  [upload_tile] talks to the object store, to the tile source,
    to the log, to the clock and to the progress bar.  The answers of the
    outside world are an explicit [world]; everything the program does is
    recorded, in order, in a trace of events, next to the shared [stats]
    dictionary it mutates.  A Python exception that leaves a function is the
    right summand of the result.

    Configuration.  [Worker] is the code from the point where the tile URL
    has been formed; [Configured] puts in front of it the call of
    [str.format] on the pattern read from the environment, which raises when
    the variable is unset or the pattern does not fit, and takes the number
    of workers from the command line.

    Threads.  The pool runs each job to completion in a worker thread and
    keeps whatever it raises inside its future; [stats] is only touched
    under [stats_lock].  A run is modelled as the jobs executed one after the
    other, in submission order. *)

From Stdlib Require Import Reals Lra Lia ZArith List Bool String DecimalString FinFun.
From Stdlib Require Ascii.
Import ListNotations.

(** * Part I: the program *)

(** ** Python numbers *)

Module PyNum.

Local Open Scope R_scope.

(** [int(r)] for a float [r]: truncation toward zero. *)
Definition py_int (r : R) : Z :=
  if Rle_dec 0 r then Int_part r else (- Int_part (- r))%Z.

(** [math.radians]. *)
Definition radians (d : R) : R := d * (PI / 180).

(** [2.0 ** zoom] for an integer [zoom]. *)
Definition pow2 (zoom : Z) : R := powerRZ 2 zoom.

(** [range(a, b)]. *)
Definition py_range (a b : Z) : list Z :=
  map (fun i => (a + Z.of_nat i)%Z) (seq 0 (Z.to_nat (b - a))).

(** [str(z)] for an integer, as an f-string prints it. *)
Definition str_of_Z (z : Z) : string := NilZero.string_of_int (Z.to_int z).

End PyNum.

(** ** [deg2num]: latitude and longitude to tile indices *)

Module TileAddressing.

Import PyNum.
Local Open Scope R_scope.

Definition deg2num (lat_deg lon_deg : R) (zoom : Z) : Z * Z :=
  let lat_rad := radians lat_deg in
  let n := pow2 zoom in
  let xtile := py_int ((lon_deg + 180) / 360 * n) in
  let ytile := py_int ((1 - arcsinh (tan lat_rad) / PI) / 2 * n) in
  (xtile, ytile).

(** The two values before the conversion to an integer. *)
Definition x_raw (lon_deg : R) (zoom : Z) : R := (lon_deg + 180) / 360 * pow2 zoom.

Definition y_raw (lat_deg : R) (zoom : Z) : R :=
  (1 - arcsinh (tan (radians lat_deg)) / PI) / 2 * pow2 zoom.

(** [floor], as the specification writes the formula. *)
Definition floor (r : R) : Z := Int_part r.

(** The specification's [toTile]: the slippy-map formula with [floor]. *)
Definition toTile_floor (lat lon : R) (zoom : Z) : Z * Z :=
  (floor (x_raw lon zoom), floor (y_raw lat zoom)).

End TileAddressing.

(** ** Tile planning: [calculate_tile_count] and the loops of [main] *)

Module Planner.

Import PyNum TileAddressing.
Local Open Scope Z_scope.

(** [min_lon, min_lat, max_lon, max_lat]. *)
Record bbox : Type := BBox {
  min_lon : R;
  min_lat : R;
  max_lon : R;
  max_lat : R
}.

(** [BOUNDING_BOX = [94.5, -11.5, 141.5, 6.0]]. *)
Definition BOUNDING_BOX : bbox := BBox 94.5 (-11.5) 141.5 6.

(** [(start_x, end_x, start_y, end_y)] at one zoom level: the two corners,
    then [min] and [max]. *)
Definition tile_rect (b : bbox) (z : Z) : Z * Z * Z * Z :=
  let '(x_min, y_min) := deg2num (max_lat b) (min_lon b) z in
  let '(x_max, y_max) := deg2num (min_lat b) (max_lon b) z in
  let '(start_x, end_x) := (Z.min x_min x_max, Z.max x_min x_max) in
  let '(start_y, end_y) := (Z.min y_min y_max, Z.max y_min y_max) in
  (start_x, end_x, start_y, end_y).

(** One entry of [details]: [(z, count, start_x, end_x, start_y, end_y)]. *)
Definition detail : Type := (Z * Z * Z * Z * Z * Z)%type.

(** One turn of the loop of [calculate_tile_count]. *)
Definition count_step (b : bbox) (acc : Z * list detail) (z : Z) : Z * list detail :=
  let '(total, details) := acc in
  let '(start_x, end_x, start_y, end_y) := tile_rect b z in
  let count := (end_x - start_x + 1) * (end_y - start_y + 1) in
  (total + count, details ++ [(z, count, start_x, end_x, start_y, end_y)]).

Definition calculate_tile_count (min_zoom max_zoom : Z) (b : bbox) : Z * list detail :=
  fold_left (count_step b) (py_range min_zoom (max_zoom + 1)) (0, []).

(** A tile job: the arguments [(z, x, y)] of one [executor.submit]. *)
Definition tile : Type := (Z * Z * Z)%type.

(** The two inner loops of [main] at one zoom level. *)
Definition zoom_jobs (b : bbox) (z : Z) : list tile :=
  let '(start_x, end_x, start_y, end_y) := tile_rect b z in
  flat_map
    (fun x => map (fun y => (z, x, y)) (py_range start_y (end_y + 1)))
    (py_range start_x (end_x + 1)).

(** The three nested loops of [main], in submission order. *)
Definition main_jobs (min_zoom max_zoom : Z) (b : bbox) : list tile :=
  flat_map (zoom_jobs b) (py_range min_zoom (max_zoom + 1)).

(** The total of the specification: the sum over the zoom levels of the
    rectangle areas. *)
Definition rect_area (r : Z * Z * Z * Z) : Z :=
  let '(start_x, end_x, start_y, end_y) := r in
  (end_x - start_x + 1) * (end_y - start_y + 1).

Definition plan_total (min_zoom max_zoom : Z) (b : bbox) : Z :=
  fold_right Z.add 0 (map (fun z => rect_area (tile_rect b z)) (py_range min_zoom (max_zoom + 1))).

End Planner.

(** ** The fetch worker, the benchmark and the scheduler *)

Module Worker.

Import PyNum TileAddressing Planner.
Local Open Scope Z_scope.

Definition bytes : Type := list Byte.byte.

(** The exceptions the program tells apart; all are subclasses of
    [Exception]. *)
Inductive exn : Type :=
| Timeout                          (* requests.exceptions.Timeout *)
| ClientError (code : string)      (* botocore ClientError with e.response['Error']['Code'] *)
| OtherException (name : string).  (* anything else, e.g. EndpointConnectionError *)

(** The string that [SOURCE_URL_PATTERN.format(z=z, x=x, y=y)] returns, named
    by the pattern and its three arguments (the substitution itself is
    [str.format]).  The call that may raise is [Configured.format_url]. *)
Record url : Type := Url {
  url_pattern : string;
  url_z : Z;
  url_x : Z;
  url_y : Z
}.

(** What [requests.get] returns: the status, and the body that
    [response.content] reads (reading a streamed body may raise). *)
Record response : Type := Response {
  status_code : Z;
  content : bytes + exn
}.

(** The outside world.  Every question is asked at a time (the number of
    questions asked before it), so the world may answer the same question
    differently later. *)
Record world : Type := World {
  head_object : nat -> string -> string -> unit + exn;
  requests_get : nat -> url -> response + exn;
  put_object : nat -> string -> string -> bytes -> unit + exn;
  time_time : nat -> R
}.

(** The four keys of [stats], which are also the four strings
    [upload_tile] returns. *)
Inductive outcome : Type := Success | Skipped | Failed | NotFound.

Definition outcome_str (o : outcome) : string :=
  match o with
  | Success => "success"
  | Skipped => "skipped"
  | Failed => "failed"
  | NotFound => "not_found"
  end.

Record stats_t : Type := Stats {
  success : Z;
  skipped : Z;
  failed : Z;
  not_found : Z
}.

Inductive level : Type := INFO | WARNING | ERROR.

(** The texts that are logged or printed, by their format string. *)
Inductive message : Type :=
| MsgS3CheckError (s3_key : string) (e : exn)     (* [WARNING] S3 Check Error for ... *)
| MsgEmptyContent (z x y : Z)                     (* Empty content: z/x/y *)
| Msg404 (z x y : Z)                              (* 404 Not Found: z/x/y *)
| MsgHTTP (status : Z) (z x y : Z)                (* HTTP status: z/x/y *)
| MsgTimeout (attempt : Z) (z x y : Z)            (* Timeout (attempt n): z/x/y *)
| MsgException (attempt : Z) (z x y : Z) (e : exn) (* Exception (attempt n): z/x/y - e *)
| MsgFailedAfter (retries : Z) (z x y : Z)        (* Failed after n attempts: z/x/y *)
| MsgBenchmarking (num_samples : nat)             (* Benchmarking speed with n sample tiles... *)
| MsgSample (k : nat) (num_samples : nat) (elapsed : R) (* Sample k/n: t s *)
| MsgSampleFailed (e : exn)                       (* Sample failed: e *)
| MsgBenchmarkResults (avg_time : R) (workers : Z) (estimated_seconds : R)
| MsgBenchmarkWarning.                            (* Warning: Could not benchmark speed ... *)

Inductive event : Type :=
| EvHeadObject (bucket key : string)
| EvGet (u : url) (timeout : Z)
| EvPutObject (bucket key : string) (body : bytes) (content_type : string)
| EvSleep (seconds : Z)
| EvTime
| EvLog (l : level) (m : message)
| EvPrint (m : message)
| EvPbarUpdate (n : Z).

(** The state of the process: the [stats] dictionary, what has happened so
    far, and the time. *)
Record pstate : Type := PState {
  stats : stats_t;
  trace : list event;
  ticks : nat
}.

Definition stats0 : stats_t := Stats 0 0 0 0.
Definition pstate0 : pstate := PState stats0 [] 0.

(** A computation: it returns a value or raises, and leaves a state. *)
Definition M (A : Type) : Type := pstate -> (A + exn) * pstate.

Definition ret {A : Type} (a : A) : M A := fun s => (inl a, s).

Definition bind {A B : Type} (m : M A) (k : A -> M B) : M B :=
  fun s =>
    match m s with
    | (inl a, s') => k a s'
    | (inr e, s') => (inr e, s')
    end.

Definition raise {A : Type} (e : exn) : M A := fun s => (inr e, s).

Declare Scope py_scope.
Delimit Scope py_scope with py.
Notation "x <- c1 ;; c2" := (bind c1 (fun x => c2))
  (at level 61, c1 at next level, right associativity) : py_scope.
Notation "c1 ;; c2" := (bind c1 (fun _ => c2))
  (at level 61, right associativity) : py_scope.
Local Open Scope py_scope.

(** An effect that asks the world nothing. *)
Definition emit (e : event) : M unit :=
  fun s => (inl tt, PState (stats s) (trace s ++ [e]) (ticks s)).

(** An effect whose answer comes from the world, at the current time. *)
Definition ask {A : Type} (e : event) (answer : nat -> A) : M A :=
  fun s => (inl (answer (ticks s)), PState (stats s) (trace s ++ [e]) (S (ticks s))).

Definition incr (key : outcome) (st : stats_t) : stats_t :=
  match key with
  | Success => Stats (success st + 1) (skipped st) (failed st) (not_found st)
  | Skipped => Stats (success st) (skipped st + 1) (failed st) (not_found st)
  | Failed => Stats (success st) (skipped st) (failed st + 1) (not_found st)
  | NotFound => Stats (success st) (skipped st) (failed st) (not_found st + 1)
  end.

(** [with stats_lock: stats[key] += 1]. *)
Definition update_stats (key : outcome) : M unit :=
  fun s => (inl tt, PState (incr key (stats s)) (trace s) (ticks s)).

(** [success + skipped + not_found + failed]. *)
Definition stats_sum (st : stats_t) : Z :=
  success st + skipped st + not_found st + failed st.

Definition DESTINATION_PREFIX : string := "raster".
Definition MAX_RETRIES : Z := 3.
Definition RETRY_DELAY : Z := 1.
Definition MAX_WORKERS : Z := 20.

Section Program.

(** Read from the environment when the module is loaded.  In this section
    the pattern is a string on which [format] returns. *)
Variable AWS_S3_BUCKET : string.
Variable SOURCE_URL_PATTERN : string.

Variable w : world.

Definition tile_url (z x y : Z) : url := Url SOURCE_URL_PATTERN z x y.

(** [f"{DESTINATION_PREFIX}/{z}/{x}/{y}.png"]. *)
Definition tile_key (z x y : Z) : string :=
  (DESTINATION_PREFIX ++ "/" ++ str_of_Z z ++ "/" ++ str_of_Z x ++ "/"
     ++ str_of_Z y ++ ".png")%string.

Definition check_exists (s3_key : string) : M bool :=
  r <- ask (EvHeadObject AWS_S3_BUCKET s3_key)
           (fun t => head_object w t AWS_S3_BUCKET s3_key) ;;
  match r with
  | inl _ => ret true
  | inr (ClientError code) =>
      if String.eqb code "404" then ret false
      else emit (EvPrint (MsgS3CheckError s3_key (ClientError code))) ;; ret false
  | inr e => raise e
  end.

(** [if pbar: pbar.update(1)]. *)
Definition pbar_update (pbar : bool) : M unit :=
  if pbar then emit (EvPbarUpdate 1) else ret tt.

(** The [try] statement of one attempt: [Some] is a [return] out of the
    loop, [None] falls through to the code after the [try]. *)
Definition attempt_once (z x y : Z) (pbar : bool) (attempt : Z) : M (option outcome) :=
  g <- ask (EvGet (tile_url z x y) 15) (fun t => requests_get w t (tile_url z x y)) ;;
  match g with
  | inl resp =>
      if status_code resp =? 200 then
        match content resp with
        | inl body =>
            if 0 <? Z.of_nat (List.length body) then
              p <- ask (EvPutObject AWS_S3_BUCKET (tile_key z x y) body "image/png")
                       (fun t => put_object w t AWS_S3_BUCKET (tile_key z x y) body) ;;
              match p with
              | inl _ =>
                  update_stats Success ;;
                  pbar_update pbar ;;
                  ret (Some Success)
              | inr Timeout => emit (EvLog WARNING (MsgTimeout (attempt + 1) z x y)) ;; ret None
              | inr e => emit (EvLog ERROR (MsgException (attempt + 1) z x y e)) ;; ret None
              end
            else emit (EvLog WARNING (MsgEmptyContent z x y)) ;; ret None
        | inr Timeout => emit (EvLog WARNING (MsgTimeout (attempt + 1) z x y)) ;; ret None
        | inr e => emit (EvLog ERROR (MsgException (attempt + 1) z x y e)) ;; ret None
        end
      else if status_code resp =? 404 then
        emit (EvLog INFO (Msg404 z x y)) ;;
        update_stats NotFound ;;
        pbar_update pbar ;;
        ret (Some NotFound)
      else emit (EvLog WARNING (MsgHTTP (status_code resp) z x y)) ;; ret None
  | inr Timeout => emit (EvLog WARNING (MsgTimeout (attempt + 1) z x y)) ;; ret None
  | inr e => emit (EvLog ERROR (MsgException (attempt + 1) z x y e)) ;; ret None
  end.

(** [for attempt in range(MAX_RETRIES)]: [None] when the loop runs out. *)
Fixpoint retry_loop (z x y : Z) (pbar : bool) (attempts : list Z) : M (option outcome) :=
  match attempts with
  | [] => ret None
  | attempt :: rest =>
      r <- attempt_once z x y pbar attempt ;;
      match r with
      | Some o => ret (Some o)
      | None =>
          (if attempt <? MAX_RETRIES - 1 then emit (EvSleep RETRY_DELAY) else ret tt) ;;
          retry_loop z x y pbar rest
      end
  end.

(** [upload_tile] from line 110 on, the URL being [tile_url z x y]. *)
Definition upload_tile (z x y : Z) (pbar : bool) : M outcome :=
  let s3_key := tile_key z x y in
  e <- check_exists s3_key ;;
  if (e : bool) then
    update_stats Skipped ;;
    pbar_update pbar ;;
    ret Skipped
  else
    r <- retry_loop z x y pbar (py_range 0 MAX_RETRIES) ;;
    match r with
    | Some o => ret o
    | None =>
        update_stats Failed ;;
        emit (EvLog ERROR (MsgFailedAfter MAX_RETRIES z x y)) ;;
        pbar_update pbar ;;
        ret Failed
    end.

(** *** The scheduler of [main] *)

(** What a future holds once its job is done. *)
Definition future : Type := (outcome + exn)%type.

(** [executor.submit(upload_tile, z, x, y, pbar)], run to completion: an
    exception stays in the future. *)
Definition run_job (pbar : bool) (j : tile) (s : pstate) : future * pstate :=
  let '(z, x, y) := j in upload_tile z x y pbar s.

Fixpoint run_jobs (pbar : bool) (jobs : list tile) (s : pstate) : list future * pstate :=
  match jobs with
  | [] => ([], s)
  | j :: rest =>
      let '(f, s1) := run_job pbar j s in
      let '(fs, s2) := run_jobs pbar rest s1 in
      (f :: fs, s2)
  end.

(** The [with] block of [main]: submit every tile, wait for all futures. *)
Definition main_scrape (min_zoom max_zoom : Z) (s : pstate) : list future * pstate :=
  run_jobs true (main_jobs min_zoom max_zoom BOUNDING_BOX) s.

(** *** The benchmark of the estimator *)

(** [sum(times)]. *)
Definition py_sum (l : list R) : R := fold_left Rplus l 0%R.

Definition estimate_time (total_tiles : Z) (avg_time_per_tile : R) (workers : Z) : R :=
  (IZR total_tiles * avg_time_per_tile / IZR workers * 1.2)%R.

(** [for z in [8, 10, 12]: ... if len(sample_tiles) >= num_samples: break]. *)
Fixpoint sample_loop (zs : list Z) (num_samples : nat) (sample_tiles : list tile) : list tile :=
  match zs with
  | [] => sample_tiles
  | z :: rest =>
      let '(x_min, y_min) := deg2num (max_lat BOUNDING_BOX) (min_lon BOUNDING_BOX) z in
      let '(x_max, y_max) := deg2num (min_lat BOUNDING_BOX) (max_lon BOUNDING_BOX) z in
      let mid_x := (x_min + x_max) / 2 in
      let mid_y := (y_min + y_max) / 2 in
      let sample_tiles :=
        sample_tiles ++ [(z, mid_x, mid_y); (z, mid_x + 1, mid_y); (z, mid_x, mid_y + 1)] in
      if (num_samples <=? List.length sample_tiles)%nat then sample_tiles
      else sample_loop rest num_samples sample_tiles
  end.

(** One sample, from [start = time.time()] to the end of the [try] block
    before [times.append]: the elapsed time, or the exception that the
    [except Exception] clause catches. *)
Definition bench_try (z x y : Z) : M (R + exn) :=
  start <- ask EvTime (time_time w) ;;
  g <- ask (EvGet (tile_url z x y) 15) (fun t => requests_get w t (tile_url z x y)) ;;
  match g with
  | inr e => ret (inr e)
  | inl resp =>
      uploaded <-
        (if status_code resp =? 200 then
           match content resp with
           | inr e => ret (inr e)
           | inl body =>
               ask (EvPutObject AWS_S3_BUCKET (tile_key z x y) body "image/png")
                   (fun t => put_object w t AWS_S3_BUCKET (tile_key z x y) body)
           end
         else ret (inl tt)) ;;
      match uploaded with
      | inr e => ret (inr e)
      | inl _ =>
          stop <- ask EvTime (time_time w) ;;
          ret (inl (stop - start)%R)
      end
  end.

(** [for z, x, y in sample_tiles], with [times] as it grows, for a pattern
    on which [format] returns. *)
Fixpoint bench_loop (num_samples : nat) (samples : list tile) (times : list R) : M (list R) :=
  match samples with
  | [] => ret times
  | (z, x, y) :: rest =>
      r <- bench_try z x y ;;
      match r with
      | inl elapsed =>
          let times := times ++ [elapsed] in
          emit (EvPrint (MsgSample (List.length times) num_samples elapsed)) ;;
          bench_loop num_samples rest times
      | inr e =>
          emit (EvPrint (MsgSampleFailed e)) ;;
          bench_loop num_samples rest times
      end
  end.

(** [num_samples] is a count; the only call passes 10. *)
Definition benchmark_speed (num_samples : nat) : M (option R) :=
  emit (EvPrint (MsgBenchmarking num_samples)) ;;
  let sample_tiles := firstn num_samples (sample_loop [8; 10; 12] num_samples []) in
  times <- bench_loop num_samples sample_tiles [] ;;
  match times with
  | [] => ret None
  | _ :: _ => ret (Some (py_sum times / INR (List.length times))%R)
  end.

(** The benchmark step of [main]; [if avg_time:] is false for [None] and
    for [0.0]. *)
Definition main_benchmark (total_tiles : Z) : M unit :=
  avg_time <- benchmark_speed 10 ;;
  match avg_time with
  | Some t =>
      if Req_dec_T t 0 then emit (EvPrint MsgBenchmarkWarning)
      else emit (EvPrint (MsgBenchmarkResults t MAX_WORKERS
                            (estimate_time total_tiles t MAX_WORKERS)))
  | None => emit (EvPrint MsgBenchmarkWarning)
  end.

End Program.

End Worker.

(** ** Observations and scenarios *)

(** What an observer of a run can count. *)
Module Observe.

Import Worker.

(** The events between two states of one run. *)
Definition events_since (s s' : pstate) : list event :=
  skipn (List.length (trace s)) (trace s').

Definition is_get (e : event) : bool :=
  match e with EvGet _ _ => true | _ => false end.

Definition is_put (e : event) : bool :=
  match e with EvPutObject _ _ _ _ => true | _ => false end.

Definition is_sleep (e : event) : bool :=
  match e with EvSleep _ => true | _ => false end.

(** How often the tile source was called. *)
Definition source_calls (evs : list event) : nat := List.length (filter is_get evs).

(** How often the store was written. *)
Definition store_writes (evs : list event) : nat := List.length (filter is_put evs).

(** The calls of the source and the sleeps, in order. *)
Definition calls_and_sleeps (evs : list event) : list event :=
  filter (fun e => is_get e || is_sleep e) evs.

(** The warning that [check_exists] prints for a [ClientError] other than
    404. *)
Definition check_warning (s3_key code : string) : list event :=
  if String.eqb code "404" then []
  else [EvPrint (MsgS3CheckError s3_key (ClientError code))].

(** The state after the pause that follows a failed attempt. *)
Definition after_pause (attempt : Z) (s : pstate) : pstate :=
  if (attempt <? MAX_RETRIES - 1)%Z
  then PState (stats s) (trace s ++ [EvSleep RETRY_DELAY]) (ticks s)
  else s.

(** The futures that hold a result and not an exception. *)
Definition returned (fs : list future) : nat :=
  List.length (filter (fun f => match f with inl _ => true | inr _ => false end) fs).

(** The round trips of the benchmark loop, one entry per sample and in
    order: the elapsed time of a round trip that completed, or the exception
    that ended it.  [k] is [len(times)] so far. *)
Fixpoint bench_history (B P : string) (w : world) (num_samples : nat)
  (samples : list Planner.tile) (k : nat) (s : pstate) : list (R + exn) :=
  match samples with
  | [] => []
  | (z, x, y) :: rest =>
      match bench_try B P w z x y s with
      | (inl (inl elapsed), s1) =>
          inl elapsed
            :: bench_history B P w num_samples rest (S k)
                 (snd (emit (EvPrint (MsgSample (S k) num_samples elapsed)) s1))
      | (inl (inr e), s1) =>
          inr e
            :: bench_history B P w num_samples rest k
                 (snd (emit (EvPrint (MsgSampleFailed e)) s1))
      | (inr _, _) => []
      end
  end.

(** The elapsed times of the round trips that completed. *)
Fixpoint completed_times (h : list (R + exn)) : list R :=
  match h with
  | [] => []
  | inl elapsed :: rest => elapsed :: completed_times rest
  | inr _ :: rest => completed_times rest
  end.

(** The samples of [benchmark_speed] and the state in which its loop
    starts. *)
Definition bench_samples (num_samples : nat) : list Planner.tile :=
  firstn num_samples (sample_loop [8; 10; 12]%Z num_samples []).

Definition bench_start (num_samples : nat) (s : pstate) : pstate :=
  snd (emit (EvPrint (MsgBenchmarking num_samples)) s).

End Observe.

(** Small worlds on which the theorems are exercised. *)
Module Scenarios.

Import Worker.

Definition bucket : string := "tiles".
Definition pattern : string := "https://tiles.example/{z}/{x}/{y}.png".

(** Every key is already in the store. *)
Definition world_all_stored : world :=
  World (fun _ _ _ => inl tt)
        (fun _ _ => inr Timeout)
        (fun _ _ _ _ => inl tt)
        (fun _ => 0%R).

(** The store is empty and the source never answers in time. *)
Definition world_timeouts : world :=
  World (fun _ _ _ => inr (ClientError "404"))
        (fun _ _ => inr Timeout)
        (fun _ _ _ _ => inl tt)
        (fun _ => 0%R).

(** The store is empty and the source has no tile. *)
Definition world_no_tiles : world :=
  World (fun _ _ _ => inr (ClientError "404"))
        (fun _ _ => inl (Response 404 (inl [])))
        (fun _ _ _ _ => inl tt)
        (fun _ => 0%R).

(** The store cannot be reached for one key (the connection fails before
    any response, which botocore reports as an exception that is not a
    [ClientError]); every other key is already stored. *)
Definition world_store_unreachable : world :=
  World (fun _ _ key =>
           if String.eqb key "raster/2/3/1.png"
           then inr (OtherException "EndpointConnectionError")
           else inl tt)
        (fun _ _ => inr Timeout)
        (fun _ _ _ _ => inl tt)
        (fun _ => 0%R).

End Scenarios.

(** ** Views of the plan, tallies and more scenarios *)

Module PlanView.
Import PyNum TileAddressing Planner.
Local Open Scope Z_scope.
(** The entry of [details] that [calculate_tile_count] appends for zoom [z]. *)
Definition detail_of (b : bbox) (z : Z) : detail :=
  let '(start_x, end_x, start_y, end_y) := tile_rect b z in
  (z, (end_x - start_x + 1) * (end_y - start_y + 1), start_x, end_x, start_y, end_y).

(** The [count] field of an entry of [details]. *)
Definition detail_count (d : detail) : Z :=
  let '(_, count, _, _, _, _) := d in count.
End PlanView.

Module Tally.

Import Worker Observe.

Definition is_head (e : event) : bool :=
  match e with EvHeadObject _ _ => true | _ => false end.

(** How often the existence of a key was checked. *)
Definition existence_checks (evs : list event) : nat := List.length (filter is_head evs).

(** How often the worker slept. *)
Definition sleeps (evs : list event) : nat := List.length (filter is_sleep evs).

Definition outcome_eqb (a b : outcome) : bool :=
  match a, b with
  | Success, Success | Skipped, Skipped | Failed, Failed | NotFound, NotFound => true
  | _, _ => false
  end.

(** The futures that hold the result [o]. *)
Definition tally (o : outcome) (fs : list future) : nat :=
  List.length
    (filter (fun f => match f with inl o' => outcome_eqb o o' | inr _ => false end) fs).

(** The counter of [stats] under key [o]. *)
Definition counter (o : outcome) (st : stats_t) : Z :=
  match o with
  | Success => success st
  | Skipped => skipped st
  | Failed => failed st
  | NotFound => not_found st
  end.

(** A response that is neither a tile nor a 404: any other status, or a 200
    with an empty body. *)
Definition transient (resp : response) : Prop :=
  (status_code resp <> 200%Z /\ status_code resp <> 404%Z) \/
  (status_code resp = 200%Z /\ content resp = inl []).

(** What one attempt adds to the trace: one call of the source, at most one
    write, no sleep and no existence check. *)
Definition attempt_events (evs : list event) : Prop :=
  Observe.source_calls evs = 1%nat /\ (Observe.store_writes evs <= 1)%nat /\
  sleeps evs = 0%nat /\ existence_checks evs = 0%nat.

End Tally.

(** More small worlds. *)
Module MoreScenarios.

Import Worker.

Definition png : bytes := [Byte.x89; Byte.x50; Byte.x4e; Byte.x47].

(** The store is empty, the source serves every tile, every write works. *)
Definition world_serving : world :=
  World (fun _ _ _ => inr (ClientError "404"))
        (fun _ _ => inl (Response 200 (inl png)))
        (fun _ _ _ _ => inl tt)
        (fun _ => 0%R).

(** The source answers every request with a server error. *)
Definition world_server_error : world :=
  World (fun _ _ _ => inr (ClientError "404"))
        (fun _ _ => inl (Response 500 (inl [])))
        (fun _ _ _ _ => inl tt)
        (fun _ => 0%R).

(** The store may be read but not written. *)
Definition world_read_only_store : world :=
  World (fun _ _ _ => inr (ClientError "404"))
        (fun _ _ => inl (Response 200 (inl png)))
        (fun _ _ _ _ => inr (ClientError "AccessDenied"))
        (fun _ => 0%R).

(** The source times out on the first request made at time 1 and serves
    tiles afterwards. *)
Definition world_flaky : world :=
  World (fun _ _ _ => inr (ClientError "404"))
        (fun t _ => if Nat.eqb t 1 then inr Timeout else inl (Response 200 (inl png)))
        (fun _ _ _ _ => inl tt)
        (fun _ => 0%R).

(** The existence check is forbidden (403); the source serves tiles. *)
Definition world_forbidden_check : world :=
  World (fun _ _ _ => inr (ClientError "403"))
        (fun _ _ => inl (Response 200 (inl png)))
        (fun _ _ _ _ => inl tt)
        (fun _ => 0%R).

End MoreScenarios.

(** ** The program as the process runs it *)

(** [Worker] starts where the tile URL has been formed.  Here the calls of
    the source are put together with what comes before: the pattern is
    what [os.getenv] returned, forming the URL is a call of [str.format]
    that may raise, and [MAX_WORKERS] is what the command line made it. *)
Module Configured.

Import PyNum TileAddressing Planner Worker Observe.
Local Open Scope Z_scope.
Local Open Scope py_scope.

Section Process.

Variable AWS_S3_BUCKET : string.

(** [os.getenv("SOURCE_URL_PATTERN")]: [None] when the variable is not
    set. *)
Variable SOURCE_URL_PATTERN : option string.

(** Python's [str.format]: the exception that
    [pattern.format(z=z, x=x, y=y)] raises, if it raises one ([KeyError] or
    [IndexError] for a field other than [z], [x] and [y], [ValueError] for
    braces that do not match). *)
Variable str_format_error : string -> Z -> Z -> Z -> option exn.

(** [MAX_WORKERS], which [--workers] rebinds. *)
Variable MAX_WORKERS : Z.

Variable w : world.

(** [url = SOURCE_URL_PATTERN.format(z=z, x=x, y=y)]; on [None] the
    attribute lookup raises. *)
Definition format_url (z x y : Z) : url + exn :=
  match SOURCE_URL_PATTERN with
  | None => inr (OtherException "AttributeError")
  | Some pattern =>
      match str_format_error pattern z x y with
      | Some e => inr e
      | None => inl (tile_url pattern z x y)
      end
  end.

(** [upload_tile]: line 109, then the rest. *)
Definition upload_tile (z x y : Z) (pbar : bool) : M outcome :=
  match format_url z x y with
  | inr e => raise e
  | inl u => Worker.upload_tile AWS_S3_BUCKET (url_pattern u) w z x y pbar
  end.

(** [executor.submit(upload_tile, z, x, y, pbar)], run to completion: an
    exception stays in the future. *)
Definition run_job (pbar : bool) (j : tile) (s : pstate) : future * pstate :=
  let '(z, x, y) := j in upload_tile z x y pbar s.

Fixpoint run_jobs (pbar : bool) (jobs : list tile) (s : pstate) : list future * pstate :=
  match jobs with
  | [] => ([], s)
  | j :: rest =>
      let '(f, s1) := run_job pbar j s in
      let '(fs, s2) := run_jobs pbar rest s1 in
      (f :: fs, s2)
  end.

(** [for z, x, y in sample_tiles]: the URL is formed before the [try], so an
    exception of [format] leaves the loop and the function. *)
Fixpoint bench_loop (num_samples : nat) (samples : list tile) (times : list R) : M (list R) :=
  match samples with
  | [] => ret times
  | (z, x, y) :: rest =>
      match format_url z x y with
      | inr e => raise e
      | inl u =>
          r <- bench_try AWS_S3_BUCKET (url_pattern u) w z x y ;;
          match r with
          | inl elapsed =>
              let times := times ++ [elapsed] in
              emit (EvPrint (MsgSample (List.length times) num_samples elapsed)) ;;
              bench_loop num_samples rest times
          | inr e =>
              emit (EvPrint (MsgSampleFailed e)) ;;
              bench_loop num_samples rest times
          end
      end
  end.

Definition benchmark_speed (num_samples : nat) : M (option R) :=
  emit (EvPrint (MsgBenchmarking num_samples)) ;;
  let sample_tiles := firstn num_samples (sample_loop [8; 10; 12] num_samples []) in
  times <- bench_loop num_samples sample_tiles [] ;;
  match times with
  | [] => ret None
  | _ :: _ => ret (Some (py_sum times / INR (List.length times))%R)
  end.

(** [estimate_time]: the division by [workers] raises when it is [0]. *)
Definition estimate_time (total_tiles : Z) (avg_time_per_tile : R) (workers : Z) : R + exn :=
  if workers =? 0 then inr (OtherException "ZeroDivisionError")
  else inl (Worker.estimate_time total_tiles avg_time_per_tile workers).

(** The benchmark step of [main]; [if avg_time:] is false for [None] and
    for [0.0]. *)
Definition main_benchmark (total_tiles : Z) : M unit :=
  avg_time <- benchmark_speed 10 ;;
  match avg_time with
  | Some t =>
      if Req_dec_T t 0 then emit (EvPrint MsgBenchmarkWarning)
      else
        match estimate_time total_tiles t MAX_WORKERS with
        | inr e => raise e
        | inl estimated_seconds =>
            emit (EvPrint (MsgBenchmarkResults t MAX_WORKERS estimated_seconds))
        end
  | None => emit (EvPrint MsgBenchmarkWarning)
  end.

End Process.

End Configured.

(** Formatters and worlds on which the theorems about the configured
    program are exercised. *)
Module ConfiguredScenarios.

Import Worker.

(** [str.format] on a pattern whose fields are [z], [x] and [y], such as
    [Scenarios.pattern]: nothing is raised. *)
Definition format_returns : string -> Z -> Z -> Z -> option exn :=
  fun _ _ _ _ => None.

(** The store is empty, the source answers every request with a server
    error, and the clock advances by one second per question asked. *)
Definition world_server_error_clock : world :=
  World (fun _ _ _ => inr (ClientError "404"))
        (fun _ _ => inl (Response 500 (inl [])))
        (fun _ _ _ _ => inl tt)
        (fun t => INR t).

End ConfiguredScenarios.

(** ** [main] *)

Module MainProgram.

Import Ascii.
Import PyNum TileAddressing Planner Worker Observe.
Local Open Scope Z_scope.

(** [estimate_size(tile_count, avg_tile_size_kb=15)]. *)
Definition estimate_size (tile_count : Z) (avg_tile_size_kb : R) : R * R :=
  let size_mb := (IZR tile_count * avg_tile_size_kb / 1024)%R in
  let size_gb := (size_mb / 1024)%R in
  (size_mb, size_gb).

(** What [main] prints, by its [print] statement. *)
Inductive console_line : Type :=
| LineCredentialsError                       (* Error: AWS credentials not found... *)
| LineHeader (source : option string) (bucket : string) (b : bbox) (min_zoom max_zoom : Z)
| LineZoom (d : detail)                      (* Zoom z: count tiles (X: sx-ex, Y: sy-ey) *)
| LineTotals (total_tiles : Z) (est_mb est_gb : R)
| LineAborted                                (* Aborted by user. *)
| LineStarting                               (* Starting scrape... *)
| LineSummary (elapsed : R) (st : stats_t).  (* SCRAPE COMPLETE ... the four counters *)

(** Everything a run of [main] does, in order: its own lines, the prompt
    with what [input] gave back, and the events of the code it calls. *)
Inductive main_event : Type :=
| Console (l : console_line)
| Prompt (answer : string + exn)
| Core (e : event).

(** A run of [main]: what happened, the state it leaves, the futures it
    collected, and whether it returned or raised. *)
Record run : Type := Run {
  out : list main_event;
  final : pstate;
  futures : list future;
  result : unit + exn
}.

(** [not v] for a value read with [os.getenv]: [None] and the empty string
    are false. *)
Definition is_set (v : option string) : bool :=
  match v with
  | Some s => negb (String.eqb s "")
  | None => false
  end.

Definition core_events (s s' : pstate) : list main_event :=
  map Core (events_since s s').

(** The events of the called code among the events of [main]. *)
Definition core_of (evs : list main_event) : list event :=
  flat_map (fun e => match e with Core c => [c] | _ => [] end) evs.

(** What the confirmation step comes to. *)
Inductive consent : Type :=
| Proceed
| Decline
| InputRaised (e : exn).

Section Main.

(** [str.strip] followed by [str.lower], Python's own. *)
Variable strip_lower : string -> string.

Variables (AWS_ACCESS_KEY_ID AWS_S3_BUCKET : option string).
Variable SOURCE_URL_PATTERN : option string.
Variable str_format_error : string -> Z -> Z -> Z -> option exn.
Variables (MIN_ZOOM MAX_ZOOM MAX_WORKERS : Z) (NO_CONFIRM : bool).
Variable w : world.

(** What [input] gives back at the prompt: the line typed, or the exception
    it raises ([EOFError] when the input is closed). *)
Variable typed : string + exn.

(** [time.time()]. *)
Definition read_clock (s : pstate) : R * pstate :=
  (time_time w (ticks s), PState (stats s) (trace s ++ [EvTime]) (S (ticks s))).

(** [if not NO_CONFIRM: confirm = input(...).strip().lower()] and
    [if confirm not in ['yes', 'y']]. *)
Definition confirmation : consent :=
  if NO_CONFIRM then Proceed
  else
    match typed with
    | inr e => InputRaised e
    | inl line =>
        let confirm := strip_lower line in
        if String.eqb confirm "yes" || String.eqb confirm "y" then Proceed else Decline
    end.

Definition main (s : pstate) : run :=
  if negb (is_set AWS_ACCESS_KEY_ID) || negb (is_set AWS_S3_BUCKET) then
    Run [Console LineCredentialsError] s [] (inl tt)
  else
    let bucket := match AWS_S3_BUCKET with Some b => b | None => ""%string end in
    let header := [Console (LineHeader SOURCE_URL_PATTERN bucket BOUNDING_BOX MIN_ZOOM MAX_ZOOM)] in
    let '(total_tiles, details) := calculate_tile_count MIN_ZOOM MAX_ZOOM BOUNDING_BOX in
    let '(est_mb, est_gb) := estimate_size total_tiles 15 in
    let plan :=
      map (fun d => Console (LineZoom d)) details
        ++ [Console (LineTotals total_tiles est_mb est_gb)] in
    let '(b, s1) :=
      Configured.main_benchmark bucket SOURCE_URL_PATTERN str_format_error MAX_WORKERS w
        total_tiles s in
    let out1 := header ++ plan ++ core_events s s1 in
    match b with
    | inr e => Run out1 s1 [] (inr e)
    | inl _ =>
        let asked := if NO_CONFIRM then [] else [Prompt typed] in
        match confirmation with
        | InputRaised e => Run (out1 ++ asked) s1 [] (inr e)
        | Decline => Run (out1 ++ asked ++ [Console LineAborted]) s1 [] (inl tt)
        | Proceed =>
            let '(start_time, s2) := read_clock s1 in
            let out2 := out1 ++ asked ++ [Console LineStarting] in
            if MAX_WORKERS <=? 0 then
              (* ThreadPoolExecutor(max_workers=MAX_WORKERS) *)
              Run (out2 ++ core_events s1 s2) s2 [] (inr (OtherException "ValueError"))
            else
              let pbar := 0 <? total_tiles in
              let '(fs, s3) :=
                Configured.run_jobs bucket SOURCE_URL_PATTERN str_format_error w pbar
                  (main_jobs MIN_ZOOM MAX_ZOOM BOUNDING_BOX) s2 in
              let '(stop_time, s4) := read_clock s3 in
              let elapsed := (stop_time - start_time)%R in
              Run (out2 ++ core_events s1 s4 ++ [Console (LineSummary elapsed (stats s4))])
                  s4 fs (inl tt)
        end
    end.

End Main.

(** [str.strip().lower()] on ASCII text: [str.isspace] holds of the
    characters 9 to 13 and 28 to 32. *)
Definition is_space (c : ascii) : bool :=
  let n := nat_of_ascii c in
  ((Nat.leb 9 n && Nat.leb n 13) || (Nat.leb 28 n && Nat.leb n 32))%bool.

Definition lower_ascii (c : ascii) : ascii :=
  let n := nat_of_ascii c in
  if (Nat.leb 65 n && Nat.leb n 90)%bool then ascii_of_nat (n + 32) else c.

Fixpoint lstrip (s : string) : string :=
  match s with
  | String c rest => if is_space c then lstrip rest else s
  | EmptyString => EmptyString
  end.

Fixpoint string_rev (s : string) : string :=
  match s with
  | String c rest => (string_rev rest ++ String c EmptyString)%string
  | EmptyString => EmptyString
  end.

Fixpoint string_map (f : ascii -> ascii) (s : string) : string :=
  match s with
  | String c rest => String (f c) (string_map f rest)
  | EmptyString => EmptyString
  end.

Definition ascii_strip_lower (s : string) : string :=
  string_map lower_ascii (string_rev (lstrip (string_rev (lstrip s)))).

(** A world in which the source serves every tile and every write to
    the bucket works. *)
Definition serving (w : world) : Prop :=
  (forall t u, exists body, requests_get w t u = inl (Response 200 (inl body))) /\
  (forall t b k body, put_object w t b k body = inl tt).

(** The zoom levels up to which no float operation of [main] leaves the
    range of a double: from zoom 1024 on [2.0 ** zoom] raises, and well
    before that the tile total no longer converts to a float. *)
Definition ZOOM_LIMIT : Z := 500.

End MainProgram.

(** ** The viewer's helpers ([s3-viewer.py]) *)

Module Viewer.

Import Ascii.
Import PyNum Worker.
Local Open Scope string_scope.

(** [s.split(sep)] for a one-character separator. *)
Fixpoint split_on (sep : ascii) (s : string) : list string :=
  match s with
  | EmptyString => [EmptyString]
  | String c rest =>
      if Ascii.eqb c sep then EmptyString :: split_on sep rest
      else
        match split_on sep rest with
        | p :: ps => String c p :: ps
        | [] => [String c EmptyString]
        end
  end.

(** [s.endswith(suffix)]. *)
Definition ends_with (suffix s : string) : bool :=
  (String.length suffix <=? String.length s)%nat
  && String.eqb (substring (String.length s - String.length suffix) (String.length suffix) s)
                suffix.

Definition infer_tile_url (bucket region prefix example_key : string) : string :=
  let base := "https://" ++ bucket ++ ".s3." ++ region ++ ".amazonaws.com" in
  let ext := last (split_on "." example_key) "" in
  let parts := split_on "/" example_key in
  if (3 <=? List.length parts)%nat then
    let last_part := last parts "" in
    let y1 := if negb (ends_with "}" last_part) then "{y}." ++ ext else "{y}" in
    let y2 := if negb (ends_with ext y1) then "{y}." ++ ext else y1 in
    let parts := (firstn (List.length parts - 3) parts ++ ["{z}"; "{x}"; y2])%list in
    let template_path := String.concat "/" parts in
    base ++ "/" ++ template_path
  else
    base ++ "/" ++ prefix ++ "{z}/{x}/{y}." ++ ext.

(** A page of [list_objects_v2]: the sizes under ['Contents'], when the key
    is there. *)
Definition page : Type := option (list Z).

(** What the loop of [calculate_folder_stats] leaves: the pair it returns
    and whether [st.error] was shown, or the exception that escapes. *)
Record folder_stats : Type := FolderStats {
  returned_pair : (Z * Z) + exn;
  error_shown : bool
}.

(** [for obj in page['Contents']]. *)
Fixpoint add_objects (sizes : list Z) (total_size total_count : Z) : Z * Z :=
  match sizes with
  | [] => (total_size, total_count)
  | size :: rest => add_objects rest (total_size + size)%Z (total_count + 1)%Z
  end.

(** [for page in paginator.paginate(...)]: fetching a page may raise. *)
Fixpoint stats_loop (pages : list (page + exn)) (total_size total_count : Z) : folder_stats :=
  match pages with
  | [] => FolderStats (inl (total_size, total_count)) false
  | inl (Some sizes) :: rest =>
      let '(total_size, total_count) := add_objects sizes total_size total_count in
      stats_loop rest total_size total_count
  | inl None :: rest => stats_loop rest total_size total_count
  | inr (ClientError code) :: _ => FolderStats (inl (0, 0)%Z) true
  | inr e :: _ => FolderStats (inr e) false
  end.

Definition calculate_folder_stats (pages : list (page + exn)) : folder_stats :=
  stats_loop pages 0%Z 0%Z.

Definition page_sizes (p : page) : list Z :=
  match p with Some sizes => sizes | None => [] end.

(** The objects of a listing, page after page. *)
Definition listed (pages : list page) : list Z := flat_map page_sizes pages.

Definition sum_sizes (sizes : list Z) : Z := fold_right Z.add 0%Z sizes.

(** No character of [s] is [c]. *)
Fixpoint free_of (c : ascii) (s : string) : bool :=
  match s with
  | EmptyString => true
  | String d rest => negb (Ascii.eqb d c) && free_of c rest
  end.

End Viewer.

(** * Part II: properties *)

(** ** Truncation, floor and powers of two *)

Module PyNumFacts.

Import PyNum.
Local Open Scope R_scope.

Lemma Int_part_bounds (r : R) : IZR (Int_part r) <= r < IZR (Int_part r) + 1.
Proof.
  destruct (base_Int_part r) as [Hlo Hhi]. split; lra.
Qed.

Lemma Int_part_unique (r : R) (z : Z) : IZR z <= r < IZR z + 1 -> Int_part r = z.
Proof.
  intros [Hlo Hhi]. symmetry. apply Int_part_spec. split; lra.
Qed.

Lemma Int_part_IZR (z : Z) : Int_part (IZR z) = z.
Proof. apply Int_part_unique. lra. Qed.

Lemma Int_part_mono (r s : R) : r <= s -> (Int_part r <= Int_part s)%Z.
Proof.
  intros Hrs.
  destruct (Int_part_bounds r) as [Hr _].
  destruct (Int_part_bounds s) as [_ Hs].
  assert (H : IZR (Int_part r) < IZR (Int_part s + 1)).
  { rewrite plus_IZR. simpl. lra. }
  apply lt_IZR in H. lia.
Qed.

Lemma Int_part_nonneg (r : R) : 0 <= r -> (0 <= Int_part r)%Z.
Proof.
  intros Hr. rewrite <- (Int_part_IZR 0). now apply Int_part_mono.
Qed.

Lemma py_int_nonneg (r : R) : 0 <= r -> py_int r = Int_part r.
Proof.
  intros Hr. unfold py_int. destruct (Rle_dec 0 r); [reflexivity | contradiction].
Qed.

Lemma py_int_neg (r : R) : r < 0 -> py_int r = (- Int_part (- r))%Z.
Proof.
  intros Hr. unfold py_int. destruct (Rle_dec 0 r); [lra | reflexivity].
Qed.

Lemma py_int_IZR (z : Z) : py_int (IZR z) = z.
Proof.
  destruct (Rle_dec 0 (IZR z)) as [H | H].
  - rewrite py_int_nonneg by assumption. apply Int_part_IZR.
  - rewrite py_int_neg by lra. rewrite <- opp_IZR, Int_part_IZR. lia.
Qed.

(** On a negative non-integer, truncation is one above the floor. *)
Lemma py_int_neg_small (r : R) : -1 < r < 0 -> py_int r = 0%Z /\ Int_part r = (-1)%Z.
Proof.
  intros [Hlo Hhi]. split.
  - rewrite py_int_neg by assumption.
    rewrite (Int_part_unique (- r) 0); [reflexivity | simpl; lra].
  - apply Int_part_unique. simpl. lra.
Qed.

Lemma py_int_mono (r s : R) : r <= s -> (py_int r <= py_int s)%Z.
Proof.
  intros Hrs. unfold py_int.
  destruct (Rle_dec 0 r) as [Hr | Hr], (Rle_dec 0 s) as [Hs | Hs].
  - now apply Int_part_mono.
  - lra.
  - assert (0 <= Int_part (- r))%Z by (apply Int_part_nonneg; lra).
    assert (0 <= Int_part s)%Z by (apply Int_part_nonneg; lra).
    lia.
  - assert (Int_part (- s) <= Int_part (- r))%Z by (apply Int_part_mono; lra).
    lia.
Qed.

Lemma py_int_range (r : R) (k : Z) : 0 <= r < IZR k -> (0 <= py_int r < k)%Z.
Proof.
  intros [Hlo Hhi]. rewrite py_int_nonneg by assumption. split.
  - now apply Int_part_nonneg.
  - destruct (Int_part_bounds r) as [Hr _].
    apply lt_IZR. lra.
Qed.

Lemma pow2_pos (zoom : Z) : 0 < pow2 zoom.
Proof. unfold pow2. apply powerRZ_lt. lra. Qed.

Lemma pow2_IZR (zoom : Z) : (0 <= zoom)%Z -> pow2 zoom = IZR (2 ^ zoom).
Proof.
  intros Hz. unfold pow2.
  rewrite <- (Z2Nat.id zoom) by assumption.
  rewrite <- pow_powerRZ. apply pow_IZR.
Qed.

Lemma py_range_length (a b : Z) : Z.of_nat (List.length (py_range a b)) = Z.max 0 (b - a).
Proof.
  unfold py_range. rewrite length_map, length_seq. lia.
Qed.

End PyNumFacts.

(** ** Numerical facts about [PI], [sin], [exp] and [sinh]

    The tile rows stay inside the grid as long as
    [|asinh (tan lat)| < PI], that is [|tan lat| < sinh PI]; 85 degrees is
    inside that band because [tan 85deg] is about 11.43 and [sinh PI]
    about 11.55. *)

Module Numerics.

Local Open Scope R_scope.

Lemma PI_lower : 3.1415 < PI.
Proof.
  destruct (PI_2_3_7_ineq 1) as [Hlo _].
  unfold PI_2_3_7_tg, tg_alt, Ratan_seq in Hlo.
  simpl in Hlo.
  lra.
Qed.

Lemma sin_lb_poly (x : R) : sin_lb x = x - x ^ 3 / 6 + x ^ 5 / 120 - x ^ 7 / 5040.
Proof.
  unfold sin_lb, sin_approx, sin_term. simpl. field.
Qed.

Lemma sin_cubic_lower (x : R) : 0 <= x <= 1 -> x - x ^ 3 / 6 <= sin x.
Proof.
  intros [H0 H1].
  assert (Hpi : x <= PI) by (pose proof PI_lower; lra).
  destruct (SIN x H0 Hpi) as [Hs _].
  rewrite sin_lb_poly in Hs.
  assert (H5 : 0 <= x ^ 5) by (apply pow_le; assumption).
  assert (H2 : x ^ 2 <= 1) by nra.
  assert (Hq : 0 <= x ^ 5 / 120 - x ^ 7 / 5040).
  { replace (x ^ 5 / 120 - x ^ 7 / 5040) with (x ^ 5 * ((42 - x ^ 2) / 5040)) by field.
    apply Rmult_le_pos; lra. }
  lra.
Qed.

(** 5 degrees: [sin (PI / 36)] is about 0.08716. *)
Lemma sin_PI36_lower : 0.08696 < sin (PI / 36).
Proof.
  pose proof PI_lower as Hlo. pose proof PI_4 as Hhi.
  set (x := PI / 36).
  assert (Hx : 0.0872638 < x <= 0.1112) by (unfold x; lra).
  assert (Hs : x - x ^ 3 / 6 <= sin x) by (apply sin_cubic_lower; lra).
  assert (H3 : x ^ 3 <= 0.1112 ^ 3).
  { apply pow_incr. lra. }
  lra.
Qed.

Lemma exp_double (y a b : R) : 0 <= a -> a <= exp y -> b <= a * a -> b <= exp (2 * y).
Proof.
  intros H0 H1 Hb. replace (2 * y) with (y + y) by ring. rewrite exp_plus.
  apply Rle_trans with (1 := Hb). apply Rmult_le_compat; assumption.
Qed.

(** [exp 3.1415] from [1 + t <= exp t] at [t = 3.1415 / 4096], squared
    twelve times with the decimals rounded down. *)
Lemma exp_3_1415_lower : 23.09 < exp 3.1415.
Proof.
  assert (H4096 : 1.0007669 <= exp (3.1415 / 4096)).
  { pose proof (exp_ineq1_le (3.1415 / 4096)). lra. }
  assert (H2048 : 1.0015343 <= exp (3.1415 / 2048)).
  { replace (3.1415 / 2048) with (2 * (3.1415 / 4096)) by lra.
    apply (exp_double _ 1.0007669); [lra | exact H4096 | lra]. }
  assert (H1024 : 1.0030709 <= exp (3.1415 / 1024)).
  { replace (3.1415 / 1024) with (2 * (3.1415 / 2048)) by lra.
    apply (exp_double _ 1.0015343); [lra | exact H2048 | lra]. }
  assert (H512 : 1.0061512 <= exp (3.1415 / 512)).
  { replace (3.1415 / 512) with (2 * (3.1415 / 1024)) by lra.
    apply (exp_double _ 1.0030709); [lra | exact H1024 | lra]. }
  assert (H256 : 1.0123402 <= exp (3.1415 / 256)).
  { replace (3.1415 / 256) with (2 * (3.1415 / 512)) by lra.
    apply (exp_double _ 1.0061512); [lra | exact H512 | lra]. }
  assert (H128 : 1.0248326 <= exp (3.1415 / 128)).
  { replace (3.1415 / 128) with (2 * (3.1415 / 256)) by lra.
    apply (exp_double _ 1.0123402); [lra | exact H256 | lra]. }
  assert (H64 : 1.0502818 <= exp (3.1415 / 64)).
  { replace (3.1415 / 64) with (2 * (3.1415 / 128)) by lra.
    apply (exp_double _ 1.0248326); [lra | exact H128 | lra]. }
  assert (H32 : 1.1030918 <= exp (3.1415 / 32)).
  { replace (3.1415 / 32) with (2 * (3.1415 / 64)) by lra.
    apply (exp_double _ 1.0502818); [lra | exact H64 | lra]. }
  assert (H16 : 1.2168115 <= exp (3.1415 / 16)).
  { replace (3.1415 / 16) with (2 * (3.1415 / 32)) by lra.
    apply (exp_double _ 1.1030918); [lra | exact H32 | lra]. }
  assert (H8 : 1.4806302 <= exp (3.1415 / 8)).
  { replace (3.1415 / 8) with (2 * (3.1415 / 16)) by lra.
    apply (exp_double _ 1.2168115); [lra | exact H16 | lra]. }
  assert (H4 : 2.1922657 <= exp (3.1415 / 4)).
  { replace (3.1415 / 4) with (2 * (3.1415 / 8)) by lra.
    apply (exp_double _ 1.4806302); [lra | exact H8 | lra]. }
  assert (H2 : 4.8060288 <= exp (3.1415 / 2)).
  { replace (3.1415 / 2) with (2 * (3.1415 / 4)) by lra.
    apply (exp_double _ 2.1922657); [lra | exact H4 | lra]. }
  assert (H1 : 23.0979128 <= exp (3.1415)).
  { replace (3.1415) with (2 * (3.1415 / 2)) by lra.
    apply (exp_double _ 4.8060288); [lra | exact H2 | lra]. }
  lra.
Qed.

Lemma sinh_PI_lower : 11.5 < sinh PI.
Proof.
  pose proof PI_lower as Hpi. pose proof exp_3_1415_lower as He.
  apply Rlt_trans with (sinh 3.1415); [ | now apply sinh_lt ].
  unfold sinh.
  assert (Hp : 0 < exp (Ropp 3.1415)) by apply exp_pos.
  assert (Hm : exp 3.1415 * exp (Ropp 3.1415) = 1).
  { rewrite <- exp_plus. replace (3.1415 + Ropp 3.1415) with 0 by lra. apply exp_0. }
  assert (Hn : exp (Ropp 3.1415) < 0.05) by nra.
  lra.
Qed.

Lemma tan_85_upper : tan (85 * (PI / 180)) < sinh PI.
Proof.
  pose proof PI_lower as Hlo. pose proof PI_4 as Hhi.
  pose proof sin_PI36_lower as Hs. pose proof sinh_PI_lower as Hsh.
  replace (85 * (PI / 180)) with (PI / 2 - PI / 36) by field.
  unfold tan. rewrite sin_shift, cos_shift.
  destruct (COS_bound (PI / 36)) as [_ Hc].
  apply Rlt_trans with (2 := Hsh).
  apply Rmult_lt_reg_r with (sin (PI / 36)); [lra | ].
  unfold Rdiv. rewrite Rmult_assoc, Rinv_l by lra.
  nra.
Qed.

Lemma sinh_opp (x : R) : sinh (- x) = - sinh x.
Proof. unfold sinh. rewrite Ropp_involutive. field. Qed.

Lemma arcsinh_opp (x : R) : arcsinh (- x) = - arcsinh x.
Proof.
  rewrite <- (sinh_arcsinh x) at 1.
  rewrite <- sinh_opp. apply arcsinh_sinh.
Qed.

End Numerics.

(** ** [deg2num] *)

Module TileAddressingFacts.

Import PyNum TileAddressing PyNumFacts Numerics.
Local Open Scope R_scope.

Lemma radians_lt (a b : R) : a < b -> radians a < radians b.
Proof.
  intros Hab. unfold radians. pose proof PI_RGT_0. nra.
Qed.

Lemma radians_opp (a : R) : radians (- a) = - radians a.
Proof. unfold radians. ring. Qed.

Lemma radians_90 : radians 90 = PI / 2.
Proof. unfold radians. field. Qed.

(** Inside (-90, 90) degrees, [tan] of the latitude grows with it. *)
Lemma tan_radians_le (lat1 lat2 : R) :
  -90 < lat1 -> lat1 <= lat2 -> lat2 < 90 ->
  tan (radians lat1) <= tan (radians lat2).
Proof.
  intros Hlo [Hlt | Heq] Hhi.
  - left. apply tan_increasing.
    + apply radians_lt in Hlo. unfold radians in *. lra.
    + now apply radians_lt.
    + apply radians_lt in Hhi. unfold radians in *. lra.
  - subst. right. reflexivity.
Qed.

Lemma tan_band (lat : R) :
  -85 < lat < 85 -> - sinh PI < tan (radians lat) < sinh PI.
Proof.
  intros [Hlo Hhi].
  pose proof tan_85_upper as H85. fold (radians 85) in H85.
  assert (Hup : tan (radians lat) <= tan (radians 85)).
  { apply tan_radians_le; lra. }
  assert (Hdn : tan (radians (Ropp 85)) <= tan (radians lat)).
  { apply tan_radians_le; lra. }
  rewrite radians_opp, tan_neg in Hdn.
  lra.
Qed.

Lemma arcsinh_tan_band (lat : R) :
  -85 < lat < 85 -> - PI < arcsinh (tan (radians lat)) < PI.
Proof.
  intros Hlat. destruct (tan_band lat Hlat) as [Hlo Hhi].
  apply arcsinh_lt in Hlo. apply arcsinh_lt in Hhi.
  rewrite arcsinh_opp in Hlo. rewrite arcsinh_sinh in Hlo, Hhi.
  split; assumption.
Qed.

Lemma y_raw_band (lat : R) (zoom : Z) :
  -85 < lat < 85 -> 0 < y_raw lat zoom < pow2 zoom.
Proof.
  intros Hlat. destruct (arcsinh_tan_band lat Hlat) as [Hlo Hhi].
  pose proof PI_RGT_0 as Hpi. pose proof (pow2_pos zoom) as Hn.
  unfold y_raw. set (a := arcsinh (tan (radians lat))) in *.
  assert (Hq : -1 < a / PI < 1).
  { split.
    - apply Rmult_lt_reg_r with PI; [assumption | ].
      unfold Rdiv. rewrite Rmult_assoc, Rinv_l by lra. lra.
    - apply Rmult_lt_reg_r with PI; [assumption | ].
      unfold Rdiv. rewrite Rmult_assoc, Rinv_l by lra. lra. }
  split; nra.
Qed.

Lemma x_raw_band (lon : R) (zoom : Z) :
  -180 <= lon < 180 -> 0 <= x_raw lon zoom < pow2 zoom.
Proof.
  intros Hlon. pose proof (pow2_pos zoom) as Hn.
  unfold x_raw. split; nra.
Qed.

Lemma x_raw_le (lon1 lon2 : R) (zoom : Z) :
  lon1 <= lon2 -> x_raw lon1 zoom <= x_raw lon2 zoom.
Proof.
  intros Hl. pose proof (pow2_pos zoom) as Hn. unfold x_raw. nra.
Qed.

Lemma y_raw_ge (lat1 lat2 : R) (zoom : Z) :
  -90 < lat1 -> lat1 <= lat2 -> lat2 < 90 ->
  y_raw lat2 zoom <= y_raw lat1 zoom.
Proof.
  intros Hlo Hle Hhi.
  pose proof (tan_radians_le lat1 lat2 Hlo Hle Hhi) as Ht.
  apply arcsinh_le in Ht.
  pose proof PI_RGT_0 as Hpi. pose proof (pow2_pos zoom) as Hn.
  unfold y_raw.
  set (a1 := arcsinh (tan (radians lat1))) in *.
  set (a2 := arcsinh (tan (radians lat2))) in *.
  assert (Hq : a1 / PI <= a2 / PI).
  { unfold Rdiv. apply Rmult_le_compat_r; [ | assumption ].
    left. now apply Rinv_0_lt_compat. }
  nra.
Qed.

Lemma deg2num_fst (lat lon : R) (zoom : Z) :
  fst (deg2num lat lon zoom) = py_int (x_raw lon zoom).
Proof. reflexivity. Qed.

Lemma deg2num_snd (lat lon : R) (zoom : Z) :
  snd (deg2num lat lon zoom) = py_int (y_raw lat zoom).
Proof. reflexivity. Qed.

Lemma pow2_0 : pow2 0 = 1.
Proof. reflexivity. Qed.

Lemma pow2_1 : pow2 1 = 2.
Proof. unfold pow2. simpl. lra. Qed.

Lemma y_raw_equator (zoom : Z) : y_raw 0 zoom = pow2 zoom / 2.
Proof.
  unfold y_raw, radians. rewrite Rmult_0_l, tan_0, arcsinh_0.
  unfold Rdiv. rewrite Rmult_0_l. lra.
Qed.

(** The margin below longitude 180 is positive and small. *)
Lemma lon_margin : 0 < / 2 ^ 44 <= 1.
Proof.
  split.
  - apply Rinv_0_lt_compat, pow_lt; lra.
  - rewrite <- Rinv_1. apply Rinv_le_contravar; [lra | ]. apply pow_R1_Rle. lra.
Qed.

(** C1, as amended: for a zoom from 0 to 1023, a latitude strictly between
    -85 and 85 degrees and a longitude from -180 to [180 - 2^-44], both tile
    indices of [deg2num] lie in [0, 2^zoom).  ([deg2num] is a function, so
    it is deterministic.)  The two bounds are where the floats end: from
    zoom 1024 on [2.0 ** zoom] is no double, and for the one double between
    [180 - 2^-44] and 180 the sum [lon_deg + 180.0] rounds to 360. *)
Theorem deg2num_in_grid (lat lon : R) (zoom : Z) :
  (0 <= zoom <= 1023)%Z -> -85 < lat < 85 -> -180 <= lon <= 180 - / 2 ^ 44 ->
  (0 <= fst (deg2num lat lon zoom) < 2 ^ zoom)%Z /\
  (0 <= snd (deg2num lat lon zoom) < 2 ^ zoom)%Z.
Proof.
  intros [Hz _] Hlat [Hlo Hhi].
  assert (Hlon : -180 <= lon < 180) by (pose proof lon_margin; lra).
  rewrite deg2num_fst, deg2num_snd.
  pose proof (pow2_IZR zoom Hz) as Hn.
  split; apply py_int_range; rewrite <- Hn.
  - now apply x_raw_band.
  - destruct (y_raw_band lat zoom Hlat). split; lra.
Qed.

Lemma deg2num_in_grid_witness :
  (0 <= fst (deg2num 0 0 1) < 2 ^ 1)%Z /\ (0 <= snd (deg2num 0 0 1) < 2 ^ 1)%Z.
Proof.
  apply (deg2num_in_grid 0 0 1); [lia | lra | ].
  pose proof lon_margin. lra.
Defined.

(** C1, as stated, fails at the valid longitude 180: the column index is
    [2^zoom] itself. *)
Lemma deg2num_lon_180_outside :
  -85 < 0 < 85 /\ -180 <= 180 <= 180 /\
  fst (deg2num 0 180 0) = 1%Z /\ ~ (fst (deg2num 0 180 0) < 2 ^ 0)%Z.
Proof.
  assert (Hx : fst (deg2num 0 180 0) = 1%Z).
  { rewrite deg2num_fst. unfold x_raw. rewrite pow2_0.
    replace ((180 + 180) / 360 * 1) with (IZR 1) by (simpl; field).
    apply py_int_IZR. }
  repeat split; try lra; [exact Hx | rewrite Hx; simpl; lia].
Qed.

(** C2, as amended: [deg2num] truncates toward zero; whenever the two values
    before the conversion are non-negative it returns exactly the floor of
    the slippy-map formula. *)
Theorem deg2num_floor_on_nonneg (lat lon : R) (zoom : Z) :
  0 <= x_raw lon zoom -> 0 <= y_raw lat zoom ->
  deg2num lat lon zoom = toTile_floor lat lon zoom.
Proof.
  intros Hx Hy. unfold deg2num, toTile_floor, floor.
  fold (x_raw lon zoom). fold (y_raw lat zoom).
  rewrite (py_int_nonneg _ Hx), (py_int_nonneg _ Hy). reflexivity.
Qed.

Lemma deg2num_floor_on_nonneg_witness : deg2num 0 0 0 = toTile_floor 0 0 0.
Proof.
  apply (deg2num_floor_on_nonneg 0 0 0).
  - unfold x_raw. rewrite pow2_0. lra.
  - rewrite y_raw_equator, pow2_0. lra.
Defined.

(** C2, as stated, fails where a value before the conversion is negative:
    at longitude -181 and zoom 0 the code returns column 0, the floor
    formula -1. *)
Lemma deg2num_truncates_not_floor :
  fst (deg2num 0 (-181) 0) = 0%Z /\ fst (toTile_floor 0 (-181) 0) = (-1)%Z /\
  deg2num 0 (-181) 0 <> toTile_floor 0 (-181) 0.
Proof.
  assert (Hr : -1 < x_raw (-181) 0 < 0).
  { unfold x_raw. rewrite pow2_0. lra. }
  destruct (py_int_neg_small _ Hr) as [Hc Hf].
  assert (H1 : fst (deg2num 0 (-181) 0) = 0%Z) by (rewrite deg2num_fst; exact Hc).
  assert (H2 : fst (toTile_floor 0 (-181) 0) = (-1)%Z) by exact Hf.
  repeat split; try assumption.
  intros Heq. rewrite Heq in H1. rewrite H1 in H2. discriminate H2.
Qed.

(** C10: at a fixed zoom level the column index never decreases when the
    longitude grows, and, for latitudes strictly between -90 and 90 degrees
    (where the tangent is defined), the row index never increases when the
    latitude grows. *)
Theorem deg2num_monotone (lat lon lat1 lat2 lon1 lon2 : R) (zoom : Z) :
  lon1 <= lon2 ->
  -90 < lat1 -> lat1 <= lat2 -> lat2 < 90 ->
  (fst (deg2num lat lon1 zoom) <= fst (deg2num lat lon2 zoom))%Z /\
  (snd (deg2num lat2 lon zoom) <= snd (deg2num lat1 lon zoom))%Z.
Proof.
  intros Hlon Hlo Hle Hhi.
  rewrite !deg2num_fst, !deg2num_snd.
  split; apply py_int_mono.
  - now apply x_raw_le.
  - now apply y_raw_ge.
Qed.

Lemma deg2num_monotone_witness :
  (fst (deg2num 0 10 3) <= fst (deg2num 0 20 3))%Z /\
  (snd (deg2num 40 0 3) <= snd (deg2num 30 0 3))%Z.
Proof.
  apply (deg2num_monotone 0 0 30 40 10 20 3); lra.
Defined.

End TileAddressingFacts.

(** ** The planner and the submission loops *)

Module PlannerFacts.

Import PyNum TileAddressing Planner PyNumFacts.
Local Open Scope Z_scope.

(** After normalisation the end of a range is never before its start. *)
Lemma tile_rect_ordered (b : bbox) (z : Z) :
  let '(start_x, end_x, start_y, end_y) := tile_rect b z in
  start_x <= end_x /\ start_y <= end_y.
Proof.
  unfold tile_rect.
  destruct (deg2num (max_lat b) (min_lon b) z) as [x_min y_min].
  destruct (deg2num (min_lat b) (max_lon b) z) as [x_max y_max].
  simpl. lia.
Qed.

Lemma py_range_length_incl (a b : Z) :
  a <= b -> Z.of_nat (List.length (py_range a (b + 1))) = b - a + 1.
Proof.
  intros Hab. rewrite py_range_length. lia.
Qed.

(** The two inner loops submit one job per cell of the rectangle. *)
Lemma row_loop_length (z x : Z) (ys : list Z) :
  List.length (map (fun y => (z, x, y)) ys) = List.length ys.
Proof. apply length_map. Qed.

Lemma rect_loop_length (z : Z) (xs ys : list Z) :
  List.length (flat_map (fun x => map (fun y => (z, x, y)) ys) xs)
  = (List.length xs * List.length ys)%nat.
Proof.
  induction xs as [| x xs IH]; cbn [flat_map List.length].
  - reflexivity.
  - rewrite length_app, row_loop_length, IH. reflexivity.
Qed.

Lemma zoom_jobs_length (b : bbox) (z : Z) :
  Z.of_nat (List.length (zoom_jobs b z)) = rect_area (tile_rect b z).
Proof.
  pose proof (tile_rect_ordered b z) as Hord.
  unfold zoom_jobs, rect_area.
  destruct (tile_rect b z) as [[[start_x end_x] start_y] end_y].
  destruct Hord as [Hx Hy].
  rewrite rect_loop_length, Nat2Z.inj_mul.
  rewrite !py_range_length_incl by assumption.
  reflexivity.
Qed.

Lemma jobs_length (b : bbox) (zs : list Z) :
  Z.of_nat (List.length (flat_map (zoom_jobs b) zs))
  = fold_right Z.add 0 (map (fun z => rect_area (tile_rect b z)) zs).
Proof.
  induction zs as [| z zs IH]; cbn [flat_map map fold_right].
  - reflexivity.
  - rewrite length_app, Nat2Z.inj_add, IH, zoom_jobs_length. reflexivity.
Qed.

(** The accumulator [total] of [calculate_tile_count] after any number of
    turns. *)
Lemma count_loop_total (b : bbox) (zs : list Z) (total : Z) (details : list detail) :
  fst (fold_left (count_step b) zs (total, details))
  = total + fold_right Z.add 0 (map (fun z => rect_area (tile_rect b z)) zs).
Proof.
  revert total details.
  induction zs as [| z zs IH]; intros total details; cbn [fold_left map fold_right fst].
  - lia.
  - unfold count_step at 2. unfold rect_area at 1.
    destruct (tile_rect b z) as [[[start_x end_x] start_y] end_y].
    rewrite IH. lia.
Qed.

(** [details] gets one entry per zoom level. *)
Lemma count_loop_details (b : bbox) (zs : list Z) (total : Z) (details : list detail) :
  List.length (snd (fold_left (count_step b) zs (total, details)))
  = (List.length details + List.length zs)%nat.
Proof.
  revert total details.
  induction zs as [| z zs IH]; intros total details; cbn [fold_left snd List.length].
  - lia.
  - unfold count_step at 2.
    destruct (tile_rect b z) as [[[start_x end_x] start_y] end_y].
    rewrite IH, length_app. cbn [List.length]. lia.
Qed.

(** C4: the number of jobs that the loops of [main] submit is the total
    that [calculate_tile_count] returns, and that total is the sum over the
    zoom levels of (end_x - start_x + 1) * (end_y - start_y + 1) for the
    normalised rectangle of the level. *)
Theorem submitted_jobs_match_count (min_zoom max_zoom : Z) (b : bbox) :
  Z.of_nat (List.length (main_jobs min_zoom max_zoom b))
  = fst (calculate_tile_count min_zoom max_zoom b)
  /\ fst (calculate_tile_count min_zoom max_zoom b) = plan_total min_zoom max_zoom b.
Proof.
  assert (Hcount : fst (calculate_tile_count min_zoom max_zoom b)
                   = plan_total min_zoom max_zoom b).
  { unfold calculate_tile_count, plan_total. rewrite count_loop_total. lia. }
  split; [ | exact Hcount ].
  rewrite Hcount. unfold main_jobs, plan_total. apply jobs_length.
Qed.

End PlannerFacts.

(** ** The fetch worker *)

Module WorkerFacts.

Import PyNum TileAddressing Planner Worker Observe Scenarios Tally.
Local Open Scope Z_scope.

Arguments tile_key : simpl never.
Arguments tile_url : simpl never.

Lemma events_since_app (st : stats_t) (s : pstate) (evs : list event) (t : nat) :
  events_since s (PState st (trace s ++ evs) t) = evs.
Proof.
  unfold events_since. cbn [trace].
  rewrite skipn_app, skipn_all, Nat.sub_diag. reflexivity.
Qed.

(** *** Counting events *)

Lemma source_calls_app (a b : list event) :
  source_calls (a ++ b) = (source_calls a + source_calls b)%nat.
Proof. unfold source_calls. now rewrite filter_app, length_app. Qed.

Lemma store_writes_app (a b : list event) :
  store_writes (a ++ b) = (store_writes a + store_writes b)%nat.
Proof. unfold store_writes. now rewrite filter_app, length_app. Qed.

Lemma sleeps_app (a b : list event) : sleeps (a ++ b) = (sleeps a + sleeps b)%nat.
Proof. unfold sleeps. now rewrite filter_app, length_app. Qed.

Lemma existence_checks_app (a b : list event) :
  existence_checks (a ++ b) = (existence_checks a + existence_checks b)%nat.
Proof. unfold existence_checks. now rewrite filter_app, length_app. Qed.

Lemma attempts_of_MAX_RETRIES : py_range 0 MAX_RETRIES = [0; 1; 2].
Proof. reflexivity. Qed.

Section Steps.

Variables (B P : string) (w : world).

Lemma check_exists_present (s3_key : string) (s : pstate) :
  head_object w (ticks s) B s3_key = inl tt ->
  check_exists B w s3_key s
  = (inl true,
     PState (stats s) (trace s ++ [EvHeadObject B s3_key]) (S (ticks s))).
Proof.
  intros H. unfold Worker.check_exists, bind, ask. rewrite H. reflexivity.
Qed.

Lemma check_exists_absent (s3_key code : string) (s : pstate) :
  head_object w (ticks s) B s3_key = inr (ClientError code) ->
  check_exists B w s3_key s
  = (inl false,
     PState (stats s)
       (trace s ++ EvHeadObject B s3_key :: check_warning s3_key code)
       (S (ticks s))).
Proof.
  intros H. unfold Worker.check_exists, bind, ask, check_warning. rewrite H.
  destruct (String.eqb code "404"); cbn.
  - reflexivity.
  - rewrite <- app_assoc. reflexivity.
Qed.

Lemma check_exists_raises (s3_key : string) (e : exn) (s : pstate) :
  head_object w (ticks s) B s3_key = inr e ->
  (forall code, e <> ClientError code) ->
  check_exists B w s3_key s
  = (inr e,
     PState (stats s) (trace s ++ [EvHeadObject B s3_key]) (S (ticks s))).
Proof.
  intros H Hne. unfold Worker.check_exists, bind, ask. rewrite H.
  destruct e as [ | code | name ]; try reflexivity.
  now destruct (Hne code).
Qed.

Lemma attempt_once_timeout (z x y : Z) (pbar : bool) (attempt : Z) (s : pstate) :
  requests_get w (ticks s) (tile_url P z x y) = inr Timeout ->
  attempt_once B P w z x y pbar attempt s
  = (inl None,
     PState (stats s)
       (trace s ++ [EvGet (tile_url P z x y) 15;
                    EvLog WARNING (MsgTimeout (attempt + 1) z x y)])
       (S (ticks s))).
Proof.
  intros H. unfold Worker.attempt_once, bind, ask. rewrite H. cbn.
  rewrite <- app_assoc. reflexivity.
Qed.

Lemma attempt_once_404 (z x y : Z) (pbar : bool) (attempt : Z) (s : pstate) (resp : response) :
  requests_get w (ticks s) (tile_url P z x y) = inl resp ->
  status_code resp = 404 ->
  attempt_once B P w z x y pbar attempt s
  = (inl (Some NotFound),
     PState (incr NotFound (stats s))
       (trace s ++ [EvGet (tile_url P z x y) 15; EvLog INFO (Msg404 z x y)]
          ++ (if pbar then [EvPbarUpdate 1] else []))
       (S (ticks s))).
Proof.
  intros H H404. unfold Worker.attempt_once, bind, ask. rewrite H, H404. cbn.
  destruct pbar; cbn; rewrite <- ?app_assoc; reflexivity.
Qed.

Lemma retry_loop_next (z x y : Z) (pbar : bool) (attempt : Z) (rest : list Z) (s s1 : pstate) :
  attempt_once B P w z x y pbar attempt s = (inl None, s1) ->
  retry_loop B P w z x y pbar (attempt :: rest) s
  = retry_loop B P w z x y pbar rest (after_pause attempt s1).
Proof.
  intros H. cbn [retry_loop]. unfold bind. rewrite H. unfold after_pause.
  destruct (attempt <? MAX_RETRIES - 1); reflexivity.
Qed.

Lemma retry_loop_return (z x y : Z) (pbar : bool) (attempt : Z) (rest : list Z) (s s1 : pstate)
  (o : outcome) :
  attempt_once B P w z x y pbar attempt s = (inl (Some o), s1) ->
  retry_loop B P w z x y pbar (attempt :: rest) s = (inl (Some o), s1).
Proof.
  intros H. cbn [retry_loop]. unfold bind. rewrite H. reflexivity.
Qed.

End Steps.

(** A key that is present: the job is the check, the increment and the
    update of the progress bar. *)
Lemma upload_tile_present
  (B P : string) (w : world) (z x y : Z) (pbar : bool) (s : pstate) :
  head_object w (ticks s) B (tile_key z x y) = inl tt ->
  upload_tile B P w z x y pbar s
  = (inl Skipped,
     PState (incr Skipped (stats s))
       (trace s ++ EvHeadObject B (tile_key z x y)
          :: (if pbar then [EvPbarUpdate 1] else []))
       (S (ticks s))).
Proof.
  intros Hhead.
  unfold upload_tile, bind.
  rewrite (check_exists_present B w _ s Hhead).
  unfold update_stats, pbar_update, emit, ret.
  destruct pbar; cbn [fst snd stats trace ticks].
  - rewrite <- app_assoc. reflexivity.
  - reflexivity.
Qed.

(** C5: when the tile is not in the store and every call of the source
    times out, the job returns "failed" after exactly MAX_RETRIES = 3 calls
    of the source, with a sleep of RETRY_DELAY between consecutive calls (and
    none after the last), and counts once as failed. *)
Theorem upload_tile_timeouts_fail
  (B P : string) (w : world) (z x y : Z) (pbar : bool) (s : pstate) (code : string) :
  head_object w (ticks s) B (tile_key z x y) = inr (ClientError code) ->
  (forall t, requests_get w t (tile_url P z x y) = inr Timeout) ->
  let r := upload_tile B P w z x y pbar s in
  fst r = inl Failed /\
  stats (snd r) = incr Failed (stats s) /\
  source_calls (events_since s (snd r)) = 3%nat /\
  calls_and_sleeps (events_since s (snd r))
  = [EvGet (tile_url P z x y) 15; EvSleep RETRY_DELAY;
     EvGet (tile_url P z x y) 15; EvSleep RETRY_DELAY;
     EvGet (tile_url P z x y) 15] /\
  store_writes (events_since s (snd r)) = 0%nat.
Proof.
  intros Hhead Hget r. subst r.
  unfold upload_tile, bind.
  rewrite (check_exists_absent B w _ code s Hhead).
  rewrite attempts_of_MAX_RETRIES.
  rewrite (retry_loop_next B P w z x y pbar 0 _ _ _ (attempt_once_timeout B P w z x y pbar 0 _ (Hget _))).
  rewrite (retry_loop_next B P w z x y pbar 1 _ _ _ (attempt_once_timeout B P w z x y pbar 1 _ (Hget _))).
  rewrite (retry_loop_next B P w z x y pbar 2 _ _ _ (attempt_once_timeout B P w z x y pbar 2 _ (Hget _))).
  unfold after_pause, check_warning, update_stats, pbar_update, emit, ret.
  destruct (String.eqb code "404"), pbar;
    cbn [fst snd stats trace ticks retry_loop ret Z.ltb Z.sub Z.compare Z.add Z.opp Z.pos_sub
         MAX_RETRIES Pos.compare Pos.compare_cont Pos.pred_double];
    rewrite <- ?app_assoc; rewrite events_since_app; cbn; repeat split; reflexivity.
Qed.

Lemma upload_tile_timeouts_fail_witness :
  let r := upload_tile bucket pattern world_timeouts 2 3 1 true pstate0 in
  fst r = inl Failed /\
  stats (snd r) = incr Failed (stats pstate0) /\
  source_calls (events_since pstate0 (snd r)) = 3%nat /\
  calls_and_sleeps (events_since pstate0 (snd r))
  = [EvGet (tile_url pattern 2 3 1) 15; EvSleep RETRY_DELAY;
     EvGet (tile_url pattern 2 3 1) 15; EvSleep RETRY_DELAY;
     EvGet (tile_url pattern 2 3 1) 15] /\
  store_writes (events_since pstate0 (snd r)) = 0%nat.
Proof.
  apply (upload_tile_timeouts_fail bucket pattern world_timeouts 2 3 1 true pstate0 "404").
  - reflexivity.
  - intros t. reflexivity.
Defined.

(** C6: when the tile is not in the store and the source answers 404, the
    job returns "not_found" after exactly one call of the source, writes
    nothing to the store, and is counted under not_found while the failed
    counter stays as it was. *)
Theorem upload_tile_404_not_found
  (B P : string) (w : world) (z x y : Z) (pbar : bool) (s : pstate) (code : string) :
  head_object w (ticks s) B (tile_key z x y) = inr (ClientError code) ->
  (forall t, exists resp,
      requests_get w t (tile_url P z x y) = inl resp /\ status_code resp = 404) ->
  let r := upload_tile B P w z x y pbar s in
  fst r = inl NotFound /\
  source_calls (events_since s (snd r)) = 1%nat /\
  store_writes (events_since s (snd r)) = 0%nat /\
  not_found (stats (snd r)) = not_found (stats s) + 1 /\
  failed (stats (snd r)) = failed (stats s) /\
  success (stats (snd r)) = success (stats s) /\
  skipped (stats (snd r)) = skipped (stats s).
Proof.
  intros Hhead Hget r. subst r.
  unfold upload_tile, bind.
  rewrite (check_exists_absent B w _ code s Hhead).
  rewrite attempts_of_MAX_RETRIES.
  match goal with
  | |- context [retry_loop _ _ _ _ _ _ _ _ ?s1] =>
      destruct (Hget (ticks s1)) as [resp [Hresp H404]];
      rewrite (retry_loop_return B P w z x y pbar 0 _ s1 _ NotFound
                 (attempt_once_404 B P w z x y pbar 0 s1 resp Hresp H404))
  end.
  unfold check_warning, ret.
  destruct (String.eqb code "404"), pbar;
    cbn [fst snd stats trace ticks incr not_found failed success skipped];
    rewrite <- ?app_assoc; rewrite events_since_app; cbn; repeat split; reflexivity.
Qed.

Lemma upload_tile_404_not_found_witness :
  let r := upload_tile bucket pattern world_no_tiles 2 3 1 true pstate0 in
  fst r = inl NotFound /\
  source_calls (events_since pstate0 (snd r)) = 1%nat /\
  store_writes (events_since pstate0 (snd r)) = 0%nat /\
  not_found (stats (snd r)) = not_found (stats pstate0) + 1 /\
  failed (stats (snd r)) = failed (stats pstate0) /\
  success (stats (snd r)) = success (stats pstate0) /\
  skipped (stats (snd r)) = skipped (stats pstate0).
Proof.
  apply (upload_tile_404_not_found bucket pattern world_no_tiles 2 3 1 true pstate0 "404").
  - reflexivity.
  - intros t. exists (Response 404 (inl [])). split; reflexivity.
Defined.

(** *** One counter per job that returns *)

Lemma stats_sum_incr (o : outcome) (st : stats_t) : stats_sum (incr o st) = stats_sum st + 1.
Proof. destruct o; unfold stats_sum; cbn; lia. Qed.

(** An attempt never raises: it returns "success" or "not_found" with that
    counter incremented, or falls through with [stats] untouched. *)
Lemma attempt_once_stats
  (B P : string) (w : world) (z x y : Z) (pbar : bool) (attempt : Z) (s : pstate) :
  let r := attempt_once B P w z x y pbar attempt s in
  (fst r = inl None /\ stats (snd r) = stats s) \/
  (exists o, fst r = inl (Some o) /\ stats (snd r) = incr o (stats s)).
Proof.
  intros r. subst r.
  unfold attempt_once, bind, ask, update_stats, pbar_update, emit, ret.
  repeat (cbv beta iota zeta;
          match goal with
          | |- context [match requests_get ?a ?b ?c with _ => _ end] =>
              destruct (requests_get a b c)
          | |- context [match put_object ?a ?b ?c ?d ?e with _ => _ end] =>
              destruct (put_object a b c d e)
          | |- context [match content ?r with _ => _ end] => destruct (content r)
          | |- context [match ?c with _ => _ end] =>
              first [ is_var c | match type of c with bool => idtac end ]; destruct c
          end);
    cbn [fst snd stats];
    solve [ left; split; reflexivity | right; eexists; split; reflexivity ].
Qed.

Lemma retry_loop_stats
  (B P : string) (w : world) (z x y : Z) (pbar : bool) (attempts : list Z) (s : pstate) :
  let r := retry_loop B P w z x y pbar attempts s in
  (fst r = inl None /\ stats (snd r) = stats s) \/
  (exists o, fst r = inl (Some o) /\ stats (snd r) = incr o (stats s)).
Proof.
  revert s. induction attempts as [| attempt rest IH]; intros s.
  - left. split; reflexivity.
  - cbn [retry_loop]. unfold bind.
    pose proof (attempt_once_stats B P w z x y pbar attempt s) as Hone.
    destruct (attempt_once B P w z x y pbar attempt s) as [r1 s1].
    cbn [fst snd] in Hone.
    destruct Hone as [[Hr Hs] | [o [Hr Hs]]]; subst r1.
    + assert (Hpause : exists s2,
                 (if attempt <? MAX_RETRIES - 1 then emit (EvSleep RETRY_DELAY) else ret tt) s1
                 = (inl tt, s2) /\ stats s2 = stats s1).
      { destruct (attempt <? MAX_RETRIES - 1); eexists; split; reflexivity. }
      destruct Hpause as [s2 [Hp Hs2]]. rewrite Hp.
      specialize (IH s2). rewrite Hs2, Hs in IH. exact IH.
    + right. exists o. split; [reflexivity | exact Hs].
Qed.

(** A job either returns an outcome, with exactly that counter incremented
    once, or raises what [head_object] raised, with [stats] untouched; the
    latter only for an exception that is not a [ClientError]. *)
Lemma upload_tile_stats
  (B P : string) (w : world) (z x y : Z) (pbar : bool) (s : pstate) :
  let r := upload_tile B P w z x y pbar s in
  match fst r with
  | inl o => stats (snd r) = incr o (stats s)
  | inr e =>
      stats (snd r) = stats s /\
      head_object w (ticks s) B (tile_key z x y) = inr e /\
      forall code, e <> ClientError code
  end.
Proof.
  unfold upload_tile, bind.
  destruct (head_object w (ticks s) B (tile_key z x y)) as [[] | e] eqn:Hhead.
  - rewrite (check_exists_present B w _ s Hhead).
    unfold update_stats, pbar_update, emit, ret.
    destruct pbar; reflexivity.
  - destruct e as [ | code | name ].
    + rewrite (check_exists_raises B w _ _ s Hhead) by discriminate.
      cbn. repeat split. discriminate.
    + rewrite (check_exists_absent B w _ code s Hhead).
      match goal with
      | |- context [retry_loop _ _ _ _ _ _ _ ?l ?s1] =>
          pose proof (retry_loop_stats B P w z x y pbar l s1) as Hloop;
          destruct (retry_loop B P w z x y pbar l s1) as [r1 s2]
      end.
      cbn [fst snd stats] in Hloop.
      destruct Hloop as [[Hr Hs] | [o [Hr Hs]]]; subst r1.
      * unfold update_stats, pbar_update, emit, ret.
        destruct pbar; cbn [fst snd stats]; rewrite Hs; reflexivity.
      * exact Hs.
    + rewrite (check_exists_raises B w _ _ s Hhead) by discriminate.
      cbn. repeat split. discriminate.
Qed.

Lemma run_jobs_length
  (B P : string) (w : world) (pbar : bool) (jobs : list tile) (s : pstate) :
  List.length (fst (run_jobs B P w pbar jobs s)) = List.length jobs.
Proof.
  revert s. induction jobs as [| j rest IH]; intros s; cbn [run_jobs].
  - reflexivity.
  - destruct (run_job B P w pbar j s) as [f s1].
    specialize (IH s1). destruct (run_jobs B P w pbar rest s1) as [fs s2].
    cbn [fst List.length] in *. now rewrite IH.
Qed.

(** After a run the four counters have grown by the number of jobs that
    returned; a job that raised is in none of them. *)
Lemma run_jobs_stats_sum
  (B P : string) (w : world) (pbar : bool) (jobs : list tile) (s : pstate) :
  stats_sum (stats (snd (run_jobs B P w pbar jobs s)))
  = stats_sum (stats s) + Z.of_nat (returned (fst (run_jobs B P w pbar jobs s))).
Proof.
  revert s. induction jobs as [| [[z x] y] rest IH]; intros s; cbn [run_jobs].
  - unfold returned. cbn. lia.
  - unfold run_job.
    pose proof (upload_tile_stats B P w z x y pbar s) as Hjob.
    destruct (upload_tile B P w z x y pbar s) as [f s1].
    specialize (IH s1). destruct (run_jobs B P w pbar rest s1) as [fs s2].
    cbn [fst snd] in *. rewrite IH.
    unfold returned. cbn [filter].
    destruct f as [o | e].
    + rewrite Hjob, stats_sum_incr. cbn [List.length]. lia.
    + destruct Hjob as [Hs _]. rewrite Hs. lia.
Qed.

(** As long as the existence check only ever fails with a [ClientError],
    every job returns, and the four counters add up to the number of jobs
    submitted. *)
Lemma run_jobs_all_counted
  (B P : string) (w : world) (pbar : bool) (jobs : list tile) :
  (forall t key e, head_object w t B key = inr e -> exists code, e = ClientError code) ->
  stats_sum (stats (snd (run_jobs B P w pbar jobs pstate0))) = Z.of_nat (List.length jobs).
Proof.
  intros Hstore.
  assert (Hall : forall s,
             returned (fst (run_jobs B P w pbar jobs s)) = List.length jobs).
  { induction jobs as [| [[z x] y] rest IH]; intros s; cbn [run_jobs].
    - reflexivity.
    - unfold run_job.
      pose proof (upload_tile_stats B P w z x y pbar s) as Hjob.
      destruct (upload_tile B P w z x y pbar s) as [f s1].
      specialize (IH s1). destruct (run_jobs B P w pbar rest s1) as [fs s2].
      cbn [fst snd] in *. unfold returned in *. cbn [filter].
      destruct f as [o | e].
      + cbn [List.length]. now rewrite IH.
      + destruct Hjob as [_ [Hhead Hne]].
        destruct (Hstore _ _ _ Hhead) as [code Hcode].
        now destruct (Hne code). }
  rewrite run_jobs_stats_sum, Hall. reflexivity.
Qed.

(** C3 fails on the code.  Two jobs are submitted; for the first the
    existence check raises an exception that is not a [ClientError]: it
    leaves [check_exists] and [upload_tile], stays in the future, and no
    counter moves.  The four counters add up to 1, not to 2. *)
Theorem existence_check_error_escapes_job :
  let jobs := [(2, 3, 1); (2, 3, 2)] in
  let r := run_jobs bucket pattern world_store_unreachable true jobs pstate0 in
  fst r = [inr (OtherException "EndpointConnectionError"); inl Skipped] /\
  stats (snd r) = Stats 0 1 0 0 /\
  stats_sum (stats (snd r)) = 1 /\
  Z.of_nat (List.length jobs) = 2.
Proof.
  cbv zeta. repeat split; vm_compute; reflexivity.
Qed.

(** *** The benchmark *)

(** The [try] block of a sample hands every exception to its [except]
    clause: as a computation it always returns. *)
Lemma bench_try_returns (B P : string) (w : world) (z x y : Z) (s : pstate) :
  exists v s1, bench_try B P w z x y s = (inl v, s1).
Proof.
  unfold bench_try, bind, ask, ret.
  repeat (cbv beta iota zeta;
          match goal with
          | |- context [match requests_get ?a ?b ?c with _ => _ end] =>
              destruct (requests_get a b c)
          | |- context [match put_object ?a ?b ?c ?d ?e with _ => _ end] =>
              destruct (put_object a b c d e)
          | |- context [match content ?r with _ => _ end] => destruct (content r)
          | |- context [match ?c with _ => _ end] =>
              first [ is_var c | match type of c with bool => idtac end ]; destruct c
          end);
    eexists; eexists; reflexivity.
Qed.

(** The loop returns [times] extended by the elapsed times of the round
    trips that completed, in order. *)
Lemma bench_loop_history
  (B P : string) (w : world) (n : nat) (samples : list tile) (times : list R) (s : pstate) :
  fst (bench_loop B P w n samples times s)
  = inl (times ++ completed_times (bench_history B P w n samples (List.length times) s)).
Proof.
  revert times s. induction samples as [| [[z x] y] rest IH]; intros times s.
  - cbn. now rewrite app_nil_r.
  - cbn [bench_loop bench_history]. unfold bind.
    destruct (bench_try_returns B P w z x y s) as [v [s1 Htry]]. rewrite Htry.
    destruct v as [elapsed | e].
    + cbn [completed_times]. unfold emit at 1. rewrite IH.
      rewrite length_app, Nat.add_1_r. cbn [List.length].
      rewrite <- app_assoc. reflexivity.
    + cbn [completed_times]. unfold emit at 1. rewrite IH. reflexivity.
Qed.

(** What [benchmark_speed] returns, by the round trips of its samples. *)
Lemma benchmark_speed_history (B P : string) (w : world) (n : nat) (s : pstate) :
  fst (benchmark_speed B P w n s)
  = inl (match completed_times
                 (bench_history B P w n (bench_samples n) 0 (bench_start n s)) with
         | [] => None
         | t :: ts => Some (py_sum (t :: ts) / INR (List.length (t :: ts)))%R
         end).
Proof.
  unfold benchmark_speed, bind. unfold emit at 1.
  pose proof (bench_loop_history B P w n (bench_samples n) [] (bench_start n s)) as H.
  unfold bench_samples, bench_start, emit in *. cbn [snd] in H.
  match goal with
  | |- context [bench_loop B P w n ?l [] ?s1] =>
      destruct (bench_loop B P w n l [] s1) as [r s2]
  end.
  cbn [fst] in H. subst r. cbn [app List.length snd].
  match goal with
  | |- context [completed_times ?h] => destruct (completed_times h)
  end; reflexivity.
Qed.

(** The samples of the benchmark: at most nine, at zooms 8, 10 and 12. *)
Lemma bench_samples_length (n : nat) :
  List.length (bench_samples n) = Nat.min n 9 /\
  Forall (fun '(z, _, _) => z = 8 \/ z = 10 \/ z = 12) (bench_samples n).
Proof.
  unfold bench_samples, sample_loop.
  destruct (deg2num (max_lat BOUNDING_BOX) (min_lon BOUNDING_BOX) 8) as [a8 b8].
  destruct (deg2num (min_lat BOUNDING_BOX) (max_lon BOUNDING_BOX) 8) as [c8 d8].
  destruct (deg2num (max_lat BOUNDING_BOX) (min_lon BOUNDING_BOX) 10) as [a10 b10].
  destruct (deg2num (min_lat BOUNDING_BOX) (max_lon BOUNDING_BOX) 10) as [c10 d10].
  destruct (deg2num (max_lat BOUNDING_BOX) (min_lon BOUNDING_BOX) 12) as [a12 b12].
  destruct (deg2num (min_lat BOUNDING_BOX) (max_lon BOUNDING_BOX) 12) as [c12 d12].
  do 10 (destruct n as [| n];
         [cbn; split;
          [reflexivity | repeat (apply Forall_cons; [auto | ]); apply Forall_nil] | ]).
  cbn. split; [reflexivity | repeat (apply Forall_cons; [auto | ]); apply Forall_nil].
Qed.

End WorkerFacts.

(** ** The configured worker and benchmark *)

Module ConfiguredFacts.


Import PyNum TileAddressing Planner Worker Observe Scenarios MoreScenarios ConfiguredScenarios.
Import WorkerFacts.
Local Open Scope Z_scope.

Arguments tile_key : simpl never.
Arguments tile_url : simpl never.

(** A URL that formed: the job is the job of [Worker]. *)
Lemma upload_tile_formed
  (B : string) (P : option string) (fmt : string -> Z -> Z -> Z -> option exn) (w : world)
  (z x y : Z) (pbar : bool) (s : pstate) (u : url) :
  Configured.format_url P fmt z x y = inl u ->
  exists p, P = Some p /\ u = tile_url p z x y /\
    Configured.upload_tile B P fmt w z x y pbar s = upload_tile B p w z x y pbar s.
Proof.
  unfold Configured.upload_tile, Configured.format_url.
  destruct P as [p | ]; [ | discriminate].
  destruct (fmt p z x y); [discriminate | ].
  intros H. inversion H; subst u. exists p. repeat split.
Qed.

(** A URL that did not form: the job raises and has done nothing. *)
Lemma upload_tile_unformed
  (B : string) (P : option string) (fmt : string -> Z -> Z -> Z -> option exn) (w : world)
  (z x y : Z) (pbar : bool) (s : pstate) (e : exn) :
  Configured.format_url P fmt z x y = inr e ->
  Configured.upload_tile B P fmt w z x y pbar s = (inr e, s).
Proof.
  unfold Configured.upload_tile. intros ->. reflexivity.
Qed.

(** C7: when the URL of the job has formed and the existence check reports
    that the key exists, the job returns "skipped"; apart from the check
    itself its only effects are the update of the progress bar (when there
    is one) and one more in the skipped counter, the three other counters
    staying as they are: the source is never called and nothing is written
    to the store. *)
Theorem upload_tile_skips_existing
  (B : string) (P : option string) (fmt : string -> Z -> Z -> Z -> option exn) (w : world)
  (z x y : Z) (pbar : bool) (s : pstate) (u : url) :
  Configured.format_url P fmt z x y = inl u ->
  head_object w (ticks s) B (tile_key z x y) = inl tt ->
  let r := Configured.upload_tile B P fmt w z x y pbar s in
  fst r = inl Skipped /\
  events_since s (snd r)
  = EvHeadObject B (tile_key z x y) :: (if pbar then [EvPbarUpdate 1] else []) /\
  source_calls (events_since s (snd r)) = 0%nat /\
  store_writes (events_since s (snd r)) = 0%nat /\
  skipped (stats (snd r)) = skipped (stats s) + 1 /\
  success (stats (snd r)) = success (stats s) /\
  failed (stats (snd r)) = failed (stats s) /\
  not_found (stats (snd r)) = not_found (stats s).
Proof.
  intros Hfmt Hhead r. subst r.
  destruct (upload_tile_formed B P fmt w z x y pbar s u Hfmt) as [p [_ [_ ->]]].
  rewrite (upload_tile_present B p w z x y pbar s Hhead).
  cbn [fst snd stats]. rewrite events_since_app.
  destruct pbar; cbn; repeat split; reflexivity.
Qed.

Lemma upload_tile_skips_existing_witness :
  let r := Configured.upload_tile bucket (Some pattern) format_returns world_all_stored
             2 3 1 true pstate0 in
  fst r = inl Skipped /\
  events_since pstate0 (snd r)
  = EvHeadObject bucket (tile_key 2 3 1) :: [EvPbarUpdate 1] /\
  source_calls (events_since pstate0 (snd r)) = 0%nat /\
  store_writes (events_since pstate0 (snd r)) = 0%nat /\
  skipped (stats (snd r)) = skipped (stats pstate0) + 1 /\
  success (stats (snd r)) = success (stats pstate0) /\
  failed (stats (snd r)) = failed (stats pstate0) /\
  not_found (stats (snd r)) = not_found (stats pstate0).
Proof.
  apply (upload_tile_skips_existing bucket (Some pattern) format_returns world_all_stored
           2 3 1 true pstate0 (tile_url pattern 2 3 1)).
  - reflexivity.
  - reflexivity.
Defined.


(** A sample that is answered with a status other than 200: nothing is
    written, and the [try] block ends without an exception. *)
Lemma bench_try_error_status
  (B P : string) (w : world) (z x y : Z) (s : pstate) (resp : response) :
  requests_get w (S (ticks s)) (tile_url P z x y) = inl resp ->
  status_code resp <> 200 ->
  bench_try B P w z x y s
  = (inl (inl (time_time w (S (S (ticks s))) - time_time w (ticks s))%R),
     PState (stats s)
       (trace s ++ [EvTime; EvGet (tile_url P z x y) 15; EvTime])
       (S (S (S (ticks s))))).
Proof.
  intros Hget Hst. unfold bench_try, bind, ask. cbv beta iota zeta. cbn [ticks].
  rewrite Hget. apply Z.eqb_neq in Hst. rewrite Hst.
  unfold ret. cbn [ticks trace stats]. rewrite <- !app_assoc. reflexivity.
Qed.

(** The sample loop when every sample is answered with a status other than
    200: every sample adds a time, one request and no write. *)
Lemma bench_loop_error_status
  (B p : string) (fmt : string -> Z -> Z -> Z -> option exn) (w : world) (n : nat)
  (samples : list tile) (times : list R) (s : pstate) :
  (forall z x y, fmt p z x y = None) ->
  (forall t u, exists resp, requests_get w t u = inl resp /\ status_code resp <> 200) ->
  exists times' evs t,
    Configured.bench_loop B (Some p) fmt w n samples times s
    = (inl (times ++ times'), PState (stats s) (trace s ++ evs) t) /\
    List.length times' = List.length samples /\
    (forall c, (forall k, time_time w (S (S k)) - time_time w k = c)%R ->
               times' = repeat c (List.length samples)) /\
    source_calls evs = List.length samples /\
    store_writes evs = 0%nat.
Proof.
  intros Hfmt Hget. revert times s.
  induction samples as [| [[z x] y] rest IH]; intros times s.
  - exists [], [], (ticks s). cbn. rewrite !app_nil_r. destruct s. repeat split.
  - cbn [Configured.bench_loop]. unfold Configured.format_url. rewrite Hfmt.
    cbn [url_pattern]. unfold bind.
    destruct (Hget (S (ticks s)) (tile_url p z x y)) as [resp [Hresp Hst]].
    change (url_pattern (tile_url p z x y)) with p.
    rewrite (bench_try_error_status B p w z x y s resp Hresp Hst).
    set (el := (time_time w (S (S (ticks s))) - time_time w (ticks s))%R).
    unfold emit. cbv beta iota zeta. cbn [stats trace ticks].
    match goal with
    | |- context [Configured.bench_loop B (Some p) fmt w n rest ?tm ?s1] =>
        destruct (IH tm s1) as [times' [evs [t [Hloop [Hlen [Hclock [Hg Hp]]]]]]]
    end.
    rewrite Hloop. cbn [stats trace].
    exists (el :: times'),
      ([EvTime; EvGet (tile_url p z x y) 15; EvTime;
        EvPrint (MsgSample (List.length (times ++ [el])) n el)] ++ evs), t.
    split; [ | split; [ | split; [ | split]]].
    + rewrite <- !app_assoc. cbn [app]. reflexivity.
    + cbn [List.length]. now rewrite Hlen.
    + intros c Hc. cbn [List.length repeat]. rewrite (Hclock c Hc). unfold el.
      rewrite Hc. reflexivity.
    + rewrite source_calls_app, Hg. reflexivity.
    + rewrite store_writes_app, Hp. reflexivity.
Qed.

Lemma py_sum_repeat (c : R) (n : nat) (acc : R) :
  fold_left Rplus (repeat c n) acc = (acc + INR n * c)%R.
Proof.
  revert acc. induction n as [| n IH]; intros acc.
  - cbn. lra.
  - cbn [repeat fold_left]. rewrite IH, S_INR. lra.
Qed.

(** The benchmark when every sample is answered with a status other than
    200 and the clock runs: it returns a mean, having written nothing. *)
Lemma benchmark_speed_error_status
  (B p : string) (fmt : string -> Z -> Z -> Z -> option exn) (w : world) (n : nat)
  (s : pstate) (c : R) :
  (forall z x y, fmt p z x y = None) ->
  (forall t u, exists resp, requests_get w t u = inl resp /\ status_code resp <> 200) ->
  (forall k, time_time w (S (S k)) - time_time w k = c)%R ->
  (0 < n)%nat ->
  exists evs t,
    Configured.benchmark_speed B (Some p) fmt w n s
    = (inl (Some c), PState (stats s) (trace s ++ evs) t) /\
    source_calls evs = Nat.min n 9 /\
    store_writes evs = 0%nat.
Proof.
  intros Hfmt Hget Hclock Hn.
  unfold Configured.benchmark_speed, bind. unfold emit at 1.
  fold (bench_samples n).
  destruct (bench_samples_length n) as [Hlen _].
  match goal with
  | |- context [Configured.bench_loop B (Some p) fmt w n ?l [] ?s1] =>
      destruct (bench_loop_error_status B p fmt w n l [] s1 Hfmt Hget)
        as [times' [evs [t [Hloop [_ [Hrep [Hg Hp]]]]]]]
  end.
  rewrite Hloop. cbn [app stats trace]. rewrite (Hrep c Hclock), Hlen.
  assert (Hpos : (0 < Nat.min n 9)%nat) by lia.
  destruct (Nat.min n 9) as [| m] eqn:Hm; [lia | ].
  cbn [repeat]. unfold ret.
  exists (EvPrint (MsgBenchmarking n) :: evs), t. split; [ | split].
  - f_equal.
    + do 2 f_equal. change (c :: repeat c m) with (repeat c (S m)).
      unfold py_sum. rewrite py_sum_repeat, repeat_length.
      assert (INR (S m) <> 0)%R by (apply not_0_INR; lia). field. assumption.
    + rewrite <- app_assoc. reflexivity.
  - change (EvPrint (MsgBenchmarking n) :: evs) with ([EvPrint (MsgBenchmarking n)] ++ evs).
    rewrite source_calls_app, Hg, Hlen. reflexivity.
  - change (EvPrint (MsgBenchmarking n) :: evs) with ([EvPrint (MsgBenchmarking n)] ++ evs).
    rewrite store_writes_app, Hp. reflexivity.
Qed.

(** C9 fails on the code.  The source answers every sample with status
    500, so no sample fetches or stores a tile, and the clock advances by
    one second per question.  [benchmark_speed] still returns an average,
    2 seconds, after nine requests and no write, and the benchmark step of
    [main] prints the results with an estimate and not the warning: the
    elapsed time is appended whatever the status was. *)
Theorem benchmark_counts_failed_samples :
  let b := Configured.benchmark_speed bucket (Some pattern) format_returns
             world_server_error_clock 10 pstate0 in
  let m := Configured.main_benchmark bucket (Some pattern) format_returns 20
             world_server_error_clock 1000 pstate0 in
  fst b = inl (Some 2%R) /\
  source_calls (trace (snd b)) = 9%nat /\
  store_writes (trace (snd b)) = 0%nat /\
  fst m = inl tt /\
  trace (snd m)
  = trace (snd b) ++ [EvPrint (MsgBenchmarkResults 2 20 (Worker.estimate_time 1000 2 20))].
Proof.
  assert (Hget : forall (t : nat) (u : url), exists resp,
             requests_get world_server_error_clock t u = inl resp /\ status_code resp <> 200).
  { intros t u. eexists. split; [reflexivity | discriminate]. }
  assert (Hclock : forall k, (time_time world_server_error_clock (S (S k))
                              - time_time world_server_error_clock k = 2)%R).
  { intros k. cbn [time_time world_server_error_clock]. rewrite !S_INR. lra. }
  destruct (benchmark_speed_error_status bucket pattern format_returns
              world_server_error_clock 10 pstate0 2 (fun _ _ _ => eq_refl) Hget Hclock)
    as [evs [t [Hb [Hg Hp]]]]; [lia | ].
  intros b m. subst b m.
  unfold Configured.main_benchmark, bind. rewrite Hb.
  cbn [fst snd trace pstate0 app]. cbn in Hg.
  destruct (Req_dec_T 2 0) as [H0 | _]; [lra | ].
  unfold Configured.estimate_time. cbn [Z.eqb]. unfold emit. cbn [fst snd trace].
  repeat split; assumption.
Qed.

End ConfiguredFacts.

(** * Part III: further properties of the code *)

(** ** More on [deg2num] *)

Module AddressingExtras.

Import PyNum TileAddressing PyNumFacts Numerics TileAddressingFacts.
Local Open Scope R_scope.

Lemma pow2_succ (zoom : Z) : pow2 (zoom + 1) = 2 * pow2 zoom.
Proof.
  unfold pow2. rewrite powerRZ_add by lra. rewrite powerRZ_1. ring.
Qed.

Lemma Int_part_double (r : R) : (Int_part (2 * r) / 2)%Z = Int_part r.
Proof.
  destruct (Int_part_bounds r) as [Hlo Hhi].
  destruct (Int_part_bounds (2 * r)) as [Hlo2 Hhi2].
  set (k := Int_part r) in *. set (m := Int_part (2 * r)) in *.
  assert (H1 : (2 * k <= m)%Z).
  { apply Z.lt_succ_r. apply lt_IZR. rewrite succ_IZR, mult_IZR. lra. }
  assert (H2 : (m < 2 * k + 2)%Z).
  { apply lt_IZR. rewrite plus_IZR, mult_IZR. lra. }
  symmetry. apply Z.div_unique with (m - 2 * k)%Z; lia.
Qed.

Lemma x_raw_succ (lon : R) (zoom : Z) : x_raw lon (zoom + 1) = 2 * x_raw lon zoom.
Proof. unfold x_raw. rewrite pow2_succ. ring. Qed.

Lemma y_raw_succ (lat : R) (zoom : Z) : y_raw lat (zoom + 1) = 2 * y_raw lat zoom.
Proof. unfold y_raw. rewrite pow2_succ. ring. Qed.

(** X1: the tile pyramid is a quadtree.  Whenever the two values before the
    conversion are non-negative, the tile of a point at zoom + 1 is one of
    the four children of its tile at zoom: each index halved (integer
    division) is the index one level up. *)
Theorem deg2num_parent_tile (lat lon : R) (zoom : Z) :
  0 <= x_raw lon zoom -> 0 <= y_raw lat zoom ->
  (fst (deg2num lat lon (zoom + 1)) / 2)%Z = fst (deg2num lat lon zoom) /\
  (snd (deg2num lat lon (zoom + 1)) / 2)%Z = snd (deg2num lat lon zoom).
Proof.
  intros Hx Hy. rewrite !deg2num_fst, !deg2num_snd, x_raw_succ, y_raw_succ.
  rewrite !py_int_nonneg by lra.
  split; apply Int_part_double.
Qed.

Lemma deg2num_parent_tile_witness :
  (fst (deg2num 0 0 (0 + 1)) / 2)%Z = fst (deg2num 0 0 0) /\
  (snd (deg2num 0 0 (0 + 1)) / 2)%Z = snd (deg2num 0 0 0).
Proof.
  apply (deg2num_parent_tile 0 0 0).
  - unfold x_raw. rewrite pow2_0. lra.
  - rewrite y_raw_equator, pow2_0. lra.
Defined.

(** X2: for a zoom from 0 to 1023 and a longitude in [-180, 180] the column
    index lies in [0, 2^zoom], and at longitude 180 it is 2^zoom, one past
    the last column. *)
Theorem deg2num_column_bounds (lat lon : R) (zoom : Z) :
  (0 <= zoom <= 1023)%Z -> -180 <= lon <= 180 ->
  (0 <= fst (deg2num lat lon zoom) <= 2 ^ zoom)%Z /\
  fst (deg2num lat 180 zoom) = (2 ^ zoom)%Z.
Proof.
  intros [Hz _] [Hlo Hhi]. rewrite !deg2num_fst.
  pose proof (pow2_pos zoom) as Hn. pose proof (pow2_IZR zoom Hz) as HnZ.
  assert (Hraw : 0 <= x_raw lon zoom <= pow2 zoom) by (unfold x_raw; split; nra).
  assert (Hlast : x_raw 180 zoom = IZR (2 ^ zoom)).
  { unfold x_raw. rewrite HnZ. field. }
  split.
  - rewrite py_int_nonneg by lra.
    assert (Hmono : (Int_part (x_raw lon zoom) <= Int_part (IZR (2 ^ zoom)))%Z).
    { apply Int_part_mono. rewrite <- HnZ. lra. }
    rewrite Int_part_IZR in Hmono.
    split; [apply Int_part_nonneg; lra | exact Hmono].
  - rewrite Hlast. apply py_int_IZR.
Qed.

Lemma deg2num_column_bounds_witness :
  (0 <= fst (deg2num 0 90 3) <= 2 ^ 3)%Z /\
  fst (deg2num 0 180 3) = (2 ^ 3)%Z.
Proof.
  apply (deg2num_column_bounds 0 90 3); [lia | lra].
Defined.

End AddressingExtras.

(** ** Latitudes near the poles *)

Module PolarNumerics.

Import PyNum TileAddressing PyNumFacts Numerics TileAddressingFacts.
Local Open Scope R_scope.

Lemma PI_upper : PI < 3.15.
Proof.
  destruct (PI_2_3_7_ineq 1) as [_ Hhi].
  unfold PI_2_3_7_tg, tg_alt, Ratan_seq in Hhi.
  simpl in Hhi.
  lra.
Qed.

(** [exp t <= 1 / (1 - t)] below 1, from [1 - t <= exp (- t)]. *)
Lemma exp_upper_small (t c : R) : 0 <= t < 1 -> 1 <= c * (1 - t) -> exp t <= c.
Proof.
  intros [H0 H1] Hc.
  pose proof (exp_ineq1_le (- t)) as Hm.
  pose proof (exp_pos t) as Hp. pose proof (exp_pos (- t)) as Hpm.
  assert (Hprod : exp t * exp (- t) = 1).
  { rewrite <- exp_plus, Rplus_opp_r. apply exp_0. }
  assert (Hc0 : 0 < c) by nra.
  nra.
Qed.

Lemma exp_double_upper (y a b : R) : exp y <= a -> a * a <= b -> exp (2 * y) <= b.
Proof.
  intros H1 Hb. replace (2 * y) with (y + y) by ring. rewrite exp_plus.
  pose proof (exp_pos y) as Hp.
  apply Rle_trans with (2 := Hb). apply Rmult_le_compat; lra.
Qed.

Lemma exp_3_15_upper : exp 3.15 < 25.3.
Proof.
  assert (H64 : exp (3.15 / 64) <= 1.0517667).
  { apply exp_upper_small; lra. }
  assert (H32 : exp (3.15 / 32) <= 1.1062132).
  { replace (3.15 / 32) with (2 * (3.15 / 64)) by lra.
    apply (exp_double_upper _ 1.0517667); [exact H64 | lra]. }
  assert (H16 : exp (3.15 / 16) <= 1.2237077).
  { replace (3.15 / 16) with (2 * (3.15 / 32)) by lra.
    apply (exp_double_upper _ 1.1062132); [exact H32 | lra]. }
  assert (H8 : exp (3.15 / 8) <= 1.4974606).
  { replace (3.15 / 8) with (2 * (3.15 / 16)) by lra.
    apply (exp_double_upper _ 1.2237077); [exact H16 | lra]. }
  assert (H4 : exp (3.15 / 4) <= 2.2423883).
  { replace (3.15 / 4) with (2 * (3.15 / 8)) by lra.
    apply (exp_double_upper _ 1.4974606); [exact H8 | lra]. }
  assert (H2 : exp (3.15 / 2) <= 5.0283053).
  { replace (3.15 / 2) with (2 * (3.15 / 4)) by lra.
    apply (exp_double_upper _ 2.2423883); [exact H4 | lra]. }
  assert (H1 : exp (3.15) <= 25.2838542).
  { replace (3.15) with (2 * (3.15 / 2)) by lra.
    apply (exp_double_upper _ 5.0283053); [exact H2 | lra]. }
  lra.
Qed.

Lemma sinh_PI_upper : sinh PI < 12.65.
Proof.
  pose proof PI_upper as Hpi. pose proof exp_3_15_upper as He.
  apply Rlt_trans with (sinh 3.15); [now apply sinh_lt | ].
  unfold sinh. pose proof (exp_pos (Ropp 3.15)). lra.
Qed.

Lemma cos_quadratic_lower (x : R) : 0 <= x <= 1 -> 1 - x ^ 2 / 2 <= cos x.
Proof.
  intros [H0 H1].
  pose proof PI_lower as Hpi.
  assert (Ha : - PI / 2 <= x) by lra.
  assert (Hb : x <= PI / 2) by lra.
  destruct (COS x Ha Hb) as [Hc _].
  unfold cos_lb, cos_approx, cos_term in Hc. simpl in Hc.
  assert (H4 : 0 <= x ^ 4) by (apply pow_le; assumption).
  assert (H2 : x ^ 2 <= 1) by nra.
  assert (Hq : 0 <= x ^ 4 * ((30 - x ^ 2) / 720)) by (apply Rmult_le_pos; lra).
  nra.
Qed.

(** 86 degrees: [tan] is about 14.30. *)
Lemma tan_86_lower : 14 < tan (86 * (PI / 180)).
Proof.
  pose proof PI_lower as Hlo. pose proof PI_upper as Hhi.
  replace (86 * (PI / 180)) with (PI / 2 - PI / 45) by field.
  unfold tan. rewrite sin_shift, cos_shift.
  set (x := PI / 45).
  assert (Hx : 0.0698 < x < 0.07) by (unfold x; lra).
  assert (Hc : 1 - x ^ 2 / 2 <= cos x) by (apply cos_quadratic_lower; lra).
  assert (Hs : sin x < x) by (apply sin_lt_x; lra).
  assert (Hs0 : 0 < sin x).
  { apply sin_gt_0; lra. }
  apply Rmult_lt_reg_r with (sin x); [assumption | ].
  unfold Rdiv. rewrite Rmult_assoc, Rinv_l by lra.
  nra.
Qed.

End PolarNumerics.

Module PolarExtras.

Import PyNum TileAddressing PyNumFacts Numerics TileAddressingFacts PolarNumerics.
Local Open Scope R_scope.

Lemma arcsinh_tan_polar (lat : R) :
  86 <= lat < 90 -> PI < arcsinh (tan (radians lat)).
Proof.
  intros [Hlo Hhi].
  pose proof tan_86_lower as H86. fold (radians 86) in H86.
  pose proof sinh_PI_upper as Hsh.
  assert (Ht : tan (radians 86) <= tan (radians lat)) by (apply tan_radians_le; lra).
  rewrite <- (arcsinh_sinh PI). apply arcsinh_lt. lra.
Qed.

Lemma y_raw_opp (lat : R) (zoom : Z) : y_raw (- lat) zoom = pow2 zoom - y_raw lat zoom.
Proof.
  unfold y_raw. rewrite radians_opp, tan_neg, arcsinh_opp. field.
  apply Rgt_not_eq, PI_RGT_0.
Qed.

Lemma y_raw_polar (lat : R) (zoom : Z) :
  86 <= lat < 90 -> y_raw lat zoom < 0.
Proof.
  intros Hlat. pose proof (arcsinh_tan_polar lat Hlat) as Ha.
  pose proof PI_RGT_0 as Hpi. pose proof (pow2_pos zoom) as Hn.
  unfold y_raw. set (a := arcsinh (tan (radians lat))) in *.
  assert (Hq : 1 < a / PI).
  { apply Rmult_lt_reg_r with PI; [assumption | ].
    unfold Rdiv. rewrite Rmult_assoc, Rinv_l by lra. lra. }
  nra.
Qed.

(** X3: nothing is clamped near the poles.  For 0 <= zoom and a latitude
    from 86 up to (not including) 90 degrees the value before the conversion
    is negative, so the row index is never positive; at the mirrored southern
    latitude the row index is 2^zoom or more, past the last row of the
    grid. *)
Theorem deg2num_polar_rows_leave_grid (lat lon : R) (zoom : Z) :
  (0 <= zoom)%Z -> 86 <= lat < 90 ->
  (snd (deg2num lat lon zoom) <= 0)%Z /\
  (2 ^ zoom <= snd (deg2num (- lat) lon zoom))%Z.
Proof.
  intros Hz Hlat. rewrite !deg2num_snd.
  pose proof (y_raw_polar lat zoom Hlat) as Hneg.
  pose proof (pow2_IZR zoom Hz) as HnZ.
  split.
  - rewrite py_int_neg by assumption.
    assert (0 <= Int_part (- y_raw lat zoom))%Z by (apply Int_part_nonneg; lra).
    lia.
  - rewrite y_raw_opp, py_int_nonneg by (pose proof (pow2_pos zoom); lra).
    rewrite <- (Int_part_IZR (2 ^ zoom)). apply Int_part_mono. rewrite <- HnZ. lra.
Qed.

Lemma deg2num_polar_rows_leave_grid_witness :
  (snd (deg2num 87 0 4) <= 0)%Z /\ (2 ^ 4 <= snd (deg2num (- 87) 0 4))%Z.
Proof.
  apply (deg2num_polar_rows_leave_grid 87 0 4); [lia | lra].
Defined.

End PolarExtras.

(** ** More on the plan *)

Module PlannerExtras.
Import PlanView.

Import PyNum TileAddressing Planner PyNumFacts TileAddressingFacts PlannerFacts.
Local Open Scope Z_scope.

Lemma py_range_In (a b v : Z) : In v (py_range a b) <-> a <= v < b.
Proof.
  unfold py_range. rewrite in_map_iff. split.
  - intros [i [Hv Hi]]. apply in_seq in Hi. lia.
  - intros Hv. exists (Z.to_nat (v - a)). split; [lia | ].
    apply in_seq. lia.
Qed.

Lemma py_range_NoDup (a b : Z) : NoDup (py_range a b).
Proof.
  unfold py_range. apply Injective_map_NoDup.
  - intros i j Hij. lia.
  - apply seq_NoDup.
Qed.

Lemma py_range_empty (a b : Z) : b <= a -> py_range a b = [].
Proof.
  intros Hba. unfold py_range. replace (Z.to_nat (b - a)) with 0%nat by lia. reflexivity.
Qed.

Lemma zoom_jobs_In (b : bbox) (z : Z) (j : tile) :
  In j (zoom_jobs b z) <->
  let '(start_x, end_x, start_y, end_y) := tile_rect b z in
  let '(jz, jx, jy) := j in
  jz = z /\ start_x <= jx <= end_x /\ start_y <= jy <= end_y.
Proof.
  unfold zoom_jobs.
  destruct (tile_rect b z) as [[[start_x end_x] start_y] end_y].
  destruct j as [[jz jx] jy].
  rewrite in_flat_map. split.
  - intros [x [Hx Hj]]. apply in_map_iff in Hj. destruct Hj as [y [Heq Hy]].
    inversion Heq; subst. apply py_range_In in Hx, Hy. lia.
  - intros [-> [Hx Hy]]. exists jx. split.
    + apply py_range_In. lia.
    + apply in_map_iff. exists jy. split; [reflexivity | apply py_range_In; lia].
Qed.

Lemma flat_map_NoDup {A B : Type} (f : A -> list B) (l : list A) :
  NoDup l ->
  (forall a, In a l -> NoDup (f a)) ->
  (forall a a' x, In a l -> In a' l -> In x (f a) -> In x (f a') -> a = a') ->
  NoDup (flat_map f l).
Proof.
  induction l as [| a l IH]; intros Hnd Hf Hdisj; cbn [flat_map].
  - constructor.
  - inversion Hnd as [| ? ? Hnotin Hnd']; subst.
    apply NoDup_app.
    + apply Hf. now left.
    + apply IH; [assumption | | ].
      * intros a' Ha'. apply Hf. now right.
      * intros a1 a2 x H1 H2. apply Hdisj; now right.
    + intros x Hx Hx'. apply in_flat_map in Hx'. destruct Hx' as [a' [Ha' Hxa']].
      assert (a = a') by (apply (Hdisj a a' x); [now left | now right | assumption | assumption]).
      subst. contradiction.
Qed.

Lemma zoom_jobs_NoDup (b : bbox) (z : Z) : NoDup (zoom_jobs b z).
Proof.
  unfold zoom_jobs.
  destruct (tile_rect b z) as [[[start_x end_x] start_y] end_y].
  apply flat_map_NoDup.
  - apply py_range_NoDup.
  - intros x _. apply Injective_map_NoDup.
    + intros y1 y2 H. now inversion H.
    + apply py_range_NoDup.
  - intros x x' j _ _ H1 H2.
    apply in_map_iff in H1, H2. destruct H1 as [y1 [E1 _]], H2 as [y2 [E2 _]].
    subst j. now inversion E2.
Qed.

(** X5: the loops of [main] submit exactly the tiles of the plan: (z, x, y)
    is submitted if and only if z is in [min_zoom, max_zoom] and (x, y) lies
    in the normalised rectangle of zoom z. *)
Theorem main_jobs_membership (min_zoom max_zoom : Z) (b : bbox) (z x y : Z) :
  In (z, x, y) (main_jobs min_zoom max_zoom b) <->
  min_zoom <= z <= max_zoom /\
  let '(start_x, end_x, start_y, end_y) := tile_rect b z in
  start_x <= x <= end_x /\ start_y <= y <= end_y.
Proof.
  unfold main_jobs. rewrite in_flat_map. split.
  - intros [z' [Hz Hj]]. apply py_range_In in Hz.
    apply zoom_jobs_In in Hj.
    destruct (tile_rect b z') as [[[sx ex] sy] ey] eqn:Hr.
    destruct Hj as [-> Hxy]. rewrite Hr. split; [lia | exact Hxy].
  - intros [Hz Hxy]. exists z. split; [apply py_range_In; lia | ].
    apply zoom_jobs_In.
    destruct (tile_rect b z) as [[[sx ex] sy] ey]. split; [reflexivity | exact Hxy].
Qed.

(** X6: no tile is submitted twice. *)
Theorem main_jobs_no_duplicates (min_zoom max_zoom : Z) (b : bbox) :
  NoDup (main_jobs min_zoom max_zoom b).
Proof.
  unfold main_jobs. apply flat_map_NoDup.
  - apply py_range_NoDup.
  - intros z _. apply zoom_jobs_NoDup.
  - intros z z' j _ _ H1 H2.
    apply zoom_jobs_In in H1, H2.
    destruct (tile_rect b z) as [[[sx ex] sy] ey].
    destruct (tile_rect b z') as [[[sx' ex'] sy'] ey'].
    destruct j as [[jz jx] jy]. destruct H1 as [-> _], H2 as [<- _]. reflexivity.
Qed.

(** The line of [details] for one zoom level. *)
Lemma count_loop_details_eq (b : bbox) (zs : list Z) (total : Z) (details : list detail) :
  snd (fold_left (count_step b) zs (total, details))
  = details ++ map (detail_of b) zs.
Proof.
  revert total details.
  induction zs as [| z zs IH]; intros total details; cbn [fold_left map snd].
  - now rewrite app_nil_r.
  - unfold count_step at 2. unfold detail_of at 1. unfold rect_area.
    destruct (tile_rect b z) as [[[start_x end_x] start_y] end_y].
    rewrite IH, <- app_assoc. reflexivity.
Qed.

Lemma detail_counts_sum (b : bbox) (zs : list Z) :
  fold_right Z.add 0 (map detail_count (map (detail_of b) zs))
  = fold_right Z.add 0 (map (fun z => rect_area (tile_rect b z)) zs).
Proof.
  induction zs as [| z zs IH]; cbn [map fold_right].
  - reflexivity.
  - rewrite IH. unfold detail_of at 1. unfold rect_area at 1.
    destruct (tile_rect b z) as [[[start_x end_x] start_y] end_y]. reflexivity.
Qed.

(** X7: [details] has one entry per zoom level, in increasing order of
    zoom, each carrying the rectangle of its level and its area as count; the
    total is the sum of the counts in [details]. *)
Theorem calculate_tile_count_details (min_zoom max_zoom : Z) (b : bbox) :
  snd (calculate_tile_count min_zoom max_zoom b)
  = map (detail_of b) (py_range min_zoom (max_zoom + 1)) /\
  fst (calculate_tile_count min_zoom max_zoom b)
  = fold_right Z.add 0 (map detail_count (snd (calculate_tile_count min_zoom max_zoom b))).
Proof.
  unfold calculate_tile_count.
  rewrite count_loop_details_eq, count_loop_total. cbn [app].
  split; [reflexivity | ].
  rewrite detail_counts_sum. lia.
Qed.

(** X10: with max_zoom < min_zoom nothing is planned: the count is 0, the
    details are empty and no job is submitted. *)
Theorem empty_zoom_range_plans_nothing (min_zoom max_zoom : Z) (b : bbox) :
  max_zoom < min_zoom ->
  calculate_tile_count min_zoom max_zoom b = (0, []) /\
  main_jobs min_zoom max_zoom b = [].
Proof.
  intros Hlt. unfold calculate_tile_count, main_jobs.
  rewrite py_range_empty by lia. split; reflexivity.
Qed.

Lemma empty_zoom_range_plans_nothing_witness :
  calculate_tile_count 5 4 BOUNDING_BOX = (0, []) /\ main_jobs 5 4 BOUNDING_BOX = [].
Proof.
  apply (empty_zoom_range_plans_nothing 5 4 BOUNDING_BOX). lia.
Defined.

Lemma rect_area_pos (b : bbox) (z : Z) : 1 <= rect_area (tile_rect b z).
Proof.
  pose proof (tile_rect_ordered b z) as Hord. unfold rect_area.
  destruct (tile_rect b z) as [[[start_x end_x] start_y] end_y].
  destruct Hord. nia.
Qed.

Lemma areas_at_least_length (b : bbox) (zs : list Z) :
  Z.of_nat (List.length zs)
  <= fold_right Z.add 0 (map (fun z => rect_area (tile_rect b z)) zs).
Proof.
  induction zs as [| z zs IH]; cbn [map fold_right List.length].
  - lia.
  - pose proof (rect_area_pos b z). lia.
Qed.

(** X11: every zoom level of a non-empty range contributes at least one
    tile, whatever the box: each count in [details] is at least 1 and the
    total is at least the number of levels. *)
Theorem every_zoom_level_has_a_tile (min_zoom max_zoom : Z) (b : bbox) :
  min_zoom <= max_zoom ->
  max_zoom - min_zoom + 1 <= fst (calculate_tile_count min_zoom max_zoom b) /\
  Forall (fun d => 1 <= detail_count d) (snd (calculate_tile_count min_zoom max_zoom b)).
Proof.
  intros Hle. unfold calculate_tile_count.
  rewrite count_loop_total, count_loop_details_eq. cbn [app]. split.
  - pose proof (areas_at_least_length b (py_range min_zoom (max_zoom + 1))) as H.
    rewrite py_range_length in H. lia.
  - apply Forall_forall. intros d Hd. apply in_map_iff in Hd.
    destruct Hd as [z [<- _]]. unfold detail_of, detail_count.
    pose proof (rect_area_pos b z) as H. unfold rect_area in H.
    destruct (tile_rect b z) as [[[start_x end_x] start_y] end_y]. exact H.
Qed.

Lemma every_zoom_level_has_a_tile_witness :
  16 - 2 + 1 <= fst (calculate_tile_count 2 16 BOUNDING_BOX) /\
  Forall (fun d => 1 <= detail_count d) (snd (calculate_tile_count 2 16 BOUNDING_BOX)).
Proof.
  apply (every_zoom_level_has_a_tile 2 16 BOUNDING_BOX). lia.
Defined.

(** X9: the rectangle does not depend on which corner is called min and
    which max: exchanging (min_lon, min_lat) with (max_lon, max_lat) gives
    the same rectangle. *)
Theorem tile_rect_corner_order (a_lon a_lat b_lon b_lat : R) (z : Z) :
  tile_rect (BBox b_lon b_lat a_lon a_lat) z = tile_rect (BBox a_lon a_lat b_lon b_lat) z.
Proof.
  unfold tile_rect. cbn [min_lon min_lat max_lon max_lat].
  unfold deg2num.
  rewrite (Z.min_comm (py_int ((b_lon + 180) / 360 * pow2 z))).
  rewrite (Z.max_comm (py_int ((b_lon + 180) / 360 * pow2 z))).
  rewrite (Z.min_comm (py_int ((1 - arcsinh (tan (radians a_lat)) / PI) / 2 * pow2 z))).
  rewrite (Z.max_comm (py_int ((1 - arcsinh (tan (radians a_lat)) / PI) / 2 * pow2 z))).
  reflexivity.
Qed.

(** X8: for a box given in order (min_lon <= max_lon, and
    -90 < min_lat <= max_lat < 90) the normalisation changes nothing: the
    rectangle runs from the tile of the north-west corner to the tile of the
    south-east corner. *)
Theorem tile_rect_of_ordered_box (b : bbox) (z : Z) :
  (min_lon b <= max_lon b)%R ->
  (-90 < min_lat b)%R -> (min_lat b <= max_lat b)%R -> (max_lat b < 90)%R ->
  tile_rect b z
  = (fst (deg2num (max_lat b) (min_lon b) z), fst (deg2num (min_lat b) (max_lon b) z),
     snd (deg2num (max_lat b) (min_lon b) z), snd (deg2num (min_lat b) (max_lon b) z)).
Proof.
  intros Hlon Hlo Hlat Hhi.
  assert (Hx : fst (deg2num (max_lat b) (min_lon b) z)
               <= fst (deg2num (min_lat b) (max_lon b) z)).
  { rewrite !deg2num_fst. apply py_int_mono. now apply x_raw_le. }
  assert (Hy : snd (deg2num (max_lat b) (min_lon b) z)
               <= snd (deg2num (min_lat b) (max_lon b) z)).
  { rewrite !deg2num_snd. apply py_int_mono. now apply y_raw_ge. }
  unfold tile_rect.
  destruct (deg2num (max_lat b) (min_lon b) z) as [x_min y_min].
  destruct (deg2num (min_lat b) (max_lon b) z) as [x_max y_max].
  cbn [fst snd] in *.
  rewrite (Z.min_l _ _ Hx), (Z.max_r _ _ Hx), (Z.min_l _ _ Hy), (Z.max_r _ _ Hy).
  reflexivity.
Qed.

Lemma tile_rect_of_ordered_box_witness :
  tile_rect BOUNDING_BOX 5
  = (fst (deg2num 6 94.5 5), fst (deg2num (-11.5) 141.5 5),
     snd (deg2num 6 94.5 5), snd (deg2num (-11.5) 141.5 5)).
Proof.
  apply (tile_rect_of_ordered_box BOUNDING_BOX 5); cbn; lra.
Defined.

Lemma corner_in_grid (lat lon : R) (z : Z) :
  0 <= z -> (-85 < lat < 85)%R -> (-180 <= lon < 180)%R ->
  0 <= fst (deg2num lat lon z) < 2 ^ z /\ 0 <= snd (deg2num lat lon z) < 2 ^ z.
Proof.
  intros Hz Hlat Hlon. pose proof (pow2_IZR z Hz) as HnZ.
  rewrite deg2num_fst, deg2num_snd.
  split; apply py_int_range; rewrite <- HnZ.
  - now apply x_raw_band.
  - destruct (y_raw_band lat z Hlat). split; lra.
Qed.

(** X12: for zoom levels from 0 to 1023 and a box whose longitudes are
    between -180 and [180 - 2^-44] and whose latitudes are strictly between
    -85 and 85 degrees, every submitted tile lies in the grid of its zoom
    level.  (The bounds are those up to which the float computation keeps
    the corners inside the grid.) *)
Theorem main_jobs_in_grid (min_zoom max_zoom : Z) (b : bbox) :
  0 <= min_zoom -> max_zoom <= 1023 ->
  (-180 <= min_lon b <= 180 - / 2 ^ 44)%R -> (-180 <= max_lon b <= 180 - / 2 ^ 44)%R ->
  (-85 < min_lat b < 85)%R -> (-85 < max_lat b < 85)%R ->
  Forall (fun '(z, x, y) => 0 <= x < 2 ^ z /\ 0 <= y < 2 ^ z)
         (main_jobs min_zoom max_zoom b).
Proof.
  intros Hz0 _ Hlon1' Hlon2' Hlat1 Hlat2.
  assert (Hlon1 : (-180 <= min_lon b < 180)%R) by (pose proof lon_margin; lra).
  assert (Hlon2 : (-180 <= max_lon b < 180)%R) by (pose proof lon_margin; lra).
  apply Forall_forall. intros [[z x] y] Hin.
  unfold main_jobs in Hin. apply in_flat_map in Hin.
  destruct Hin as [z' [Hz' Hj]]. apply py_range_In in Hz'.
  apply zoom_jobs_In in Hj.
  assert (Hz : 0 <= z') by lia.
  destruct (corner_in_grid (max_lat b) (min_lon b) z' Hz Hlat2 Hlon1) as [Hx1 Hy1].
  destruct (corner_in_grid (min_lat b) (max_lon b) z' Hz Hlat1 Hlon2) as [Hx2 Hy2].
  unfold tile_rect in Hj.
  destruct (deg2num (max_lat b) (min_lon b) z') as [x_min y_min].
  destruct (deg2num (min_lat b) (max_lon b) z') as [x_max y_max].
  cbn [fst snd] in *. destruct Hj as [-> [Hx Hy]]. lia.
Qed.

Lemma main_jobs_in_grid_witness :
  Forall (fun '(z, x, y) => 0 <= x < 2 ^ z /\ 0 <= y < 2 ^ z)
         (main_jobs 2 16 BOUNDING_BOX).
Proof.
  apply (main_jobs_in_grid 2 16 BOUNDING_BOX);
    [lia | lia | cbn; pose proof lon_margin; lra ..].
Defined.

End PlannerExtras.

(** ** More on the worker *)

Module WorkerExtras.

Import PyNum Planner Worker Observe Scenarios WorkerFacts Tally MoreScenarios.
Local Open Scope Z_scope.

Arguments tile_key : simpl never.
Arguments tile_url : simpl never.

Lemma attempt_once_events
  (B P : string) (w : world) (z x y : Z) (pbar : bool) (attempt : Z) (s : pstate) :
  exists evs,
    trace (snd (attempt_once B P w z x y pbar attempt s)) = trace s ++ evs /\
    attempt_events evs.
Proof.
  unfold attempt_once, bind, ask, update_stats, pbar_update, emit, ret.
  repeat (cbv beta iota zeta;
          match goal with
          | |- context [match requests_get ?a ?b ?c with _ => _ end] =>
              destruct (requests_get a b c)
          | |- context [match put_object ?a ?b ?c ?d ?e with _ => _ end] =>
              destruct (put_object a b c d e)
          | |- context [match content ?r with _ => _ end] => destruct (content r)
          | |- context [match ?c with _ => _ end] =>
              first [ is_var c | match type of c with bool => idtac end ]; destruct c
          end);
    cbn [fst snd trace];
    eexists; (split; [rewrite <- ?app_assoc; reflexivity | ]);
    unfold attempt_events; cbn; repeat split; lia.
Qed.

Lemma retry_loop_events
  (B P : string) (w : world) (z x y : Z) (pbar : bool) (attempts : list Z) (s : pstate) :
  exists evs,
    trace (snd (retry_loop B P w z x y pbar attempts s)) = trace s ++ evs /\
    (source_calls evs <= List.length attempts)%nat /\
    (store_writes evs <= source_calls evs)%nat /\
    (sleeps evs <= List.length (filter (fun a => (a <? MAX_RETRIES - 1)%Z) attempts))%nat /\
    existence_checks evs = 0%nat.
Proof.
  revert s. induction attempts as [| attempt rest IH]; intros s.
  - exists []. cbn. rewrite app_nil_r. repeat split; lia.
  - cbn [retry_loop]. unfold bind. change (MAX_RETRIES - 1) with 2 in *.
    destruct (attempt_once_events B P w z x y pbar attempt s) as [e1 [Ht1 [Hg [Hp [Hs Hh]]]]].
    pose proof (attempt_once_stats B P w z x y pbar attempt s) as Hres.
    destruct (attempt_once B P w z x y pbar attempt s) as [r1 s1].
    cbn [fst snd] in *.
    destruct Hres as [[Hr _] | [o [Hr _]]]; subst r1.
    + cbn [filter]. destruct (attempt <? 2).
      * unfold emit at 1. cbv beta iota.
        match goal with |- context [retry_loop B P w z x y pbar rest ?s2] =>
          destruct (IH s2) as [e2 [Ht2 [Hg2 [Hp2 [Hs2 Hh2]]]]] end.
        cbn [trace] in Ht2.
        exists (e1 ++ [EvSleep RETRY_DELAY] ++ e2).
        rewrite Ht2, Ht1, <- !app_assoc.
        rewrite !source_calls_app, !store_writes_app, !sleeps_app, !existence_checks_app.
        cbn [List.length]. cbn. repeat split; lia.
      * unfold ret at 1. cbv beta iota.
        destruct (IH s1) as [e2 [Ht2 [Hg2 [Hp2 [Hs2 Hh2]]]]].
        exists (e1 ++ e2).
        rewrite Ht2, Ht1, <- !app_assoc.
        rewrite !source_calls_app, !store_writes_app, !sleeps_app, !existence_checks_app.
        cbn [List.length]. repeat split; lia.
    + exists e1. cbn [ret snd List.length]. unfold ret. cbn [snd].
      repeat split; try lia; assumption.
Qed.

(** *** Single attempts *)

Lemma attempt_once_stored
  (B P : string) (w : world) (z x y : Z) (pbar : bool) (attempt : Z) (s : pstate)
  (body : bytes) :
  requests_get w (ticks s) (tile_url P z x y) = inl (Response 200 (inl body)) ->
  body <> [] ->
  put_object w (S (ticks s)) B (tile_key z x y) body = inl tt ->
  attempt_once B P w z x y pbar attempt s
  = (inl (Some Success),
     PState (incr Success (stats s))
       (trace s ++ [EvGet (tile_url P z x y) 15;
                    EvPutObject B (tile_key z x y) body "image/png"]
          ++ (if pbar then [EvPbarUpdate 1] else []))
       (S (S (ticks s)))).
Proof.
  intros Hget Hbody Hput. unfold attempt_once, bind, ask. rewrite Hget.
  cbn [status_code content Z.eqb Pos.eqb].
  destruct body as [| b0 body']; [contradiction | ].
  cbn [List.length Z.of_nat Z.ltb Z.compare ticks]. rewrite Hput.
  unfold update_stats, pbar_update, emit, ret.
  destruct pbar; cbn [stats trace ticks]; rewrite <- ?app_assoc; reflexivity.
Qed.

Lemma attempt_once_transient
  (B P : string) (w : world) (z x y : Z) (pbar : bool) (attempt : Z) (s : pstate)
  (resp : response) :
  requests_get w (ticks s) (tile_url P z x y) = inl resp ->
  transient resp ->
  exists m,
    attempt_once B P w z x y pbar attempt s
    = (inl None,
       PState (stats s)
         (trace s ++ [EvGet (tile_url P z x y) 15; EvLog WARNING m])
         (S (ticks s))).
Proof.
  intros Hget Htr. unfold attempt_once, bind, ask. rewrite Hget.
  destruct Htr as [[H200 H404] | [H200 Hbody]].
  - apply Z.eqb_neq in H200, H404. rewrite H200, H404.
    eexists. unfold emit, ret. cbn [stats trace ticks].
    rewrite <- app_assoc. reflexivity.
  - rewrite H200, Hbody. cbn.
    eexists. unfold emit, ret. cbn [stats trace ticks].
    rewrite <- app_assoc. reflexivity.
Qed.

Lemma attempt_once_put_fails
  (B P : string) (w : world) (z x y : Z) (pbar : bool) (attempt : Z) (s : pstate)
  (body : bytes) (e : exn) :
  requests_get w (ticks s) (tile_url P z x y) = inl (Response 200 (inl body)) ->
  body <> [] ->
  put_object w (S (ticks s)) B (tile_key z x y) body = inr e ->
  exists l m,
    attempt_once B P w z x y pbar attempt s
    = (inl None,
       PState (stats s)
         (trace s ++ [EvGet (tile_url P z x y) 15;
                      EvPutObject B (tile_key z x y) body "image/png";
                      EvLog l m])
         (S (S (ticks s)))).
Proof.
  intros Hget Hbody Hput. unfold attempt_once, bind, ask. rewrite Hget.
  cbn [status_code content Z.eqb Pos.eqb].
  destruct body as [| b0 body']; [contradiction | ].
  cbn [List.length Z.of_nat Z.ltb Z.compare ticks]. rewrite Hput.
  unfold emit, ret.
  destruct e; eexists; eexists; cbn [stats trace ticks]; rewrite <- !app_assoc; reflexivity.
Qed.

(** The loop only ever returns "success" or "not_found". *)
Lemma attempt_once_outcomes
  (B P : string) (w : world) (z x y : Z) (pbar : bool) (attempt : Z) (s : pstate) (o : outcome) :
  fst (attempt_once B P w z x y pbar attempt s) = inl (Some o) ->
  o = Success \/ o = NotFound.
Proof.
  unfold attempt_once, bind, ask, update_stats, pbar_update, emit, ret.
  repeat (cbv beta iota zeta;
          match goal with
          | |- context [match requests_get ?a ?b ?c with _ => _ end] =>
              destruct (requests_get a b c)
          | |- context [match put_object ?a ?b ?c ?d ?e with _ => _ end] =>
              destruct (put_object a b c d e)
          | |- context [match content ?r with _ => _ end] => destruct (content r)
          | |- context [match ?c with _ => _ end] =>
              first [ is_var c | match type of c with bool => idtac end ]; destruct c
          end);
    cbn [fst]; intros H; inversion H; auto.
Qed.

Lemma retry_loop_outcomes
  (B P : string) (w : world) (z x y : Z) (pbar : bool) (attempts : list Z) (s : pstate)
  (o : outcome) :
  fst (retry_loop B P w z x y pbar attempts s) = inl (Some o) ->
  o = Success \/ o = NotFound.
Proof.
  revert s. induction attempts as [| attempt rest IH]; intros s.
  - cbn. discriminate.
  - cbn [retry_loop]. unfold bind.
    pose proof (attempt_once_outcomes B P w z x y pbar attempt s) as Hone.
    pose proof (attempt_once_stats B P w z x y pbar attempt s) as Hres.
    destruct (attempt_once B P w z x y pbar attempt s) as [r1 s1].
    cbn [fst snd] in *.
    destruct Hres as [[Hr _] | [o1 [Hr _]]]; subst r1.
    + destruct (attempt <? MAX_RETRIES - 1); unfold emit, ret; cbv beta iota; apply IH.
    + cbn. intros H. inversion H; subst. now apply Hone.
Qed.

(** *** Whole jobs *)

Ltac settle_job :=
  cbn [fst snd stats trace ticks retry_loop ret incr success skipped failed not_found];
  rewrite <- ?app_assoc; rewrite events_since_app; cbn; repeat split; reflexivity.

(** X13: when the existence check fails with any [ClientError] (404, but
    also 403 and the like), the first response is a 200 with a non-empty body
    and the write succeeds, the job returns "success" after one call of the
    source, writes exactly that body under the tile's key as image/png,
    never sleeps, and adds one to the success counter and nothing to the
    three others. *)
Theorem upload_tile_stores_fetched_tile
  (B P : string) (w : world) (z x y : Z) (pbar : bool) (s : pstate)
  (code : string) (body : bytes) :
  head_object w (ticks s) B (tile_key z x y) = inr (ClientError code) ->
  requests_get w (S (ticks s)) (tile_url P z x y) = inl (Response 200 (inl body)) ->
  body <> [] ->
  put_object w (S (S (ticks s))) B (tile_key z x y) body = inl tt ->
  let r := upload_tile B P w z x y pbar s in
  fst r = inl Success /\
  success (stats (snd r)) = success (stats s) + 1 /\
  skipped (stats (snd r)) = skipped (stats s) /\
  failed (stats (snd r)) = failed (stats s) /\
  not_found (stats (snd r)) = not_found (stats s) /\
  source_calls (events_since s (snd r)) = 1%nat /\
  filter is_put (events_since s (snd r))
  = [EvPutObject B (tile_key z x y) body "image/png"] /\
  sleeps (events_since s (snd r)) = 0%nat.
Proof.
  intros Hhead Hget Hbody Hput r. subst r.
  unfold upload_tile, bind.
  rewrite (check_exists_absent B w _ code s Hhead).
  rewrite attempts_of_MAX_RETRIES.
  match goal with
  | |- context [retry_loop B P w z x y pbar (0 :: _) ?s1] =>
      rewrite (retry_loop_return B P w z x y pbar 0 _ s1 _ Success
                 (attempt_once_stored B P w z x y pbar 0 s1 body Hget Hbody Hput))
  end.
  unfold check_warning, ret.
  destruct (String.eqb code "404"), pbar; settle_job.
Qed.

(** X14: when every response is neither a tile nor a 404 (a status other
    than 200 and 404, or a 200 with an empty body), the job returns "failed"
    after three calls of the source and two sleeps, writes nothing, and
    adds one to the failed counter and nothing to the three others. *)
Theorem upload_tile_transient_responses_fail
  (B P : string) (w : world) (z x y : Z) (pbar : bool) (s : pstate) (code : string) :
  head_object w (ticks s) B (tile_key z x y) = inr (ClientError code) ->
  (forall t, exists resp,
      requests_get w t (tile_url P z x y) = inl resp /\ transient resp) ->
  let r := upload_tile B P w z x y pbar s in
  fst r = inl Failed /\
  success (stats (snd r)) = success (stats s) /\
  skipped (stats (snd r)) = skipped (stats s) /\
  failed (stats (snd r)) = failed (stats s) + 1 /\
  not_found (stats (snd r)) = not_found (stats s) /\
  source_calls (events_since s (snd r)) = 3%nat /\
  store_writes (events_since s (snd r)) = 0%nat /\
  sleeps (events_since s (snd r)) = 2%nat.
Proof.
  intros Hhead Hget r. subst r.
  unfold upload_tile, bind.
  rewrite (check_exists_absent B w _ code s Hhead).
  rewrite attempts_of_MAX_RETRIES.
  do 3 match goal with
  | |- context [retry_loop B P w z x y pbar (?a :: _) ?s1] =>
      let resp := fresh "resp" in
      let Hr := fresh "Hr" in
      let Ht := fresh "Ht" in
      let m := fresh "m" in
      let Ha := fresh "Ha" in
      destruct (Hget (ticks s1)) as [resp [Hr Ht]];
      destruct (attempt_once_transient B P w z x y pbar a s1 resp Hr Ht) as [m Ha];
      rewrite (retry_loop_next B P w z x y pbar a _ s1 _ Ha)
  end.
  unfold after_pause, check_warning, update_stats, pbar_update, emit, ret.
  destruct (String.eqb code "404"), pbar;
    cbn [fst snd stats trace ticks retry_loop ret Z.ltb Z.sub Z.compare Z.add Z.opp Z.pos_sub
         MAX_RETRIES Pos.compare Pos.compare_cont Pos.pred_double];
    rewrite <- ?app_assoc; rewrite events_since_app; cbn; repeat split; reflexivity.
Qed.

Lemma upload_tile_stores_fetched_tile_witness :
  let r := upload_tile bucket pattern world_forbidden_check 2 3 1 true pstate0 in
  fst r = inl Success /\
  success (stats (snd r)) = success (stats pstate0) + 1 /\
  skipped (stats (snd r)) = skipped (stats pstate0) /\
  failed (stats (snd r)) = failed (stats pstate0) /\
  not_found (stats (snd r)) = not_found (stats pstate0) /\
  source_calls (events_since pstate0 (snd r)) = 1%nat /\
  filter is_put (events_since pstate0 (snd r))
  = [EvPutObject bucket (tile_key 2 3 1) png "image/png"] /\
  sleeps (events_since pstate0 (snd r)) = 0%nat.
Proof.
  apply (upload_tile_stores_fetched_tile bucket pattern world_forbidden_check 2 3 1 true
           pstate0 "403" png); [reflexivity | reflexivity | discriminate | reflexivity].
Defined.

Lemma upload_tile_transient_responses_fail_witness :
  let r := upload_tile bucket pattern world_server_error 2 3 1 true pstate0 in
  fst r = inl Failed /\
  success (stats (snd r)) = success (stats pstate0) /\
  skipped (stats (snd r)) = skipped (stats pstate0) /\
  failed (stats (snd r)) = failed (stats pstate0) + 1 /\
  not_found (stats (snd r)) = not_found (stats pstate0) /\
  source_calls (events_since pstate0 (snd r)) = 3%nat /\
  store_writes (events_since pstate0 (snd r)) = 0%nat /\
  sleeps (events_since pstate0 (snd r)) = 2%nat.
Proof.
  apply (upload_tile_transient_responses_fail bucket pattern world_server_error 2 3 1 true
           pstate0 "404").
  - reflexivity.
  - intros t. exists (Response 500 (inl [])). split; [reflexivity | ].
    left. cbn. split; discriminate.
Defined.

(** X15: a failed write consumes an attempt.  When the source serves the
    tile every time and every write raises, the tile is fetched three times
    and written three times, with two sleeps, and the job returns
    "failed". *)
Theorem upload_tile_failed_writes_are_retried
  (B P : string) (w : world) (z x y : Z) (pbar : bool) (s : pstate)
  (code : string) (body : bytes) :
  head_object w (ticks s) B (tile_key z x y) = inr (ClientError code) ->
  (forall t, requests_get w t (tile_url P z x y) = inl (Response 200 (inl body))) ->
  body <> [] ->
  (forall t, exists e, put_object w t B (tile_key z x y) body = inr e) ->
  let r := upload_tile B P w z x y pbar s in
  fst r = inl Failed /\
  stats (snd r) = incr Failed (stats s) /\
  source_calls (events_since s (snd r)) = 3%nat /\
  store_writes (events_since s (snd r)) = 3%nat /\
  sleeps (events_since s (snd r)) = 2%nat.
Proof.
  intros Hhead Hget Hbody Hput r. subst r.
  unfold upload_tile, bind.
  rewrite (check_exists_absent B w _ code s Hhead).
  rewrite attempts_of_MAX_RETRIES.
  do 3 match goal with
  | |- context [retry_loop B P w z x y pbar (?a :: _) ?s1] =>
      let e := fresh "e" in
      let He := fresh "He" in
      let l := fresh "l" in
      let m := fresh "m" in
      let Ha := fresh "Ha" in
      destruct (Hput (S (ticks s1))) as [e He];
      destruct (attempt_once_put_fails B P w z x y pbar a s1 body e (Hget _) Hbody He)
        as [l [m Ha]];
      rewrite (retry_loop_next B P w z x y pbar a _ s1 _ Ha)
  end.
  unfold after_pause, check_warning, update_stats, pbar_update, emit, ret.
  destruct (String.eqb code "404"), pbar;
    cbn [fst snd stats trace ticks retry_loop ret Z.ltb Z.sub Z.compare Z.add Z.opp Z.pos_sub
         MAX_RETRIES Pos.compare Pos.compare_cont Pos.pred_double];
    rewrite <- ?app_assoc; rewrite events_since_app; cbn; repeat split; reflexivity.
Qed.

Lemma upload_tile_failed_writes_are_retried_witness :
  let r := upload_tile bucket pattern world_read_only_store 2 3 1 true pstate0 in
  fst r = inl Failed /\
  stats (snd r) = incr Failed (stats pstate0) /\
  source_calls (events_since pstate0 (snd r)) = 3%nat /\
  store_writes (events_since pstate0 (snd r)) = 3%nat /\
  sleeps (events_since pstate0 (snd r)) = 2%nat.
Proof.
  apply (upload_tile_failed_writes_are_retried bucket pattern world_read_only_store 2 3 1 true
           pstate0 "404" png).
  - reflexivity.
  - intros t. reflexivity.
  - discriminate.
  - intros t. exists (ClientError "AccessDenied"). reflexivity.
Defined.

(** X16: a job recovers from a first timeout: when the second call of the
    source returns the tile and the write succeeds, the job returns
    "success" after two calls with one sleep between them and one write. *)
Theorem upload_tile_recovers_on_second_attempt
  (B P : string) (w : world) (z x y : Z) (pbar : bool) (s : pstate)
  (code : string) (body : bytes) :
  head_object w (ticks s) B (tile_key z x y) = inr (ClientError code) ->
  requests_get w (S (ticks s)) (tile_url P z x y) = inr Timeout ->
  requests_get w (S (S (ticks s))) (tile_url P z x y) = inl (Response 200 (inl body)) ->
  body <> [] ->
  put_object w (S (S (S (ticks s)))) B (tile_key z x y) body = inl tt ->
  let r := upload_tile B P w z x y pbar s in
  fst r = inl Success /\
  stats (snd r) = incr Success (stats s) /\
  calls_and_sleeps (events_since s (snd r))
  = [EvGet (tile_url P z x y) 15; EvSleep RETRY_DELAY; EvGet (tile_url P z x y) 15] /\
  store_writes (events_since s (snd r)) = 1%nat.
Proof.
  intros Hhead Hget1 Hget2 Hbody Hput r. subst r.
  unfold upload_tile, bind.
  rewrite (check_exists_absent B w _ code s Hhead).
  rewrite attempts_of_MAX_RETRIES.
  match goal with
  | |- context [retry_loop B P w z x y pbar (0 :: _) ?s1] =>
      rewrite (retry_loop_next B P w z x y pbar 0 _ s1 _
                 (attempt_once_timeout B P w z x y pbar 0 s1 Hget1))
  end.
  match goal with
  | |- context [retry_loop B P w z x y pbar (1 :: _) ?s1] =>
      rewrite (retry_loop_return B P w z x y pbar 1 _ s1 _ Success
                 (attempt_once_stored B P w z x y pbar 1 s1 body Hget2 Hbody Hput))
  end.
  unfold after_pause, check_warning, ret.
  destruct (String.eqb code "404"), pbar;
    cbn [fst snd stats trace ticks ret Z.ltb Z.sub Z.compare Z.add Z.opp Z.pos_sub
         MAX_RETRIES Pos.compare Pos.compare_cont Pos.pred_double];
    rewrite <- ?app_assoc; rewrite events_since_app; cbn; repeat split; reflexivity.
Qed.

Lemma upload_tile_recovers_on_second_attempt_witness :
  let r := upload_tile bucket pattern world_flaky 2 3 1 true pstate0 in
  fst r = inl Success /\
  stats (snd r) = incr Success (stats pstate0) /\
  calls_and_sleeps (events_since pstate0 (snd r))
  = [EvGet (tile_url pattern 2 3 1) 15; EvSleep RETRY_DELAY;
     EvGet (tile_url pattern 2 3 1) 15] /\
  store_writes (events_since pstate0 (snd r)) = 1%nat.
Proof.
  apply (upload_tile_recovers_on_second_attempt bucket pattern world_flaky 2 3 1 true
           pstate0 "404" png);
    [reflexivity | reflexivity | reflexivity | discriminate | reflexivity].
Defined.

(** *** Any world *)

Lemma upload_tile_check_raises
  (B P : string) (w : world) (z x y : Z) (pbar : bool) (s : pstate) (e : exn) :
  head_object w (ticks s) B (tile_key z x y) = inr e ->
  (forall code, e <> ClientError code) ->
  upload_tile B P w z x y pbar s
  = (inr e, PState (stats s) (trace s ++ [EvHeadObject B (tile_key z x y)]) (S (ticks s))).
Proof.
  intros Hhead Hne. unfold upload_tile, bind.
  rewrite (check_exists_raises B w _ e s Hhead Hne). reflexivity.
Qed.

Lemma check_warning_counts (s3_key code : string) :
  existence_checks (check_warning s3_key code) = 0%nat /\
  source_calls (check_warning s3_key code) = 0%nat /\
  store_writes (check_warning s3_key code) = 0%nat /\
  sleeps (check_warning s3_key code) = 0%nat.
Proof.
  unfold check_warning. destruct (String.eqb code "404"); cbn; repeat split.
Qed.

Lemma events_since_app_cons (s : pstate) (e : event) (evs : list event) (t : list event) :
  t = trace s ++ e :: evs ->
  skipn (List.length (trace s)) t = e :: evs.
Proof.
  intros ->. now rewrite skipn_app, skipn_all, Nat.sub_diag.
Qed.

(** From the formed URL on, whatever the world answers: one existence
    check of the job's own key, first, and no other; at most three calls of
    the source, never more writes than fetches, at most two sleeps. *)
Lemma upload_tile_body_effects
  (B P : string) (w : world) (z x y : Z) (pbar : bool) (s : pstate) :
  exists evs,
    events_since s (snd (upload_tile B P w z x y pbar s))
    = EvHeadObject B (tile_key z x y) :: evs /\
    existence_checks evs = 0%nat /\
    (source_calls evs <= 3)%nat /\
    (store_writes evs <= source_calls evs)%nat /\
    (sleeps evs <= 2)%nat.
Proof.
  destruct (head_object w (ticks s) B (tile_key z x y)) as [[] | e] eqn:Hhead.
  - unfold upload_tile, bind. rewrite (check_exists_present B w _ s Hhead).
    unfold update_stats, pbar_update, emit, ret.
    destruct pbar; cbn [fst snd stats trace ticks]; rewrite <- ?app_assoc;
      rewrite events_since_app; eexists; (split; [reflexivity | ]); cbn; repeat split; lia.
  - destruct e as [ | code | name ].
    + rewrite (upload_tile_check_raises B P w z x y pbar s _ Hhead) by discriminate.
      cbn [snd]. rewrite events_since_app. exists []. cbn. repeat split; lia.
    + unfold upload_tile, bind. rewrite (check_exists_absent B w _ code s Hhead).
      match goal with
      | |- context [retry_loop B P w z x y pbar ?l ?s1] =>
          destruct (retry_loop_events B P w z x y pbar l s1)
            as [evs [Htr [Hg [Hp [Hs Hh]]]]];
          destruct (retry_loop B P w z x y pbar l s1) as [r1 s2]
      end.
      cbn [snd trace] in Htr. rewrite attempts_of_MAX_RETRIES in Hg, Hs.
      cbn in Hg, Hs.
      destruct (check_warning_counts (tile_key z x y) code) as [Hw1 [Hw2 [Hw3 Hw4]]].
      destruct r1 as [[o | ] | e].
      * unfold ret. cbn [snd].
        exists (check_warning (tile_key z x y) code ++ evs). split.
        -- apply events_since_app_cons. rewrite Htr, <- app_assoc. reflexivity.
        -- rewrite existence_checks_app, source_calls_app, store_writes_app, sleeps_app.
           repeat split; lia.
      * unfold update_stats, pbar_update, emit, ret.
        exists (check_warning (tile_key z x y) code ++ evs
                  ++ EvLog ERROR (MsgFailedAfter MAX_RETRIES z x y)
                  :: (if pbar then [EvPbarUpdate 1] else [])). split.
        -- apply events_since_app_cons.
           destruct pbar; cbn [fst snd stats trace ticks]; rewrite Htr, <- ?app_assoc;
             reflexivity.
        -- rewrite !existence_checks_app, !source_calls_app, !store_writes_app, !sleeps_app.
           destruct pbar; cbn; repeat split; lia.
      * cbn [snd].
        exists (check_warning (tile_key z x y) code ++ evs). split.
        -- apply events_since_app_cons. rewrite Htr, <- app_assoc. reflexivity.
        -- rewrite existence_checks_app, source_calls_app, store_writes_app, sleeps_app.
           repeat split; lia.
    + rewrite (upload_tile_check_raises B P w z x y pbar s _ Hhead) by discriminate.
      cbn [snd]. rewrite events_since_app. exists []. cbn. repeat split; lia.
Qed.

(** From the formed URL on: a job that returns has applied the update of
    its outcome and returns "skipped" exactly when the check succeeded; a
    job that raises raises what [head_object] raised. *)
Lemma upload_tile_body_cases
  (B P : string) (w : world) (z x y : Z) (pbar : bool) (s : pstate) :
  let r := upload_tile B P w z x y pbar s in
  match fst r with
  | inl o =>
      stats (snd r) = incr o (stats s) /\
      (o = Skipped <-> head_object w (ticks s) B (tile_key z x y) = inl tt)
  | inr e =>
      stats (snd r) = stats s /\
      head_object w (ticks s) B (tile_key z x y) = inr e /\
      forall code, e <> ClientError code
  end.
Proof.
  intros r. subst r.
  pose proof (upload_tile_stats B P w z x y pbar s) as Hstats. cbv zeta in Hstats.
  destruct (head_object w (ticks s) B (tile_key z x y)) as [[] | e] eqn:Hhead.
  - revert Hstats. unfold upload_tile, bind.
    rewrite (check_exists_present B w _ s Hhead).
    unfold update_stats, pbar_update, emit, ret.
    destruct pbar; cbn [fst snd]; intros Hs; (split; [exact Hs | tauto]).
  - destruct e as [ | code | name ].
    + revert Hstats.
      rewrite (upload_tile_check_raises B P w z x y pbar s _ Hhead) by discriminate.
      cbn [fst snd]. tauto.
    + revert Hstats. unfold upload_tile, bind.
      rewrite (check_exists_absent B w _ code s Hhead).
      match goal with
      | |- context [retry_loop B P w z x y pbar ?l ?s1] =>
          pose proof (retry_loop_outcomes B P w z x y pbar l s1) as Hout;
          pose proof (retry_loop_stats B P w z x y pbar l s1) as Hloop;
          destruct (retry_loop B P w z x y pbar l s1) as [r1 s2]
      end.
      cbn [fst snd] in Hout, Hloop.
      destruct Hloop as [[Hr _] | [o [Hr _]]]; subst r1.
      * unfold update_stats, pbar_update, emit, ret.
        destruct pbar; cbn [fst snd]; intros Hs;
          (split; [exact Hs | split; [discriminate | discriminate]]).
      * unfold ret. cbn [fst snd]. intros Hs. split; [exact Hs | ].
        destruct (Hout o eq_refl) as [-> | ->]; split; discriminate.
    + revert Hstats.
      rewrite (upload_tile_check_raises B P w z x y pbar s _ Hhead) by discriminate.
      cbn [fst snd]. tauto.
Qed.

Lemma counter_incr (o o' : outcome) (st : stats_t) :
  counter o (incr o' st) = counter o st + (if outcome_eqb o o' then 1 else 0).
Proof. destruct o, o'; cbn; lia. Qed.

(** X19: after a run, each of the four counters has grown by the number
    of jobs that returned that outcome. *)
Theorem run_jobs_counts_each_outcome
  (B P : string) (w : world) (pbar : bool) (jobs : list tile) (s : pstate) (o : outcome) :
  counter o (stats (snd (run_jobs B P w pbar jobs s)))
  = counter o (stats s) + Z.of_nat (tally o (fst (run_jobs B P w pbar jobs s))).
Proof.
  revert s. induction jobs as [| [[z x] y] rest IH]; intros s; cbn [run_jobs].
  - unfold tally. cbn. lia.
  - unfold run_job.
    pose proof (upload_tile_stats B P w z x y pbar s) as Hjob.
    destruct (upload_tile B P w z x y pbar s) as [f s1].
    specialize (IH s1). destruct (run_jobs B P w pbar rest s1) as [fs s2].
    cbn [fst snd] in *. rewrite IH.
    unfold tally. cbn [filter].
    destruct f as [o' | e].
    + rewrite Hjob, counter_incr.
      destruct (outcome_eqb o o'); cbn [List.length]; lia.
    + destruct Hjob as [Hs _]. rewrite Hs. lia.
Qed.

End WorkerExtras.

(** ** More on the benchmark *)

Module BenchmarkExtras.

Import PyNum TileAddressing Planner Worker Observe Scenarios WorkerFacts Tally MoreScenarios WorkerExtras.
Local Open Scope Z_scope.

Arguments tile_key : simpl never.
Arguments tile_url : simpl never.

(** X21: the benchmark draws three tiles at each of the zoom levels 8, 10
    and 12 and keeps the first num_samples of them: min(num_samples, 9)
    samples, so the benchmark_speed(num_samples=10) of [main] has nine
    samples, not ten. *)
Theorem bench_samples_count (n : nat) :
  List.length (bench_samples n) = Nat.min n 9 /\
  Forall (fun '(z, _, _) => z = 8 \/ z = 10 \/ z = 12) (bench_samples n) /\
  List.length (bench_samples 10) = 9%nat.
Proof.
  destruct (bench_samples_length n) as [Hlen Hz].
  destruct (bench_samples_length 10) as [Hten _].
  repeat split; assumption.
Qed.

(** What one sample adds: one call of the source, at most one write, no
    existence check; [stats] stays as it is. *)
Lemma bench_try_events
  (B P : string) (w : world) (z x y : Z) (s : pstate) :
  exists evs,
    trace (snd (bench_try B P w z x y s)) = trace s ++ evs /\
    stats (snd (bench_try B P w z x y s)) = stats s /\
    source_calls evs = 1%nat /\ (store_writes evs <= 1)%nat /\
    existence_checks evs = 0%nat.
Proof.
  unfold bench_try, bind, ask, ret.
  repeat (cbv beta iota zeta;
          match goal with
          | |- context [match requests_get ?a ?b ?c with _ => _ end] =>
              destruct (requests_get a b c)
          | |- context [match put_object ?a ?b ?c ?d ?e with _ => _ end] =>
              destruct (put_object a b c d e)
          | |- context [match content ?r with _ => _ end] => destruct (content r)
          | |- context [match ?c with _ => _ end] =>
              first [ is_var c | match type of c with bool => idtac end ]; destruct c
          end);
    cbn [fst snd trace stats];
    eexists; (split; [rewrite <- ?app_assoc; reflexivity | ]);
    cbn; repeat split; lia.
Qed.

Lemma bench_loop_events
  (B P : string) (w : world) (n : nat) (samples : list tile) (times : list R) (s : pstate) :
  exists evs,
    trace (snd (bench_loop B P w n samples times s)) = trace s ++ evs /\
    stats (snd (bench_loop B P w n samples times s)) = stats s /\
    source_calls evs = List.length samples /\
    (store_writes evs <= List.length samples)%nat /\
    existence_checks evs = 0%nat.
Proof.
  revert times s. induction samples as [| [[z x] y] rest IH]; intros times s.
  - exists []. cbn. rewrite app_nil_r. repeat split; lia.
  - cbn [bench_loop]. unfold bind.
    destruct (bench_try_events B P w z x y s) as [e1 [Ht1 [Hst1 [Hg1 [Hp1 Hh1]]]]].
    destruct (bench_try_returns B P w z x y s) as [v [s1 Htry]].
    rewrite Htry in *. cbn [fst snd] in *.
    destruct v as [elapsed | e]; unfold emit; cbv beta iota;
      match goal with
      | |- context [bench_loop B P w n rest ?t ?s2] =>
          destruct (IH t s2) as [e2 [Ht2 [Hst2 [Hg2 [Hp2 Hh2]]]]]
      end;
      cbn [trace stats] in Ht2, Hst2;
      match type of Ht2 with
      | _ = (_ ++ [?pr]) ++ _ => exists (e1 ++ [pr] ++ e2)
      end;
      rewrite Ht2, Hst2, Ht1, Hst1, <- !app_assoc;
      rewrite !source_calls_app, !store_writes_app, !existence_checks_app;
      cbn [List.length]; cbn; repeat split; lia.
Qed.

Lemma benchmark_speed_events
  (B P : string) (w : world) (n : nat) (s : pstate) :
  exists evs,
    trace (snd (benchmark_speed B P w n s))
    = trace s ++ EvPrint (MsgBenchmarking n) :: evs /\
    stats (snd (benchmark_speed B P w n s)) = stats s /\
    source_calls evs = List.length (bench_samples n) /\
    (store_writes evs <= List.length (bench_samples n))%nat /\
    existence_checks evs = 0%nat.
Proof.
  unfold benchmark_speed, bind, emit. cbv beta iota.
  fold (bench_samples n).
  match goal with
  | |- context [bench_loop B P w n ?l [] ?s1] =>
      destruct (bench_loop_events B P w n l [] s1) as [evs [Ht [Hst [Hg [Hp Hh]]]]];
      destruct (bench_loop B P w n l [] s1) as [r s2]
  end.
  cbn [fst snd trace stats] in *.
  exists evs.
  destruct r as [[| t ts] | e]; unfold ret; cbn [snd];
    rewrite Hst, Ht, <- app_assoc; repeat split; assumption.
Qed.

(** X23: an average of exactly 0 is treated like no average: [main]
    prints the "could not benchmark" warning and goes on. *)
Theorem zero_average_reported_as_unavailable
  (B P : string) (w : world) (total_tiles : Z) (s : pstate) :
  fst (benchmark_speed B P w 10 s) = inl (Some 0%R) ->
  fst (main_benchmark B P w total_tiles s) = inl tt /\
  trace (snd (main_benchmark B P w total_tiles s))
  = trace (snd (benchmark_speed B P w 10 s)) ++ [EvPrint MsgBenchmarkWarning].
Proof.
  intros H0. unfold main_benchmark, bind.
  destruct (benchmark_speed B P w 10 s) as [r s1]. cbn [fst snd] in *. subst r.
  destruct (Req_dec_T 0 0) as [_ | Hne]; [ | now destruct Hne].
  split; reflexivity.
Qed.

Lemma zero_average_reported_as_unavailable_witness :
  fst (main_benchmark bucket pattern world_no_tiles 100 pstate0) = inl tt /\
  trace (snd (main_benchmark bucket pattern world_no_tiles 100 pstate0))
  = trace (snd (benchmark_speed bucket pattern world_no_tiles 10 pstate0))
      ++ [EvPrint MsgBenchmarkWarning].
Proof.
  apply (zero_average_reported_as_unavailable bucket pattern world_no_tiles 100 pstate0).
  rewrite benchmark_speed_history.
  unfold bench_samples, sample_loop, bench_start.
  destruct (deg2num (max_lat BOUNDING_BOX) (min_lon BOUNDING_BOX) 8) as [a8 b8].
  destruct (deg2num (min_lat BOUNDING_BOX) (max_lon BOUNDING_BOX) 8) as [c8 d8].
  destruct (deg2num (max_lat BOUNDING_BOX) (min_lon BOUNDING_BOX) 10) as [a10 b10].
  destruct (deg2num (min_lat BOUNDING_BOX) (max_lon BOUNDING_BOX) 10) as [c10 d10].
  destruct (deg2num (max_lat BOUNDING_BOX) (min_lon BOUNDING_BOX) 12) as [a12 b12].
  destruct (deg2num (min_lat BOUNDING_BOX) (max_lon BOUNDING_BOX) 12) as [c12 d12].
  cbn -[Rminus Rdiv INR py_sum].
  do 2 f_equal. unfold py_sum. cbn [fold_left List.length]. 
  replace (INR 9) with 9%R by (simpl; lra). lra.
Defined.

End BenchmarkExtras.


(** ** The viewer's helpers *)

Module ViewerExtras.

Import Ascii.
Import PyNum Worker Viewer.
Local Open Scope string_scope.

Lemma split_on_nonempty (sep : ascii) (s : string) : split_on sep s <> [].
Proof.
  destruct s as [| c rest]; cbn; [discriminate | ].
  destruct (Ascii.eqb c sep); [discriminate | ].
  destruct (split_on sep rest); discriminate.
Qed.

Lemma split_on_free (sep : ascii) (s : string) :
  free_of sep s = true -> split_on sep s = [s].
Proof.
  induction s as [| c rest IH]; cbn; [reflexivity | ].
  intros H. apply andb_prop in H. destruct H as [Hc Hrest].
  apply negb_true_iff in Hc. rewrite Hc, (IH Hrest). reflexivity.
Qed.

Lemma split_on_app (sep : ascii) (a b : string) :
  free_of sep a = true ->
  split_on sep (a ++ String sep b) = a :: split_on sep b.
Proof.
  induction a as [| c rest IH]; cbn.
  - intros _. now rewrite Ascii.eqb_refl.
  - intros H. apply andb_prop in H. destruct H as [Hc Hrest].
    apply negb_true_iff in Hc. rewrite Hc, (IH Hrest). reflexivity.
Qed.

Lemma split_on_two (sep : ascii) (a b : string) :
  exists p q qs, split_on sep (a ++ String sep b) = p :: q :: qs.
Proof.
  induction a as [| c rest IH]; cbn.
  - rewrite Ascii.eqb_refl.
    pose proof (split_on_nonempty sep b) as Hne.
    destruct (split_on sep b) as [| q qs]; [contradiction | ].
    now exists "", q, qs.
  - destruct IH as [p [q [qs IH]]]. rewrite IH.
    destruct (Ascii.eqb c sep).
    + now exists "", p, (q :: qs).
    + now exists (String c p), q, qs.
Qed.

Lemma split_on_app_last (sep : ascii) (a b : string) :
  free_of sep b = true ->
  last (split_on sep (a ++ String sep b)) "" = b.
Proof.
  intros Hb. induction a as [| c rest IH]; cbn [append split_on].
  - rewrite Ascii.eqb_refl, (split_on_free sep b Hb). reflexivity.
  - destruct (split_on_two sep rest b) as [p [q [qs E]]]. rewrite E in *.
    destruct (Ascii.eqb c sep); exact IH.
Qed.

Lemma substring_skip (n m : nat) (c : ascii) (s : string) :
  substring (S n) m (String c s) = substring n m s.
Proof. reflexivity. Qed.

Lemma string_length_app (a b : string) :
  String.length (a ++ b) = (String.length a + String.length b)%nat.
Proof.
  induction a as [| c rest IH]; cbn; [reflexivity | now rewrite IH].
Qed.

Lemma ends_with_app (suffix a b : string) :
  (String.length suffix <= String.length b)%nat ->
  ends_with suffix (a ++ b) = ends_with suffix b.
Proof.
  intros Hlen. induction a as [| c rest IH]; [reflexivity | ].
  rewrite <- IH. unfold ends_with.
  assert (Hl : (String.length suffix <= String.length (rest ++ b))%nat).
  { rewrite string_length_app. lia. }
  cbn [append String.length].
  replace (S (String.length (rest ++ b)) - String.length suffix)%nat
    with (S (String.length (rest ++ b) - String.length suffix)) by lia.
  rewrite substring_skip.
  apply Nat.leb_le in Hl. rewrite Hl.
  assert (Hl' : (String.length suffix <=? S (String.length (rest ++ b)))%nat = true).
  { apply Nat.leb_le. apply Nat.leb_le in Hl. lia. }
  rewrite Hl'. reflexivity.
Qed.

Lemma free_of_app (c : ascii) (a b : string) :
  free_of c (a ++ b) = free_of c a && free_of c b.
Proof.
  induction a as [| d rest IH]; cbn; [reflexivity | ].
  rewrite IH. now rewrite andb_assoc.
Qed.

(** Printed integers consist of digits and a sign. *)
Lemma free_of_uint (c : ascii) (d : Decimal.uint) :
  free_of c "0123456789" = true -> free_of c (NilEmpty.string_of_uint d) = true.
Proof.
  intros Hc. cbn [free_of] in Hc.
  repeat match type of Hc with
         | _ && _ = true => apply andb_prop in Hc; destruct Hc as [? Hc]
         end.
  induction d; cbn [NilEmpty.string_of_uint free_of]; rewrite ?IHd;
    try reflexivity; rewrite andb_true_r; assumption.
Qed.

Lemma free_of_str_of_Z (c : ascii) (z : Z) :
  free_of c "-0123456789" = true -> free_of c (str_of_Z z) = true.
Proof.
  intros Hc. cbn [free_of] in Hc. apply andb_prop in Hc. destruct Hc as [Hm Hd].
  assert (Hu : forall d, free_of c (NilZero.string_of_uint d) = true).
  { intros d. pose proof (free_of_uint c d Hd) as H.
    destruct d; try exact H. unfold NilZero.string_of_uint. cbn [free_of] in Hd |- *.
    apply andb_prop in Hd. destruct Hd as [H0 _]. rewrite H0. reflexivity. }
  unfold str_of_Z, NilZero.string_of_int.
  destruct (Z.to_int z) as [d | d].
  - apply Hu.
  - cbn [free_of]. rewrite Hu, Hm. reflexivity.
Qed.

Arguments tile_key : simpl never.

Lemma tile_key_parts (z x y : Z) :
  tile_key z x y
  = ("raster" ++ String "/" (str_of_Z z ++ String "/" (str_of_Z x
       ++ String "/" (str_of_Z y ++ ".png")))).
Proof. reflexivity. Qed.

Lemma string_app_assoc (a b c : string) : (a ++ b) ++ c = a ++ (b ++ c).
Proof.
  induction a as [| d rest IH]; cbn; [reflexivity | now rewrite IH].
Qed.

Lemma tile_key_ext (z x y : Z) :
  tile_key z x y
  = ("raster/" ++ str_of_Z z ++ "/" ++ str_of_Z x ++ "/" ++ str_of_Z y)
      ++ String "." "png".
Proof.
  unfold tile_key, DESTINATION_PREFIX.
  rewrite !string_app_assoc. reflexivity.
Qed.

Lemma ends_with_self (s : string) : ends_with s s = true.
Proof.
  unfold ends_with. rewrite Nat.leb_refl, Nat.sub_diag. cbn [andb].
  apply String.eqb_eq.
  induction s as [| c rest IH]; cbn; [reflexivity | now rewrite IH].
Qed.

Lemma scraper_key_split (z x y : Z) :
  split_on "/" (tile_key z x y) = ["raster"; str_of_Z z; str_of_Z x; str_of_Z y ++ ".png"].
Proof.
  rewrite tile_key_parts.
  rewrite split_on_app by reflexivity.
  rewrite split_on_app by (apply free_of_str_of_Z; reflexivity).
  rewrite split_on_app by (apply free_of_str_of_Z; reflexivity).
  rewrite split_on_free; [reflexivity | ].
  rewrite free_of_app, free_of_str_of_Z by reflexivity. reflexivity.
Qed.

Lemma scraper_key_ext (z x y : Z) : last (split_on "." (tile_key z x y)) "" = "png".
Proof.
  rewrite tile_key_ext. apply split_on_app_last. reflexivity.
Qed.

(** X27: the viewer recognises the keys the scraper writes.  For every
    tile, [infer_tile_url] applied to the key under which [upload_tile]
    stores it gives the template [https://bucket.s3.region.amazonaws.com/raster/{z}/{x}/{y}.png],
    whatever the prefix is. *)
Theorem viewer_infers_scraper_layout (bucket region prefix : string) (z x y : Z) :
  infer_tile_url bucket region prefix (tile_key z x y)
  = ("https://" ++ bucket ++ ".s3." ++ region ++ ".amazonaws.com")
      ++ "/raster/{z}/{x}/{y}.png".
Proof.
  unfold infer_tile_url.
  rewrite scraper_key_split, scraper_key_ext.
  cbn [List.length Nat.leb Nat.sub firstn last app].
  rewrite (ends_with_app "}" (str_of_Z y) ".png") by (cbn; lia).
  f_equal.
Qed.

Lemma split_on_concat (sep : ascii) (parts : list string) :
  parts <> [] ->
  Forall (fun p => free_of sep p = true) parts ->
  split_on sep (String.concat (String sep "") parts) = parts.
Proof.
  induction parts as [| p rest IH]; [contradiction | ].
  intros _ Hall. inversion Hall as [| ? ? Hp Hrest]; subst.
  destruct rest as [| q rest'].
  - cbn [String.concat]. now apply split_on_free.
  - change (String.concat (String sep "") (p :: q :: rest'))
      with (p ++ String sep (String.concat (String sep "") (q :: rest'))).
    rewrite split_on_app by assumption.
    rewrite IH; [reflexivity | discriminate | assumption].
Qed.

Lemma concat_last_app (sep : string) (l : list string) (p q : string) :
  String.concat sep (l ++ [p ++ q]) = String.concat sep (l ++ [p]) ++ q.
Proof.
  induction l as [| a rest IH]; [reflexivity | ].
  destruct rest as [| b rest'].
  - cbn [app String.concat]. now rewrite !string_app_assoc.
  - change (String.concat sep ((a :: b :: rest') ++ [p ++ q]))
      with (a ++ sep ++ String.concat sep ((b :: rest') ++ [p ++ q])).
    rewrite IH.
    change (String.concat sep ((a :: b :: rest') ++ [p]))
      with (a ++ sep ++ String.concat sep ((b :: rest') ++ [p])).
    now rewrite !string_app_assoc.
Qed.

(** X28: on a key of the standard layout, directories, then [z], [x]
    and [name.ext], where no part holds a slash and [ext] holds no dot and
    does not end in a closing brace, [infer_tile_url] keeps the
    directories and the extension and puts [{z}], [{x}] and [{y}] in place
    of the last three parts; the prefix is not used. *)
Theorem infer_tile_url_standard_layout
  (bucket region prefix : string) (dirs : list string) (z x name ext : string) :
  Forall (fun p => free_of "/" p = true) dirs ->
  free_of "/" z = true -> free_of "/" x = true ->
  free_of "/" name = true -> free_of "/" ext = true ->
  free_of "." ext = true ->
  ends_with "}" (String "." ext) = false ->
  infer_tile_url bucket region prefix
    (String.concat "/" (dirs ++ [z; x; (name ++ String "." ext)%string]))
  = ("https://" ++ bucket ++ ".s3." ++ region ++ ".amazonaws.com") ++ "/"
      ++ String.concat "/" (dirs ++ ["{z}"; "{x}"; "{y}." ++ ext]).
Proof.
  intros Hdirs Hz Hx Hname Hext Hdot Hbrace.
  set (key := String.concat "/" (dirs ++ [z; x; (name ++ String "." ext)%string])).
  assert (Hsplit : split_on "/" key = (dirs ++ [z; x; (name ++ String "." ext)%string])%list).
  { apply split_on_concat.
    - destruct dirs; discriminate.
    - apply Forall_app. split; [assumption | ].
      repeat constructor; try assumption.
      rewrite free_of_app, Hname. cbn [free_of andb]. now rewrite Hext. }
  assert (Hlast : last (split_on "." key) "" = ext).
  { unfold key.
    replace (dirs ++ [z; x; (name ++ String "." ext)%string])%list
      with ((dirs ++ [z; x]) ++ [(name ++ String "." ext)%string])%list
      by (rewrite <- app_assoc; reflexivity).
    rewrite concat_last_app. now apply split_on_app_last. }
  unfold infer_tile_url. fold key. rewrite Hsplit, Hlast.
  assert (Hlen : (3 <=? List.length (dirs ++ [z; x; (name ++ String "." ext)%string]))%nat = true).
  { apply Nat.leb_le. rewrite length_app. cbn. lia. }
  rewrite Hlen.
  replace (List.length (dirs ++ [z; x; (name ++ String "." ext)%string]) - 3)%nat
    with (List.length dirs + 0)%nat by (rewrite length_app; cbn; lia).
  rewrite firstn_app_2. cbn [firstn]. rewrite app_nil_r.
  replace (last (dirs ++ [z; x; (name ++ String "." ext)%string]) "")
    with (name ++ String "." ext)%string.
  2:{ replace (dirs ++ [z; x; (name ++ String "." ext)%string])%list
        with ((dirs ++ [z; x]) ++ [(name ++ String "." ext)%string])%list
        by (rewrite <- app_assoc; reflexivity).
      now rewrite last_last. }
  rewrite (ends_with_app "}" name (String "." ext)) by (cbn; lia).
  rewrite Hbrace. cbn [negb].
  rewrite (ends_with_app ext "{y}." ext) by lia.
  rewrite ends_with_self. cbn [negb]. reflexivity.
Qed.

Lemma infer_tile_url_standard_layout_witness :
  infer_tile_url "b" "eu-west-1" "maps/"
    (String.concat "/" (["maps"; "layer1"] ++ ["5"; "10"; "20" ++ String "." "png"]))
  = ("https://" ++ "b" ++ ".s3." ++ "eu-west-1" ++ ".amazonaws.com") ++ "/"
      ++ String.concat "/" (["maps"; "layer1"] ++ ["{z}"; "{x}"; "{y}." ++ "png"]).
Proof.
  apply (infer_tile_url_standard_layout "b" "eu-west-1" "maps/" ["maps"; "layer1"]
           "5" "10" "20" "png"); try reflexivity.
  repeat constructor.
Defined.

Lemma add_objects_totals (sizes : list Z) (total_size total_count : Z) :
  add_objects sizes total_size total_count
  = ((total_size + sum_sizes sizes)%Z, (total_count + Z.of_nat (List.length sizes))%Z).
Proof.
  revert total_size total_count.
  induction sizes as [| size rest IH]; intros total_size total_count.
  - cbn. f_equal; lia.
  - cbn [add_objects]. rewrite IH. cbn [sum_sizes fold_right List.length].
    fold (sum_sizes rest). f_equal; lia.
Qed.

Lemma sum_sizes_app (a b : list Z) : sum_sizes (a ++ b) = (sum_sizes a + sum_sizes b)%Z.
Proof.
  induction a as [| x rest IH]; cbn; [reflexivity | ].
  fold (sum_sizes (rest ++ b)). fold (sum_sizes rest). lia.
Qed.

Lemma stats_loop_pages (pages : list page) (tail : list (page + exn))
  (total_size total_count : Z) :
  stats_loop (map inl pages ++ tail) total_size total_count
  = stats_loop tail (total_size + sum_sizes (listed pages))%Z
      (total_count + Z.of_nat (List.length (listed pages)))%Z.
Proof.
  revert total_size total_count.
  induction pages as [| [sizes |] rest IH]; intros total_size total_count.
  - cbn. f_equal; lia.
  - cbn [map app stats_loop]. rewrite add_objects_totals, IH.
    unfold listed. cbn [flat_map page_sizes]. fold (listed rest).
    rewrite sum_sizes_app, length_app. f_equal; lia.
  - cbn [map app stats_loop]. rewrite IH. reflexivity.
Qed.

(** X29: when no page of the listing fails, [calculate_folder_stats]
    returns the sum of the sizes and the number of the objects of all
    pages, pages without ['Contents'] adding nothing, and shows no
    error. *)
Theorem folder_stats_totals (pages : list page) :
  calculate_folder_stats (map inl pages)
  = FolderStats (inl (sum_sizes (listed pages), Z.of_nat (List.length (listed pages)))) false.
Proof.
  unfold calculate_folder_stats.
  rewrite <- (app_nil_r (map inl pages)), stats_loop_pages. reflexivity.
Qed.

(** X30: a failure of the listing discards what was counted.  When
    fetching a page raises [ClientError], [calculate_folder_stats] shows
    the error and returns [(0, 0)], the same pair as for an empty folder,
    however many objects the earlier pages held; any other exception
    escapes.  Pages after the failure are never read. *)
Theorem folder_stats_failure_discards_totals
  (before : list page) (e : exn) (rest : list (page + exn)) :
  calculate_folder_stats (map inl before ++ inr e :: rest)
  = match e with
    | ClientError _ => FolderStats (inl (0, 0)%Z) true
    | _ => FolderStats (inr e) false
    end.
Proof.
  unfold calculate_folder_stats. rewrite stats_loop_pages.
  destruct e; reflexivity.
Qed.

End ViewerExtras.

(** ** The configured worker, scheduler and benchmark *)

Module ConfiguredExtras.


Import PyNum TileAddressing Planner Worker Observe Scenarios Tally MoreScenarios.
Import ConfiguredScenarios WorkerFacts WorkerExtras BenchmarkExtras ConfiguredFacts.
Local Open Scope Z_scope.

Arguments tile_key : simpl never.
Arguments tile_url : simpl never.

(** X17: whatever the pattern and the world, a job whose URL does not
    form raises the exception of [format] and does nothing else; every
    other job starts with one existence check of its own key and makes no
    other, calls the source at most three times, never writes more often
    than it fetched, and sleeps at most twice. *)
Theorem upload_tile_effect_bounds
  (B : string) (P : option string) (fmt : string -> Z -> Z -> Z -> option exn) (w : world)
  (z x y : Z) (pbar : bool) (s : pstate) :
  let r := Configured.upload_tile B P fmt w z x y pbar s in
  match Configured.format_url P fmt z x y with
  | inr e => r = (inr e, s)
  | inl _ =>
      exists evs,
        events_since s (snd r) = EvHeadObject B (tile_key z x y) :: evs /\
        existence_checks evs = 0%nat /\
        (source_calls evs <= 3)%nat /\
        (store_writes evs <= source_calls evs)%nat /\
        (sleeps evs <= 2)%nat
  end.
Proof.
  intros r. subst r.
  destruct (Configured.format_url P fmt z x y) as [u | e] eqn:Hfmt.
  - destruct (upload_tile_formed B P fmt w z x y pbar s u Hfmt) as [p [_ [_ ->]]].
    apply upload_tile_body_effects.
  - apply upload_tile_unformed. exact Hfmt.
Qed.

(** X18: whatever the pattern and the world, a job that returns has
    formed its URL, has added one to the counter of the outcome it returns
    and nothing to the three others, and returns "skipped" exactly when the
    existence check succeeded; a job that raises has left [stats] untouched
    and raises either what [format] raised or, the URL formed, what
    [head_object] raised, which is then not a [ClientError]. *)
Theorem upload_tile_outcome_cases
  (B : string) (P : option string) (fmt : string -> Z -> Z -> Z -> option exn) (w : world)
  (z x y : Z) (pbar : bool) (s : pstate) :
  let r := Configured.upload_tile B P fmt w z x y pbar s in
  match fst r with
  | inl o =>
      (forall k, counter k (stats (snd r))
                 = counter k (stats s) + (if outcome_eqb k o then 1 else 0)) /\
      (exists u, Configured.format_url P fmt z x y = inl u) /\
      (o = Skipped <-> head_object w (ticks s) B (tile_key z x y) = inl tt)
  | inr e =>
      stats (snd r) = stats s /\
      (Configured.format_url P fmt z x y = inr e \/
       (exists u, Configured.format_url P fmt z x y = inl u) /\
       head_object w (ticks s) B (tile_key z x y) = inr e /\
       forall code, e <> ClientError code)
  end.
Proof.
  intros r. subst r.
  destruct (Configured.format_url P fmt z x y) as [u | e] eqn:Hfmt.
  - destruct (upload_tile_formed B P fmt w z x y pbar s u Hfmt) as [p [_ [_ ->]]].
    pose proof (upload_tile_body_cases B p w z x y pbar s) as H. cbv zeta in H.
    destruct (fst (upload_tile B p w z x y pbar s)) as [o | e].
    + destruct H as [Hst Hsk]. repeat split.
      * intros k. rewrite Hst. apply counter_incr.
      * now exists u.
      * apply Hsk.
      * apply Hsk.
    + destruct H as [Hst [Hhead Hne]]. split; [exact Hst | ].
      right. split; [now exists u | split; assumption].
  - rewrite (upload_tile_unformed B P fmt w z x y pbar s e Hfmt).
    cbn [fst snd]. split; [reflexivity | now left].
Qed.

(** Every job of a run whose URLs form and whose existence checks only
    fail with a [ClientError] returns. *)
Lemma upload_tile_returns
  (B : string) (P : option string) (fmt : string -> Z -> Z -> Z -> option exn) (w : world)
  (z x y : Z) (pbar : bool) (s : pstate) (u : url) :
  Configured.format_url P fmt z x y = inl u ->
  (forall t key e, head_object w t B key = inr e -> exists code, e = ClientError code) ->
  exists o,
    fst (Configured.upload_tile B P fmt w z x y pbar s) = inl o /\
    stats_sum (stats (snd (Configured.upload_tile B P fmt w z x y pbar s)))
    = stats_sum (stats s) + 1.
Proof.
  intros Hfmt Hstore.
  destruct (upload_tile_formed B P fmt w z x y pbar s u Hfmt) as [p [_ [_ ->]]].
  pose proof (upload_tile_stats B p w z x y pbar s) as H. cbv zeta in H.
  destruct (fst (upload_tile B p w z x y pbar s)) as [o | e].
  - exists o. split; [reflexivity | ]. rewrite H. apply stats_sum_incr.
  - destruct H as [_ [Hhead Hne]].
    destruct (Hstore _ _ _ Hhead) as [code Hcode]. now destruct (Hne code).
Qed.

(** X20: when the URL of every submitted tile forms and the existence
    check only ever fails with a [ClientError], every job of a run returns
    and the sum of the four counters grows by the number of jobs
    submitted. *)
Theorem run_jobs_counts_every_job
  (B : string) (P : option string) (fmt : string -> Z -> Z -> Z -> option exn) (w : world)
  (pbar : bool) (jobs : list tile) (s : pstate) :
  Forall (fun '(z, x, y) => exists u, Configured.format_url P fmt z x y = inl u) jobs ->
  (forall t key e, head_object w t B key = inr e -> exists code, e = ClientError code) ->
  Forall (fun f => exists o, f = inl o) (fst (Configured.run_jobs B P fmt w pbar jobs s)) /\
  stats_sum (stats (snd (Configured.run_jobs B P fmt w pbar jobs s)))
  = stats_sum (stats s) + Z.of_nat (List.length jobs).
Proof.
  intros Hfmt Hstore. revert s.
  induction jobs as [| [[z x] y] rest IH]; intros s; cbn [Configured.run_jobs].
  - split; [constructor | cbn; lia].
  - inversion Hfmt as [| j l Hj Hrest]; subst. destruct Hj as [u Hu].
    unfold Configured.run_job.
    destruct (upload_tile_returns B P fmt w z x y pbar s u Hu Hstore) as [o [Ho Hsum1]].
    destruct (Configured.upload_tile B P fmt w z x y pbar s) as [f s1].
    destruct (IH Hrest s1) as [Hall Hsum].
    destruct (Configured.run_jobs B P fmt w pbar rest s1) as [fs s2].
    cbn [fst snd] in *. subst f. split.
    + constructor; [now exists o | exact Hall].
    + rewrite Hsum, Hsum1. cbn [List.length]. lia.
Qed.

Lemma run_jobs_counts_every_job_witness :
  let jobs := [(2, 3, 1); (2, 3, 2)] in
  let r := Configured.run_jobs bucket (Some pattern) format_returns world_serving true jobs
             pstate0 in
  Forall (fun f => exists o, f = inl o) (fst r) /\
  stats_sum (stats (snd r)) = stats_sum (stats pstate0) + Z.of_nat (List.length jobs).
Proof.
  apply (run_jobs_counts_every_job bucket (Some pattern) format_returns world_serving true
           [(2, 3, 1); (2, 3, 2)] pstate0).
  - repeat (constructor; [eexists; reflexivity | ]). constructor.
  - intros t key e He. cbn in He. inversion He. now exists "404"%string.
Defined.

(** With a pattern that forms the URL of every sample, the sample loop is
    the loop of [Worker]. *)
Lemma bench_loop_formed
  (B p : string) (fmt : string -> Z -> Z -> Z -> option exn) (w : world) (n : nat)
  (samples : list tile) (times : list R) (s : pstate) :
  Forall (fun '(z, x, y) => fmt p z x y = None) samples ->
  Configured.bench_loop B (Some p) fmt w n samples times s
  = bench_loop B p w n samples times s.
Proof.
  intros Hfmt. revert times s.
  induction samples as [| [[z x] y] rest IH]; intros times s; [reflexivity | ].
  inversion Hfmt as [| j l Hj Hrest]; subst.
  cbn [Configured.bench_loop bench_loop]. unfold Configured.format_url. rewrite Hj.
  change (url_pattern (tile_url p z x y)) with p.
  unfold bind. destruct (bench_try B p w z x y s) as [[[elapsed | e] | e] s1].
  - unfold emit. cbv beta iota zeta. apply IH. exact Hrest.
  - unfold emit. cbv beta iota zeta. apply IH. exact Hrest.
  - reflexivity.
Qed.

Lemma benchmark_speed_formed
  (B p : string) (fmt : string -> Z -> Z -> Z -> option exn) (w : world) (n : nat)
  (s : pstate) :
  Forall (fun '(z, x, y) => fmt p z x y = None) (bench_samples n) ->
  Configured.benchmark_speed B (Some p) fmt w n s = benchmark_speed B p w n s.
Proof.
  intros Hfmt. unfold Configured.benchmark_speed, benchmark_speed, bind.
  unfold emit. fold (bench_samples n).
  rewrite (bench_loop_formed B p fmt w n _ _ _ Hfmt). reflexivity.
Qed.

(** The sample loop stops at the first sample whose URL does not form. *)
Lemma bench_loop_unformed
  (B : string) (P : option string) (fmt : string -> Z -> Z -> Z -> option exn) (w : world)
  (n : nat) (z x y : Z) (rest : list tile) (times : list R) (s : pstate) (e : exn) :
  Configured.format_url P fmt z x y = inr e ->
  Configured.bench_loop B P fmt w n ((z, x, y) :: rest) times s = (inr e, s).
Proof.
  intros H. cbn [Configured.bench_loop]. rewrite H. reflexivity.
Qed.

(** What the sample loop does, whatever the pattern and the world: no
    existence check, no change of [stats], at most one call of the source
    per sample and no more writes than calls. *)
Lemma bench_loop_effects
  (B : string) (P : option string) (fmt : string -> Z -> Z -> Z -> option exn) (w : world)
  (n : nat) (samples : list tile) (times : list R) (s : pstate) :
  exists evs,
    trace (snd (Configured.bench_loop B P fmt w n samples times s)) = trace s ++ evs /\
    stats (snd (Configured.bench_loop B P fmt w n samples times s)) = stats s /\
    (source_calls evs <= List.length samples)%nat /\
    (store_writes evs <= source_calls evs)%nat /\
    existence_checks evs = 0%nat.
Proof.
  revert times s. induction samples as [| [[z x] y] rest IH]; intros times s.
  - exists []. cbn. rewrite app_nil_r. repeat split; lia.
  - cbn [Configured.bench_loop].
    destruct (Configured.format_url P fmt z x y) as [u | e].
    + unfold bind.
      destruct (bench_try_events B (url_pattern u) w z x y s)
        as [e1 [Ht1 [Hs1 [Hg1 [Hp1 Hh1]]]]].
      destruct (bench_try_returns B (url_pattern u) w z x y s) as [v [s1 Htry]].
      rewrite Htry in *. cbn [snd] in Ht1, Hs1.
      destruct v as [elapsed | e]; unfold emit; cbv beta iota zeta;
        match goal with
        | |- context [Configured.bench_loop B P fmt w n rest ?tm ?s2] =>
            destruct (IH tm s2) as [e2 [Ht2 [Hs2 [Hg2 [Hp2 Hh2]]]]]
        end;
        cbn [trace stats] in Ht2, Hs2;
        match type of Ht2 with
        | _ = (_ ++ [?pr]) ++ _ => exists (e1 ++ [pr] ++ e2)
        end;
        rewrite Ht2, Hs2, Ht1, Hs1, <- !app_assoc;
        rewrite !source_calls_app, !store_writes_app, !existence_checks_app;
        cbn [List.length]; cbn; repeat split; lia.
    + exists []. unfold raise. cbn. rewrite app_nil_r. repeat split; lia.
Qed.

Lemma benchmark_speed_state
  (B : string) (P : option string) (fmt : string -> Z -> Z -> Z -> option exn) (w : world)
  (n : nat) (s : pstate) :
  exists evs,
    trace (snd (Configured.benchmark_speed B P fmt w n s))
    = trace s ++ EvPrint (MsgBenchmarking n) :: evs /\
    stats (snd (Configured.benchmark_speed B P fmt w n s)) = stats s /\
    (source_calls evs <= List.length (bench_samples n))%nat /\
    (store_writes evs <= source_calls evs)%nat /\
    existence_checks evs = 0%nat.
Proof.
  unfold Configured.benchmark_speed, bind, emit. fold (bench_samples n).
  match goal with
  | |- context [Configured.bench_loop B P fmt w n ?l [] ?s1] =>
      destruct (bench_loop_effects B P fmt w n l [] s1) as [evs [Ht [Hs [Hg [Hp Hh]]]]];
      destruct (Configured.bench_loop B P fmt w n l [] s1) as [[times | e] [st tr tk]]
  end;
    cbn [snd trace stats] in Ht, Hs; subst st tr; exists evs;
    try (destruct times as [| t ts]); unfold ret; cbn [snd stats trace];
    rewrite <- app_assoc; repeat split; assumption.
Qed.

(** X22: when the pattern forms the URL of every sample, the benchmark
    returns, leaves [stats] as it is, never checks whether a key exists,
    calls the source once per sample, nine times for the ten asked by
    [main], and writes to the store at most once per sample. *)
Theorem benchmark_speed_effects
  (B p : string) (fmt : string -> Z -> Z -> Z -> option exn) (w : world)
  (n : nat) (s : pstate) :
  Forall (fun '(z, x, y) => fmt p z x y = None) (bench_samples n) ->
  let r := Configured.benchmark_speed B (Some p) fmt w n s in
  (exists avg, fst r = inl avg) /\
  stats (snd r) = stats s /\
  source_calls (events_since s (snd r)) = Nat.min n 9 /\
  (store_writes (events_since s (snd r)) <= Nat.min n 9)%nat /\
  existence_checks (events_since s (snd r)) = 0%nat.
Proof.
  intros Hfmt r. subst r.
  destruct (bench_samples_length n) as [Hlen _].
  rewrite (benchmark_speed_formed B p fmt w n s Hfmt).
  destruct (benchmark_speed_events B p w n s) as [evs [Ht [Hst [Hg [Hp Hh]]]]].
  rewrite Hlen in *. split; [ | split; [exact Hst | ]].
  - rewrite benchmark_speed_history. eexists. reflexivity.
  - unfold events_since. rewrite Ht, skipn_app, skipn_all, Nat.sub_diag.
    cbn [skipn app]. cbn. repeat split; try assumption; lia.
Qed.

Lemma benchmark_speed_effects_witness :
  let r := Configured.benchmark_speed bucket (Some pattern) format_returns world_serving 10
             pstate0 in
  (exists avg, fst r = inl avg) /\
  stats (snd r) = stats pstate0 /\
  source_calls (events_since pstate0 (snd r)) = Nat.min 10 9 /\
  (store_writes (events_since pstate0 (snd r)) <= Nat.min 10 9)%nat /\
  existence_checks (events_since pstate0 (snd r)) = 0%nat.
Proof.
  apply (benchmark_speed_effects bucket pattern format_returns world_serving 10 pstate0).
  apply Forall_forall. intros [[z x] y] _. reflexivity.
Defined.

End ConfiguredExtras.

(** ** [main] *)

Module MainExtras.


Import PyNum TileAddressing Planner Worker Observe Scenarios Tally MoreScenarios.
Import ConfiguredScenarios WorkerFacts PlannerFacts WorkerExtras BenchmarkExtras.
Import ConfiguredFacts ConfiguredExtras MainProgram.
Local Open Scope Z_scope.

Arguments tile_key : simpl never.
Arguments tile_url : simpl never.

Lemma core_of_app (a b : list main_event) : core_of (a ++ b) = core_of a ++ core_of b.
Proof. unfold core_of. apply flat_map_app. Qed.

Lemma core_of_core_events (s s' : pstate) : core_of (core_events s s') = events_since s s'.
Proof.
  unfold core_of, core_events. induction (events_since s s') as [| e l IH]; cbn.
  - reflexivity.
  - now rewrite IH.
Qed.

Lemma core_of_lines (ds : list detail) : core_of (map (fun d => Console (LineZoom d)) ds) = [].
Proof. induction ds as [| d ds IH]; cbn; [reflexivity | exact IH]. Qed.

(** The benchmark step of [main], whatever the configuration and the
    world: [stats] stays, no key is checked, at most nine calls of the
    source and no more writes than calls. *)
Lemma main_benchmark_state
  (B : string) (P : option string) (fmt : string -> Z -> Z -> Z -> option exn) (W : Z)
  (w : world) (total_tiles : Z) (s : pstate) :
  exists r evs t,
    Configured.main_benchmark B P fmt W w total_tiles s
    = (r, PState (stats s) (trace s ++ evs) t) /\
    (source_calls evs <= 9)%nat /\
    (store_writes evs <= source_calls evs)%nat /\
    existence_checks evs = 0%nat.
Proof.
  destruct (benchmark_speed_state B P fmt w 10 s) as [evs [Ht [Hs [Hg [Hp Hh]]]]].
  destruct (bench_samples_length 10) as [Hlen _]. rewrite Hlen in Hg. cbn in Hg.
  unfold Configured.main_benchmark, bind.
  destruct (Configured.benchmark_speed B P fmt w 10 s) as [[avg | e] [st tr tk]];
    cbn [snd trace stats] in Ht, Hs; subst st tr.
  - assert (Hprint : forall m,
      exists r evs' t,
        emit (EvPrint m) (PState (stats s) (trace s ++ EvPrint (MsgBenchmarking 10) :: evs) tk)
        = (r, PState (stats s) (trace s ++ evs') t) /\
        (source_calls evs' <= 9)%nat /\
        (store_writes evs' <= source_calls evs')%nat /\
        existence_checks evs' = 0%nat).
    { intros m. eexists _, ([EvPrint (MsgBenchmarking 10)] ++ evs ++ [EvPrint m]), _.
      unfold emit. cbn [stats trace ticks]. split.
      - rewrite <- !app_assoc. reflexivity.
      - rewrite !source_calls_app, !store_writes_app, !existence_checks_app.
        cbn. repeat split; lia. }
    destruct avg as [t | ]; [ | apply Hprint].
    destruct (Req_dec_T t 0); [apply Hprint | ].
    destruct (Configured.estimate_time total_tiles t W) as [est | e]; [apply Hprint | ].
    eexists _, ([EvPrint (MsgBenchmarking 10)] ++ evs), _. unfold raise. split.
    + reflexivity.
    + rewrite !source_calls_app, !store_writes_app, !existence_checks_app.
      cbn. repeat split; lia.
  - eexists _, ([EvPrint (MsgBenchmarking 10)] ++ evs), _. split.
    + reflexivity.
    + rewrite !source_calls_app, !store_writes_app, !existence_checks_app.
      cbn. repeat split; lia.
Qed.

Lemma bench_try_serving (B P : string) (w : world) (z x y : Z) (s : pstate) :
  serving w ->
  exists elapsed evs t,
    bench_try B P w z x y s = (inl (inl elapsed), PState (stats s) (trace s ++ evs) t) /\
    store_writes evs = 1%nat.
Proof.
  intros [Hget Hput]. unfold bench_try, bind, ask. cbv beta iota zeta. cbn [ticks].
  destruct (Hget (S (ticks s)) (tile_url P z x y)) as [body Hbody]. rewrite Hbody.
  cbn [status_code content Z.eqb Pos.eqb]. cbn [ticks trace stats]. rewrite Hput.
  unfold ret. cbn [ticks trace stats].
  eexists. eexists. eexists. split.
  - rewrite <- !app_assoc. reflexivity.
  - reflexivity.
Qed.

Lemma bench_loop_serving
  (B P : string) (w : world) (n : nat) (samples : list tile) (times : list R) (s : pstate) :
  serving w ->
  exists evs,
    trace (snd (bench_loop B P w n samples times s)) = trace s ++ evs /\
    store_writes evs = List.length samples.
Proof.
  intros Hw. revert times s. induction samples as [| [[z x] y] rest IH]; intros times s.
  - exists []. cbn. now rewrite app_nil_r.
  - cbn [bench_loop]. unfold bind.
    destruct (bench_try_serving B P w z x y s Hw) as [elapsed [e1 [t [Htry Hp1]]]].
    rewrite Htry. unfold emit. cbv beta iota. cbn [stats trace ticks].
    match goal with
    | |- context [bench_loop B P w n rest ?tm ?s2] =>
        destruct (IH tm s2) as [e2 [Ht2 Hp2]]
    end.
    cbn [trace] in Ht2.
    match type of Ht2 with
    | _ = (_ ++ [?pr]) ++ _ => exists (e1 ++ [pr] ++ e2)
    end.
    rewrite Ht2, <- !app_assoc, !store_writes_app, Hp1, Hp2. cbn. split; reflexivity.
Qed.

(** The benchmark of [Worker] as a state: it returns, with one call of the
    source per sample, and one write per sample when source and store
    serve. *)
Lemma benchmark_speed_result (B p : string) (w : world) (n : nat) (s : pstate) :
  exists avg evs t,
    benchmark_speed B p w n s
    = (inl avg, PState (stats s) (trace s ++ EvPrint (MsgBenchmarking n) :: evs) t) /\
    source_calls evs = List.length (bench_samples n) /\
    (store_writes evs <= List.length (bench_samples n))%nat /\
    existence_checks evs = 0%nat /\
    (serving w -> store_writes evs = List.length (bench_samples n)).
Proof.
  destruct (benchmark_speed_events B p w n s) as [evs [Ht [Hs [Hg [Hp Hh]]]]].
  pose proof (benchmark_speed_history B p w n s) as Hres.
  assert (Hserv : serving w -> store_writes evs = List.length (bench_samples n)).
  { intros Hw.
    destruct (bench_loop_serving B p w n (bench_samples n) [] (bench_start n s) Hw)
      as [evs' [Ht' Hp']].
    assert (Htr : trace (snd (benchmark_speed B p w n s))
                  = trace (snd (bench_loop B p w n (bench_samples n) [] (bench_start n s)))).
    { unfold benchmark_speed, bind, bench_start. unfold emit.
      fold (bench_samples n). cbn [snd].
      destruct (bench_loop B p w n (bench_samples n) []
                  (PState (stats s) (trace s ++ [EvPrint (MsgBenchmarking n)]) (ticks s)))
        as [[times | e] s2]; [destruct times | ]; reflexivity. }
    rewrite Htr, Ht' in Ht. unfold bench_start, emit in Ht. cbn [snd trace] in Ht.
    rewrite <- app_assoc in Ht. apply app_inv_head in Ht. inversion Ht; subst evs'.
    exact Hp'. }
  destruct (benchmark_speed B p w n s) as [r [st tr tk]].
  cbn [fst snd trace stats] in *. subst r st tr.
  eexists _, evs, tk. repeat split; assumption.
Qed.

(** The benchmark step of [main] when the URLs of the samples form and
    the number of workers is not [0]. *)
Lemma main_benchmark_formed
  (B p : string) (fmt : string -> Z -> Z -> Z -> option exn) (W : Z)
  (w : world) (total_tiles : Z) (s : pstate) :
  Forall (fun '(z, x, y) => fmt p z x y = None) (bench_samples 10) ->
  W <> 0 ->
  exists evs t,
    Configured.main_benchmark B (Some p) fmt W w total_tiles s
    = (inl tt, PState (stats s) (trace s ++ evs) t) /\
    source_calls evs = 9%nat /\
    (store_writes evs <= 9)%nat /\
    existence_checks evs = 0%nat /\
    (serving w -> store_writes evs = 9%nat).
Proof.
  intros Hfmt HW.
  unfold Configured.main_benchmark, bind.
  rewrite (benchmark_speed_formed B p fmt w 10 s Hfmt).
  destruct (benchmark_speed_result B p w 10 s) as [avg [evs [t [Hb [Hg [Hp [Hh Hserv]]]]]]].
  destruct (bench_samples_length 10) as [Hlen _]. rewrite Hlen in *. cbn in Hg, Hp, Hserv.
  rewrite Hb.
  assert (Hprint : forall m,
    exists evs' t',
      emit (EvPrint m) (PState (stats s) (trace s ++ EvPrint (MsgBenchmarking 10) :: evs) t)
      = (inl tt, PState (stats s) (trace s ++ evs') t') /\
      source_calls evs' = 9%nat /\
      (store_writes evs' <= 9)%nat /\
      existence_checks evs' = 0%nat /\
      (serving w -> store_writes evs' = 9%nat)).
  { intros m. exists ([EvPrint (MsgBenchmarking 10)] ++ evs ++ [EvPrint m]), t.
    unfold emit. cbn [stats trace ticks]. split.
    - rewrite <- !app_assoc. reflexivity.
    - rewrite !source_calls_app, !store_writes_app, !existence_checks_app.
      cbn. repeat split; try lia. intros Hw. rewrite (Hserv Hw). reflexivity. }
  destruct avg as [a | ]; [ | apply Hprint].
  destruct (Req_dec_T a 0); [apply Hprint | ].
  unfold Configured.estimate_time. apply Z.eqb_neq in HW. rewrite HW. apply Hprint.
Qed.

(** A job of the configured program: the update of its outcome when it
    returns, nothing when it raises. *)
Lemma configured_upload_tile_stats
  (B : string) (P : option string) (fmt : string -> Z -> Z -> Z -> option exn) (w : world)
  (z x y : Z) (pbar : bool) (s : pstate) :
  let r := Configured.upload_tile B P fmt w z x y pbar s in
  match fst r with
  | inl o => stats (snd r) = incr o (stats s)
  | inr _ => stats (snd r) = stats s
  end.
Proof.
  intros r. subst r.
  destruct (Configured.format_url P fmt z x y) as [u | e] eqn:Hfmt.
  - destruct (upload_tile_formed B P fmt w z x y pbar s u Hfmt) as [p [_ [_ ->]]].
    pose proof (upload_tile_stats B p w z x y pbar s) as H. cbv zeta in H.
    destruct (fst (upload_tile B p w z x y pbar s)); [exact H | apply H].
  - rewrite (upload_tile_unformed B P fmt w z x y pbar s e Hfmt). reflexivity.
Qed.

Lemma configured_run_jobs_length
  (B : string) (P : option string) (fmt : string -> Z -> Z -> Z -> option exn) (w : world)
  (pbar : bool) (jobs : list tile) (s : pstate) :
  List.length (fst (Configured.run_jobs B P fmt w pbar jobs s)) = List.length jobs.
Proof.
  revert s. induction jobs as [| [[z x] y] rest IH]; intros s; cbn [Configured.run_jobs].
  - reflexivity.
  - unfold Configured.run_job.
    destruct (Configured.upload_tile B P fmt w z x y pbar s) as [f s1].
    specialize (IH s1). destruct (Configured.run_jobs B P fmt w pbar rest s1) as [fs s2].
    cbn [fst List.length] in *. now rewrite IH.
Qed.

Lemma configured_run_jobs_stats_sum
  (B : string) (P : option string) (fmt : string -> Z -> Z -> Z -> option exn) (w : world)
  (pbar : bool) (jobs : list tile) (s : pstate) :
  stats_sum (stats (snd (Configured.run_jobs B P fmt w pbar jobs s)))
  = stats_sum (stats s)
    + Z.of_nat (returned (fst (Configured.run_jobs B P fmt w pbar jobs s))).
Proof.
  revert s. induction jobs as [| [[z x] y] rest IH]; intros s; cbn [Configured.run_jobs].
  - unfold returned. cbn. lia.
  - unfold Configured.run_job.
    pose proof (configured_upload_tile_stats B P fmt w z x y pbar s) as Hjob.
    cbv zeta in Hjob.
    destruct (Configured.upload_tile B P fmt w z x y pbar s) as [f s1].
    specialize (IH s1). destruct (Configured.run_jobs B P fmt w pbar rest s1) as [fs s2].
    cbn [fst snd] in *. rewrite IH. unfold returned. cbn [filter].
    destruct f as [o | e].
    + rewrite Hjob, stats_sum_incr. cbn [List.length]. lia.
    + rewrite Hjob. lia.
Qed.

Lemma starting_not_in_core (s s' : pstate) : ~ In (Console LineStarting) (core_events s s').
Proof.
  unfold core_events. intros H. apply in_map_iff in H. destruct H as [e [He _]]. discriminate.
Qed.

Lemma starting_not_in_plan (ds : list detail) :
  ~ In (Console LineStarting) (map (fun d => Console (LineZoom d)) ds).
Proof.
  intros H. apply in_map_iff in H. destruct H as [d [Hd _]]. discriminate.
Qed.

Lemma prompt_not_in_core (a : string + exn) (s s' : pstate) : ~ In (Prompt a) (core_events s s').
Proof.
  unfold core_events. intros H. apply in_map_iff in H. destruct H as [e [He _]]. discriminate.
Qed.

Lemma prompt_not_in_plan (a : string + exn) (ds : list detail) :
  ~ In (Prompt a) (map (fun d => Console (LineZoom d)) ds).
Proof.
  intros H. apply in_map_iff in H. destruct H as [d [Hd _]]. discriminate.
Qed.

(** X24: [main] starts no job without credentials and consent.  When
    [AWS_ACCESS_KEY_ID] or [AWS_S3_BUCKET] is unset or empty, or when the
    confirmation step does not say proceed (the prompt is shown and [input]
    raises, or the answer, stripped and lowered, is neither [yes] nor [y]),
    then, however the run ends, no future is submitted, the counters are
    as they were, no existence check is made and the line
    [Starting scrape...] is never printed. *)
Theorem main_needs_credentials_and_consent
  (strip_lower : string -> string) (KEY BUCKET P : option string)
  (fmt : string -> Z -> Z -> Z -> option exn)
  (MIN MAX W : Z) (NO_CONFIRM : bool) (w : world) (typed : string + exn) (s : pstate) :
  is_set KEY && is_set BUCKET = false \/
  confirmation strip_lower NO_CONFIRM typed <> Proceed ->
  let r := main strip_lower KEY BUCKET P fmt MIN MAX W NO_CONFIRM w typed s in
  futures r = [] /\
  stats (final r) = stats s /\
  existence_checks (core_of (out r)) = 0%nat /\
  ~ In (Console LineStarting) (out r).
Proof.
  intros Hgate r. subst r. unfold main.
  destruct (is_set KEY) eqn:Hk;
    [ | cbn; repeat split; auto; intros [H | []]; discriminate].
  destruct (is_set BUCKET) eqn:Hb;
    [ | cbn; repeat split; auto; intros [H | []]; discriminate].
  destruct Hgate as [Hgate | Hgate]; [discriminate | ].
  cbn [negb orb].
  destruct (calculate_tile_count MIN MAX BOUNDING_BOX) as [total_tiles details].
  destruct (estimate_size total_tiles 15) as [est_mb est_gb].
  match goal with
  | |- context [Configured.main_benchmark ?b P fmt W w total_tiles s] =>
      destruct (main_benchmark_state b P fmt W w total_tiles s)
        as [res [evs [t [Hmb [Hg [Hp Hh]]]]]];
      rewrite Hmb
  end.
  assert (Hcore : forall tail, core_of tail = [] ->
    existence_checks
      (core_of (([Console (LineHeader P match BUCKET with Some b => b | None => ""%string end
                             BOUNDING_BOX MIN MAX)]
                 ++ (map (fun d => Console (LineZoom d)) details
                       ++ [Console (LineTotals total_tiles est_mb est_gb)])
                 ++ core_events s (PState (stats s) (trace s ++ evs) t)) ++ tail)) = 0%nat).
  { intros tail Htail.
    rewrite !core_of_app, core_of_lines, core_of_core_events, events_since_app, Htail.
    cbn. rewrite app_nil_r. exact Hh. }
  assert (Hstart : forall tail, ~ In (Console LineStarting) tail ->
    ~ In (Console LineStarting)
      (([Console (LineHeader P match BUCKET with Some b => b | None => ""%string end
                    BOUNDING_BOX MIN MAX)]
        ++ (map (fun d => Console (LineZoom d)) details
              ++ [Console (LineTotals total_tiles est_mb est_gb)])
        ++ core_events s (PState (stats s) (trace s ++ evs) t)) ++ tail)).
  { intros tail Htail Hin. rewrite !in_app_iff in Hin.
    repeat match goal with
           | H : _ \/ _ |- _ => destruct H
           | H : In _ (_ :: _) |- _ => destruct H
           | H : In _ [] |- _ => destruct H
           end;
      try discriminate; try contradiction.
    - eapply starting_not_in_plan; eassumption.
    - eapply starting_not_in_core; eassumption. }
  destruct res as [[] | e].
  - destruct (confirmation strip_lower NO_CONFIRM typed) eqn:Hc; [now destruct Hgate | | ];
      cbn [futures final out stats]; repeat split.
    + apply Hcore. destruct NO_CONFIRM; reflexivity.
    + apply Hstart. destruct NO_CONFIRM; cbn; intuition discriminate.
    + apply Hcore. destruct NO_CONFIRM; reflexivity.
    + apply Hstart. destruct NO_CONFIRM; cbn; intuition discriminate.
  - cbn [futures final out stats]. repeat split.
    + rewrite <- (app_nil_r (_ ++ _ ++ _)). apply Hcore. reflexivity.
    + rewrite <- (app_nil_r (_ ++ _ ++ _)). apply Hstart. intros [].
Qed.

Lemma main_needs_credentials_and_consent_witness :
  let r := main ascii_strip_lower (Some "AKIAEXAMPLE"%string) (Some bucket) (Some pattern)
             format_returns 2 16 20 false world_serving (inl " No "%string) pstate0 in
  futures r = [] /\
  stats (final r) = stats pstate0 /\
  existence_checks (core_of (out r)) = 0%nat /\
  ~ In (Console LineStarting) (out r).
Proof.
  apply (main_needs_credentials_and_consent ascii_strip_lower (Some "AKIAEXAMPLE"%string)
           (Some bucket) (Some pattern) format_returns 2 16 20 false world_serving
           (inl " No "%string) pstate0).
  right. vm_compute. discriminate.
Defined.

(** X25: declining the prompt does not keep the bucket untouched.  With
    credentials set, zoom levels up to [ZOOM_LIMIT], a pattern that forms
    the URL of every sample, a number of workers other than [0], a source
    that serves every tile and a bucket that takes every write, a run whose
    prompt is declined returns after [Aborted by user.] with no job
    submitted and no counter moved, but has by then fetched nine sample
    tiles and written all nine to the bucket: the benchmark runs before the
    prompt. *)
Theorem declined_run_has_written_samples
  (strip_lower : string -> string) (KEY BUCKET : option string) (p : string)
  (fmt : string -> Z -> Z -> Z -> option exn)
  (MIN MAX W : Z) (w : world) (line : string) (s : pstate) :
  is_set KEY = true -> is_set BUCKET = true ->
  MAX <= ZOOM_LIMIT ->
  Forall (fun '(z, x, y) => fmt p z x y = None) (bench_samples 10) ->
  W <> 0 ->
  confirmation strip_lower false (inl line) = Decline ->
  serving w ->
  let r := main strip_lower KEY BUCKET (Some p) fmt MIN MAX W false w (inl line) s in
  result r = inl tt /\
  (exists evs, out r = evs ++ [Prompt (inl line); Console LineAborted]) /\
  futures r = [] /\
  stats (final r) = stats s /\
  source_calls (core_of (out r)) = 9%nat /\
  store_writes (core_of (out r)) = 9%nat.
Proof.
  intros Hk Hb _ Hfmt HW Hd Hw r. subst r. unfold main. rewrite Hk, Hb, Hd.
  cbn [negb orb].
  destruct (calculate_tile_count MIN MAX BOUNDING_BOX) as [total_tiles details].
  destruct (estimate_size total_tiles 15) as [est_mb est_gb].
  match goal with
  | |- context [Configured.main_benchmark ?b (Some p) fmt W w total_tiles s] =>
      destruct (main_benchmark_formed b p fmt W w total_tiles s Hfmt HW)
        as [evs [t [Hmb [Hg [Hp [Hh Hserv]]]]]];
      rewrite Hmb
  end.
  cbn [futures result final out stats].
  split; [reflexivity | split; [ | split; [reflexivity | split; [reflexivity | ]]]].
  - eexists. reflexivity.
  - rewrite !core_of_app, core_of_lines, core_of_core_events, events_since_app.
    cbn [core_of flat_map app]. rewrite app_nil_r.
    split; [exact Hg | exact (Hserv Hw)].
Qed.

Lemma declined_run_has_written_samples_witness :
  let r := main ascii_strip_lower (Some "AKIAEXAMPLE"%string) (Some bucket) (Some pattern)
             format_returns 2 16 20 false world_serving (inl " No "%string) pstate0 in
  result r = inl tt /\
  (exists evs, out r = evs ++ [Prompt (inl " No "%string); Console LineAborted]) /\
  futures r = [] /\
  stats (final r) = stats pstate0 /\
  source_calls (core_of (out r)) = 9%nat /\
  store_writes (core_of (out r)) = 9%nat.
Proof.
  apply (declined_run_has_written_samples ascii_strip_lower (Some "AKIAEXAMPLE"%string)
           (Some bucket) pattern format_returns 2 16 20 world_serving " No "%string pstate0).
  - reflexivity.
  - reflexivity.
  - vm_compute. discriminate.
  - apply Forall_forall. intros [[z x] y] _. reflexivity.
  - lia.
  - reflexivity.
  - split.
    + intros t u. exists png. reflexivity.
    + intros t b k body. reflexivity.
Defined.

(** X26: a run that goes ahead submits exactly the planned tiles.  With
    credentials set, zoom levels up to [ZOOM_LIMIT], a pattern that forms
    the URL of every sample, at least one worker, and the prompt skipped or
    accepted, [main] collects as many futures as the total
    [calculate_tile_count] announced, returns normally whatever the jobs
    did, prints the summary with the final counters last, and the four
    counters together have grown by the number of jobs that returned (a job
    that raised is counted nowhere). *)
Theorem confirmed_run_submits_the_plan
  (strip_lower : string -> string) (KEY BUCKET : option string) (p : string)
  (fmt : string -> Z -> Z -> Z -> option exn)
  (MIN MAX W : Z) (NO_CONFIRM : bool) (w : world) (typed : string + exn) (s : pstate) :
  is_set KEY = true -> is_set BUCKET = true ->
  MAX <= ZOOM_LIMIT ->
  Forall (fun '(z, x, y) => fmt p z x y = None) (bench_samples 10) ->
  0 < W ->
  confirmation strip_lower NO_CONFIRM typed = Proceed ->
  let r := main strip_lower KEY BUCKET (Some p) fmt MIN MAX W NO_CONFIRM w typed s in
  Z.of_nat (List.length (futures r)) = fst (calculate_tile_count MIN MAX BOUNDING_BOX) /\
  result r = inl tt /\
  (exists elapsed evs, out r = evs ++ [Console (LineSummary elapsed (stats (final r)))]) /\
  stats_sum (stats (final r)) = stats_sum (stats s) + Z.of_nat (returned (futures r)).
Proof.
  intros Hk Hb _ Hfmt HW Hc r. subst r. unfold main. rewrite Hk, Hb, Hc.
  cbn [negb orb].
  assert (Htotal : fst (calculate_tile_count MIN MAX BOUNDING_BOX)
                   = Z.of_nat (List.length (main_jobs MIN MAX BOUNDING_BOX))).
  { unfold calculate_tile_count, main_jobs. rewrite count_loop_total, jobs_length. lia. }
  destruct (calculate_tile_count MIN MAX BOUNDING_BOX) as [total_tiles details].
  destruct (estimate_size total_tiles 15) as [est_mb est_gb].
  assert (HW0 : W <> 0) by lia.
  match goal with
  | |- context [Configured.main_benchmark ?b (Some p) fmt W w total_tiles s] =>
      destruct (main_benchmark_formed b p fmt W w total_tiles s Hfmt HW0)
        as [evs [t [Hmb [Hg [Hp [Hh Hserv]]]]]];
      rewrite Hmb
  end.
  assert (Hpos : (W <=? 0) = false) by (apply Z.leb_gt; lia). rewrite Hpos.
  unfold read_clock. cbv beta iota zeta. cbn [stats trace ticks].
  match goal with
  | |- context [Configured.run_jobs ?b ?pp fmt w ?pb ?jobs ?s2] =>
      pose proof (configured_run_jobs_length b pp fmt w pb jobs s2) as Hlen;
      pose proof (configured_run_jobs_stats_sum b pp fmt w pb jobs s2) as Hsum;
      destruct (Configured.run_jobs b pp fmt w pb jobs s2) as [fs s3]
  end.
  cbn [fst snd stats] in *. cbn [futures result final out stats].
  repeat split.
  - rewrite Hlen. symmetry. exact Htotal.
  - eexists. eexists. rewrite !app_assoc. reflexivity.
  - exact Hsum.
Qed.

Lemma confirmed_run_submits_the_plan_witness :
  let r := main ascii_strip_lower (Some "AKIAEXAMPLE"%string) (Some bucket) (Some pattern)
             format_returns 2 16 20 false world_serving (inl " Yes "%string) pstate0 in
  Z.of_nat (List.length (futures r)) = fst (calculate_tile_count 2 16 BOUNDING_BOX) /\
  result r = inl tt /\
  (exists elapsed evs, out r = evs ++ [Console (LineSummary elapsed (stats (final r)))]) /\
  stats_sum (stats (final r)) = stats_sum (stats pstate0) + Z.of_nat (returned (futures r)).
Proof.
  apply (confirmed_run_submits_the_plan ascii_strip_lower (Some "AKIAEXAMPLE"%string)
           (Some bucket) pattern format_returns 2 16 20 false world_serving
           (inl " Yes "%string) pstate0).
  - reflexivity.
  - reflexivity.
  - vm_compute. discriminate.
  - apply Forall_forall. intros [[z x] y] _. reflexivity.
  - lia.
  - reflexivity.
Defined.

(** X31: a pattern that does not format aborts the run in the benchmark.
    With credentials set and zoom levels up to [ZOOM_LIMIT], when
    [SOURCE_URL_PATTERN.format] raises for every tile (the variable is
    unset, or the pattern has a field that is not passed), [main] raises
    that exception: of the code it calls only the line that announces the
    benchmark has happened, no request was made, the prompt was never shown,
    no job was submitted and no counter moved. *)
Theorem unformattable_pattern_aborts_main
  (strip_lower : string -> string) (KEY BUCKET P : option string)
  (fmt : string -> Z -> Z -> Z -> option exn)
  (MIN MAX W : Z) (NO_CONFIRM : bool) (w : world) (typed : string + exn) (s : pstate)
  (e : exn) :
  is_set KEY = true -> is_set BUCKET = true ->
  MAX <= ZOOM_LIMIT ->
  (forall z x y, Configured.format_url P fmt z x y = inr e) ->
  let r := main strip_lower KEY BUCKET P fmt MIN MAX W NO_CONFIRM w typed s in
  result r = inr e /\
  futures r = [] /\
  stats (final r) = stats s /\
  core_of (out r) = [EvPrint (MsgBenchmarking 10)] /\
  (forall a, ~ In (Prompt a) (out r)) /\
  ~ In (Console LineStarting) (out r).
Proof.
  intros Hk Hb _ Hfmt r. subst r. unfold main. rewrite Hk, Hb.
  cbn [negb orb].
  destruct (calculate_tile_count MIN MAX BOUNDING_BOX) as [total_tiles details].
  destruct (estimate_size total_tiles 15) as [est_mb est_gb].
  assert (Hmb : forall b,
    Configured.main_benchmark b P fmt W w total_tiles s
    = (inr e, PState (stats s) (trace s ++ [EvPrint (MsgBenchmarking 10)]) (ticks s))).
  { intros b. unfold Configured.main_benchmark, Configured.benchmark_speed, bind, emit.
    fold (bench_samples 10).
    destruct (bench_samples_length 10) as [Hlen _].
    destruct (bench_samples 10) as [| [[z x] y] rest]; [discriminate | ].
    rewrite (bench_loop_unformed b P fmt w 10 z x y rest [] _ e (Hfmt z x y)).
    reflexivity. }
  rewrite Hmb. cbn [futures result final out stats].
  split; [reflexivity | split; [reflexivity | split; [reflexivity | ]]].
  split; [ | split].
  - rewrite !core_of_app, core_of_lines, core_of_core_events, events_since_app.
    reflexivity.
  - intros a Hin. rewrite !in_app_iff in Hin.
    repeat match goal with
           | H : _ \/ _ |- _ => destruct H
           | H : In _ (_ :: _) |- _ => destruct H
           | H : In _ [] |- _ => destruct H
           end;
      try discriminate.
    + eapply prompt_not_in_plan; eassumption.
    + eapply prompt_not_in_core; eassumption.
  - intros Hin. rewrite !in_app_iff in Hin.
    repeat match goal with
           | H : _ \/ _ |- _ => destruct H
           | H : In _ (_ :: _) |- _ => destruct H
           | H : In _ [] |- _ => destruct H
           end;
      try discriminate.
    + eapply starting_not_in_plan; eassumption.
    + eapply starting_not_in_core; eassumption.
Qed.

Lemma unformattable_pattern_aborts_main_witness :
  let r := main ascii_strip_lower (Some "AKIAEXAMPLE"%string) (Some bucket) None
             format_returns 2 16 20 true world_serving (inl ""%string) pstate0 in
  result r = inr (OtherException "AttributeError") /\
  futures r = [] /\
  stats (final r) = stats pstate0 /\
  core_of (out r) = [EvPrint (MsgBenchmarking 10)] /\
  (forall a, ~ In (Prompt a) (out r)) /\
  ~ In (Console LineStarting) (out r).
Proof.
  apply (unformattable_pattern_aborts_main ascii_strip_lower (Some "AKIAEXAMPLE"%string)
           (Some bucket) None format_returns 2 16 20 true world_serving (inl ""%string)
           pstate0 (OtherException "AttributeError")).
  - reflexivity.
  - reflexivity.
  - vm_compute. discriminate.
  - intros z x y. reflexivity.
Defined.

End MainExtras.
